(** * Approval and activity workflow of the dashboard server (src/server.js)

    A shallow embedding of the vault-backed approval workflow: the
    directory buckets, the front-matter parser, the approval listing and
    decision, the day-bucket activity log, the dashboard aggregator and the
    two POST handlers.

    Conventions of the model.
    - A JavaScript string is a [string]; its characters are the code units
      below 256.
    - A JavaScript number is a [number]: NaN, an infinity, or the rational
      its double denotes (the negative zero is identified with zero; the
      rounding of integers beyond 2^53 is not modelled).
    - The vault is a two-level tree: root entries, and inside every bucket
      an ordered sequence of entries, in the order [fs.readdir] reports
      them.  A new entry is placed last; removing an entry keeps the order
      of the others.
    - A plain object is the list of its own properties in insertion
      order (the array-index names, which JavaScript enumerates first, are
      kept where they were inserted).
    - [await] is sequencing: the functions run to completion one after the
      other, in the state-and-exception monad [M].
    - The winston logger writes outside the vault and is left out.
    - The built-ins whose results depend on the engine, the locale or the
      wall clock are the fields of the class [Runtime]; the general
      theorems hold for every runtime, and [Node.reference] is a concrete
      one that the closed examples evaluate. *)

From Stdlib Require Import String Ascii List ZArith QArith Bool Lia DecimalString.
Set Warnings "-register-all".
Import ListNotations.
Local Open Scope string_scope.
Local Open Scope Z_scope.

(* ------------------------------------------------------------------ *)
(** ** Strings *)

Module Str.

Definition LF : ascii := ascii_of_nat 10.
Definition nl : string := String LF "".
Definition dquote : string := String (ascii_of_nat 34) "".

(** [s.startsWith(p)], returning what follows the prefix. *)
Fixpoint strip_prefix (p s : string) : option string :=
  match p, s with
  | EmptyString, _ => Some s
  | String a p', String b s' =>
      if Ascii.eqb a b then strip_prefix p' s' else None
  | String _ _, EmptyString => None
  end.

(** The first occurrence of [p] in [s]: the text before it and the text
    after it. *)
Fixpoint find_sub (p s : string) : option (string * string) :=
  match strip_prefix p s with
  | Some rest => Some (EmptyString, rest)
  | None =>
      match s with
      | EmptyString => None
      | String c s' =>
          match find_sub p s' with
          | Some (b, a) => Some (String c b, a)
          | None => None
          end
      end
  end.

(** [s.includes(p)] *)
Definition includes (s p : string) : bool :=
  match find_sub p s with Some _ => true | None => false end.

(** [s.endsWith(p)]: some suffix of [s] is [p]. *)
Fixpoint endsWith (s p : string) : bool :=
  String.eqb s p ||
  match s with
  | EmptyString => false
  | String _ s' => endsWith s' p
  end.

(** [s.split(sep)] for a separator of one character. *)
Fixpoint split (sep : ascii) (s : string) : list string :=
  match s with
  | EmptyString => [EmptyString]
  | String c s' =>
      if Ascii.eqb c sep then EmptyString :: split sep s'
      else match split sep s' with
           | h :: t => String c h :: t
           | [] => [String c EmptyString]
           end
  end.

(** [parts.join(sep)] *)
Definition join (sep : string) (parts : list string) : string :=
  String.concat sep parts.

(** White space and line terminators among the code units below 256. *)
Definition is_space (c : ascii) : bool :=
  let n := nat_of_ascii c in
  ((9 <=? n)%nat && (n <=? 13)%nat) || (n =? 32)%nat || (n =? 160)%nat.

Fixpoint trimStart (s : string) : string :=
  match s with
  | EmptyString => EmptyString
  | String c s' => if is_space c then trimStart s' else s
  end.

Fixpoint trimEnd (s : string) : string :=
  match s with
  | EmptyString => EmptyString
  | String c s' =>
      match trimEnd s' with
      | EmptyString => if is_space c then EmptyString else String c EmptyString
      | t => String c t
      end
  end.

(** [s.trim()] *)
Definition trim (s : string) : string := trimEnd (trimStart s).

(** The value of [c] as a digit of the given radix (10 or 16). *)
Definition digit (radix : Z) (c : ascii) : option Z :=
  let n := Z.of_nat (nat_of_ascii c) in
  let d :=
    if (48 <=? n) && (n <=? 57) then Some (n - 48)
    else if (97 <=? n) && (n <=? 102) then Some (n - 87)
    else if (65 <=? n) && (n <=? 70) then Some (n - 55)
    else None in
  match d with
  | Some v => if v <? radix then Some v else None
  | None => None
  end.

(** The digits of the longest prefix of [s] made of digits. *)
Fixpoint leading_digits (radix : Z) (s : string) : list Z :=
  match s with
  | EmptyString => []
  | String c s' =>
      match digit radix c with
      | Some d => d :: leading_digits radix s'
      | None => []
      end
  end.

Definition digits_value (radix : Z) (ds : list Z) : Z :=
  fold_left (fun acc d => acc * radix + d) ds 0.

(** [parseInt(s)] without a radix argument; [None] is NaN. *)
Definition parseInt (s : string) : option Z :=
  let s1 := trimStart s in
  let '(negative, s2) :=
    match s1 with
    | String "-" r => (true, r)
    | String "+" r => (false, r)
    | _ => (false, s1)
    end in
  let '(radix, s3) :=
    match s2 with
    | String "0" (String "x" r) => (16, r)
    | String "0" (String "X" r) => (16, r)
    | _ => (10, s2)
    end in
  match leading_digits radix s3 with
  | [] => None
  | ds => Some (if negative : bool then - digits_value radix ds
                else digits_value radix ds)
  end.

(** The replacement text of [String.prototype.replace] for a pattern
    without capture groups: [$$], [$&], [$`] and [$'] are expanded, any
    other [$] stands for itself. *)
Fixpoint getSubstitution (matched before after template : string) : string :=
  match template with
  | EmptyString => EmptyString
  | String "$" (String c rest) =>
      if Ascii.eqb c "$" then
        String "$" (getSubstitution matched before after rest)
      else if Ascii.eqb c "&" then
        matched ++ getSubstitution matched before after rest
      else if Ascii.eqb c "`" then
        before ++ getSubstitution matched before after rest
      else if Ascii.eqb c "'" then
        after ++ getSubstitution matched before after rest
      else
        String "$" (String c (getSubstitution matched before after rest))
  | String c rest => String c (getSubstitution matched before after rest)
  end.

(** A replacement text without a dollar sign. *)
Fixpoint plain (t : string) : bool :=
  match t with
  | EmptyString => true
  | String c r => negb (Ascii.eqb c "$") && plain r
  end.

(** [s.replace(/p/, template)] for a pattern [p] that is a literal text:
    only the first occurrence is replaced, and a text without one is
    returned as it is. *)
Definition replace_first (p template s : string) : string :=
  match find_sub p s with
  | Some (before, after) =>
      before ++ getSubstitution p before after template ++ after
  | None => s
  end.

End Str.

(* ------------------------------------------------------------------ *)
(** ** JavaScript values *)

Inductive number : Type :=
| NaN
| Infinity (negative : bool)
| Finite (q : Q).

(** [VNative k] is the function or object that a plain object inherits
    from [Object.prototype] under the name [k]. *)
Inductive value : Type :=
| VUndefined
| VNull
| VBool (b : bool)
| VNum (n : number)
| VStr (s : string)
| VArr (items : list value)
| VObj (props : list (string * value))
| VNative (name : string).

Definition VInt (z : Z) : value := VNum (Finite (inject_Z z)).

(** ToBoolean *)
Definition truthy (v : value) : bool :=
  match v with
  | VUndefined | VNull => false
  | VBool b => b
  | VNum NaN => false
  | VNum (Infinity _) => true
  | VNum (Finite q) => negb (Qnum q =? 0)
  | VStr s => negb (String.eqb s "")
  | VArr _ | VObj _ | VNative _ => true
  end.

(** [a || b] *)
Definition or_else (a b : value) : value := if truthy a then a else b.

(** Strict equality with a string literal: [v === 'lit']. *)
Definition is_string (v : value) (lit : string) : bool :=
  match v with
  | VStr s => String.eqb s lit
  | _ => false
  end.

(** *** Plain objects as ordered property lists *)

Fixpoint obj_find (props : list (string * value)) (k : string) : option value :=
  match props with
  | [] => None
  | (k', v) :: rest => if String.eqb k' k then Some v else obj_find rest k
  end.

(** [o[k] = v]: an existing property keeps its place. *)
Fixpoint obj_set (props : list (string * value)) (k : string) (v : value)
  : list (string * value) :=
  match props with
  | [] => [(k, v)]
  | (k', v') :: rest =>
      if String.eqb k' k then (k, v) :: rest else (k', v') :: obj_set rest k v
  end.

(** [{...a, ...b}] *)
Definition obj_spread (a b : list (string * value)) : list (string * value) :=
  fold_left (fun acc kv => obj_set acc (fst kv) (snd kv)) b a.

(** The names every plain object inherits from [Object.prototype]. *)
Definition Object_prototype_names : list string :=
  [ "constructor"; "__proto__"; "hasOwnProperty"; "isPrototypeOf";
    "propertyIsEnumerable"; "toLocaleString"; "toString"; "valueOf";
    "__defineGetter__"; "__defineSetter__"; "__lookupGetter__";
    "__lookupSetter__" ].

Definition inherited (k : string) : bool :=
  existsb (String.eqb k) Object_prototype_names.

(** [o[k]] for a plain object [o]. *)
Definition obj_get (props : list (string * value)) (k : string) : value :=
  match obj_find props k with
  | Some v => v
  | None => if inherited k then VNative k else VUndefined
  end.

(** [v.k] for one of the property names this program reads
    ([approvalId], [action], [timestamp], [weeklyRevenue], ...): none of
    them is a property of a string, a number, a boolean or an array, and
    reading a property of [null] or [undefined] throws ([None]). *)
Definition member (v : value) (k : string) : option value :=
  match v with
  | VUndefined | VNull => None
  | VObj props => Some (obj_get props k)
  | _ => Some VUndefined
  end.

(* ------------------------------------------------------------------ *)
(** ** The runtime

    [JSON_parse] returns [None] where [JSON.parse] throws;
    [JSON_stringify v] is [JSON.stringify(v, null, 2)];
    [Date_now k] is the [k]-th reading of the wall clock, in milliseconds;
    [Date_toISOString t] is [new Date(t).toISOString()] for a clock reading;
    [Date_toLocaleTimeString v] is [new Date(v).toLocaleTimeString()] for a
    value [v] whose conversion to a primitive does not throw, and
    [Date_toLocaleDateString t] is [new Date(t).toLocaleDateString()]. *)

Class Runtime : Type := {
  Number_toString : number -> string;
  JSON_parse : string -> option value;
  JSON_stringify : value -> string;
  Date_now : nat -> Z;
  Date_toISOString : Z -> string;
  Date_toLocaleTimeString : value -> string;
  Date_toLocaleDateString : Z -> string
}.

(* ------------------------------------------------------------------ *)
(** ** The vault *)

Module Vfs.

(** An entry of a bucket: a regular file, or something [fs.readFile]
    fails on (a sub-directory, a file without read permission). *)
Inductive leaf : Type :=
| File (content : string)
| Opaque.

Inductive node : Type :=
| RootFile (content : string)
| Bucket (entries : list (string * leaf)).

Definition Vault : Type := list (string * node).

(** A path below [VAULT_PATH], one component per element. *)
Definition path : Type := list string.

Section Assoc.
Context {A : Type}.

Fixpoint lookup (l : list (string * A)) (k : string) : option A :=
  match l with
  | [] => None
  | (k', a) :: rest => if String.eqb k' k then Some a else lookup rest k
  end.

(** Replace the entry named [k] where it stands, or add it last. *)
Fixpoint store (l : list (string * A)) (k : string) (a : A)
  : list (string * A) :=
  match l with
  | [] => [(k, a)]
  | (k', a') :: rest =>
      if String.eqb k' k then (k, a) :: rest else (k', a') :: store rest k a
  end.

Definition remove (l : list (string * A)) (k : string) : list (string * A) :=
  filter (fun e => negb (String.eqb (fst e) k)) l.

Definition names (l : list (string * A)) : list string := map fst l.
End Assoc.

End Vfs.
Import Vfs.

(* ------------------------------------------------------------------ *)
(** ** State and exceptions *)

Record exn : Type := Exn { exn_name : string; exn_message : string }.

(** File-system failures carry their code; the program never reads it. *)
Definition fs_error (code : string) : exn := Exn "Error" code.

Record World : Type := mkWorld {
  vault : Vault;
  ticks : nat    (** how many times the wall clock has been read *)
}.

Inductive outcome (A : Type) : Type :=
| Ok (a : A)
| Throw (e : exn).
Arguments Ok {A} a.
Arguments Throw {A} e.

Definition M (A : Type) : Type := World -> outcome A * World.

Definition ret {A} (a : A) : M A := fun w => (Ok a, w).

Definition throw {A} (e : exn) : M A := fun w => (Throw e, w).

Definition bind {A B} (m : M A) (k : A -> M B) : M B :=
  fun w =>
    match m w with
    | (Ok a, w') => k a w'
    | (Throw e, w') => (Throw e, w')
    end.

(** [try { m } catch (e) { h e }] *)
Definition try_catch {A} (m : M A) (h : exn -> M A) : M A :=
  fun w =>
    match m w with
    | (Ok a, w') => (Ok a, w')
    | (Throw e, w') => h e w'
    end.

Declare Scope js_scope.
Delimit Scope js_scope with js.
Notation "x <- m ;; k" := (bind m (fun x => k))
  (at level 61, m at next level, right associativity) : js_scope.
Notation "m ;; k" := (bind m (fun _ => k))
  (at level 61, right associativity) : js_scope.
Local Open Scope js_scope.

(** A value that may have thrown a TypeError, lifted into [M]. *)
Definition or_TypeError {A} (message : string) (o : option A) : M A :=
  match o with
  | Some a => ret a
  | None => throw (Exn "TypeError" message)
  end.

(** *** The [fs.promises] primitives *)

Definition get_vault : M Vault := fun w => (Ok (vault w), w).

Definition put_vault (v : Vault) : M unit :=
  fun w => (Ok tt, mkWorld v (ticks w)).

Definition bucket_of (v : Vault) (dir : string) : M (list (string * leaf)) :=
  match lookup v dir with
  | Some (Bucket entries) => ret entries
  | Some (RootFile _) => throw (fs_error "ENOTDIR")
  | None => throw (fs_error "ENOENT")
  end.

(** [fs.readdir(dir)] *)
Definition fs_readdir (dir : string) : M (list string) :=
  v <- get_vault ;;
  entries <- bucket_of v dir ;;
  ret (names entries).

(** [fs.readFile(p, 'utf-8')] *)
Definition fs_readFile (p : path) : M string :=
  v <- get_vault ;;
  match p with
  | [name] =>
      match lookup v name with
      | Some (RootFile content) => ret content
      | Some (Bucket _) => throw (fs_error "EISDIR")
      | None => throw (fs_error "ENOENT")
      end
  | [dir; name] =>
      entries <- bucket_of v dir ;;
      match lookup entries name with
      | Some (File content) => ret content
      | Some Opaque => throw (fs_error "EISDIR")
      | None => throw (fs_error "ENOENT")
      end
  | _ => throw (fs_error "ENOENT")
  end.

(** [fs.writeFile(p, content)] *)
Definition fs_writeFile (p : path) (content : string) : M unit :=
  v <- get_vault ;;
  match p with
  | [name] =>
      match lookup v name with
      | Some (Bucket _) => throw (fs_error "EISDIR")
      | _ => put_vault (store v name (RootFile content))
      end
  | [dir; name] =>
      entries <- bucket_of v dir ;;
      match lookup entries name with
      | Some Opaque => throw (fs_error "EISDIR")
      | _ => put_vault (store v dir (Bucket (store entries name (File content))))
      end
  | _ => throw (fs_error "ENOENT")
  end.

(** [fs.mkdir(dir, { recursive: true })] for a bucket of the vault. *)
Definition fs_mkdir (dir : string) : M unit :=
  v <- get_vault ;;
  match lookup v dir with
  | Some (Bucket _) => ret tt
  | Some (RootFile _) => throw (fs_error "EEXIST")
  | None => put_vault (store v dir (Bucket []))
  end.

(** [fs.rename(src/name, dst/name)] between two different buckets.  A
    regular file replaces a regular file of the same name; nothing
    replaces, or is replaced by, an entry that is not one. *)
Definition fs_rename (src dst name : string) : M unit :=
  v <- get_vault ;;
  from <- bucket_of v src ;;
  match lookup from name with
  | None => throw (fs_error "ENOENT")
  | Some moved =>
      to <- bucket_of v dst ;;
      let clash :=
        match lookup to name, moved with
        | None, _ => false
        | Some (File _), File _ => false
        | Some _, _ => true
        end in
      if clash then throw (fs_error "ENOTEMPTY")
      else
        put_vault (store (store v src (Bucket (remove from name)))
                         dst (Bucket (store to name moved)))
  end.

(** [new Date()] or [Date.now()]: one reading of the clock. *)
Definition clock `{Runtime} : M Z :=
  fun w => (Ok (Date_now (ticks w)), mkWorld (vault w) (S (ticks w))).

(* ------------------------------------------------------------------ *)
(** ** The server (src/server.js) *)

Section Server.
Context `{Runtime}.

(** ToString, as used by template literals, [toString()] calls and
    property keys; [None] is a TypeError.  A plain object with an own
    property named [toString] holds a value that cannot be called. *)
Fixpoint ToString (v : value) : option string :=
  match v with
  | VUndefined => Some "undefined"
  | VNull => Some "null"
  | VBool b => Some (if b then "true" else "false")
  | VNum n => Some (Number_toString n)
  | VStr s => Some s
  | VArr items =>
      let fix elements (l : list value) : option (list string) :=
        match l with
        | [] => Some []
        | x :: rest =>
            let piece :=
              match x with
              | VUndefined | VNull => Some ""
              | _ => ToString x
              end in
            match piece, elements rest with
            | Some s, Some ss => Some (s :: ss)
            | _, _ => None
            end
        end in
      option_map (Str.join ",") (elements items)
  | VObj props =>
      match obj_find props "toString" with
      | Some _ => None
      | None => Some "[object Object]"
      end
  | VNative name =>
      if String.eqb name "__proto__" then Some "[object Object]"
      else if String.eqb name "constructor"
           then Some "function Object() { [native code] }"
           else Some ("function " ++ name ++ "() { [native code] }")
  end.

(** [JSON.parse(text)] *)
Definition parse_json (text : string) : M value :=
  match JSON_parse text with
  | Some v => ret v
  | None => throw (Exn "SyntaxError" "Unexpected token")
  end.

Definition VAULT_Pending_Approval : string := "Pending_Approval".
Definition VAULT_Approved : string := "Approved".
Definition VAULT_Rejected : string := "Rejected".
Definition VAULT_Logs : string := "Logs".

(** [getDashboardTemplate()] *)
Definition getDashboardTemplate : M string :=
  t1 <- clock ;;
  t2 <- clock ;;
  t3 <- clock ;;
  ret ("---
last_updated: " ++ Date_toISOString t1 ++ "
status: active
---


# AI Employee Dashboard


## Current Status
- **AI Status**: Active
- **Last Audit**: Today
- **Uptime**: 99.8%


## Pending Actions
- [ ] Review emails (5 unread)
- [ ] Process WhatsApp messages (2 urgent)
- [ ] Generate weekly report


## Recent Activity
- " ++ Date_toLocaleDateString t2 ++ ": System initialized
- " ++ Date_toLocaleDateString t3 ++ ": Dashboard created


## Quick Stats
- Weekly Revenue: $2,450
- Tasks Completed: 42
- Messages Processed: 128
").

(** [getSampleActivities()] *)
Definition getSampleActivities : M (list value) :=
  t <- clock ;;
  ret [ VObj [ ("id", VInt 1);
               ("type", VStr "email");
               ("title", VStr "System initialized");
               ("description", VStr "AI Employee started successfully");
               ("time", VStr (Date_toLocaleTimeString (VInt t)));
               ("icon", VStr "fas fa-rocket");
               ("iconColor", VStr "#10b981") ] ].

(** The capture of [/^---\n([\s\S]*?)\n---/]: the text between the
    opening line and the first following line that starts with [---]. *)
Definition frontmatterMatch (content : string) : option string :=
  match Str.strip_prefix ("---" ++ Str.nl) content with
  | Some rest =>
      match Str.find_sub (Str.nl ++ "---") rest with
      | Some (captured, _) => Some captured
      | None => None
      end
  | None => None
  end.

(** [frontmatter[key] = text]: assigning a string to [__proto__] does
    nothing. *)
Definition frontmatter_assign (frontmatter : list (string * value))
           (key text : string) : list (string * value) :=
  if String.eqb key "__proto__" then frontmatter
  else obj_set frontmatter key (VStr text).

(** [parseFrontmatter(content)] *)
Definition parseFrontmatter (content : string) : list (string * value) :=
  match frontmatterMatch content with
  | None => []
  | Some block =>
      fold_left
        (fun frontmatter line =>
           match Str.split ":" line with
           | key :: valueParts =>
               if negb (String.eqb key "") && negb (length valueParts =? 0)%nat
               then frontmatter_assign frontmatter (Str.trim key)
                      (Str.trim (Str.join ":" valueParts))
               else frontmatter
           | [] => frontmatter
           end)
        (Str.split Str.LF block) []
  end.

(** [parseInt(file.split('_')[1]) || Date.now()] *)
Definition approval_id (file : string) : M value :=
  let second :=
    match nth_error (Str.split "_" file) 1 with
    | Some part => part
    | None => "undefined"
    end in
  match Str.parseInt second with
  | Some n => if n =? 0 then t <- clock ;; ret (VInt t) else ret (VInt n)
  | None => t <- clock ;; ret (VInt t)
  end.

(** The object pushed for one pending file. *)
Definition approval_record (id : value) (file : string)
           (metadata : list (string * value)) : value :=
  let o := obj_spread [("id", id); ("file", VStr file)] metadata in
  let o := obj_set o "title"
             (or_else (obj_get metadata "subject") (obj_get metadata "action")) in
  let o := obj_set o "description"
             (or_else (obj_get metadata "description") (VStr "Requires approval")) in
  let o := obj_set o "amount" (or_else (obj_get metadata "amount") (VInt 0)) in
  let o := obj_set o "recipient"
             (or_else (obj_get metadata "recipient") (VStr "Unknown")) in
  VObj o.

(** The body of the [for (const file of files)] loop. *)
Fixpoint pending_loop (files : list string) (approvals : list value)
  : M (list value) :=
  match files with
  | [] => ret approvals
  | file :: rest =>
      if Str.endsWith file ".md" then
        content <- fs_readFile [VAULT_Pending_Approval; file] ;;
        let metadata := parseFrontmatter content in
        id <- approval_id file ;;
        pending_loop rest (approvals ++ [approval_record id file metadata])
      else pending_loop rest approvals
  end.

(** [getPendingApprovals()] *)
Definition getPendingApprovals : M (list value) :=
  try_catch
    (files <- fs_readdir VAULT_Pending_Approval ;;
     pending_loop files [])
    (fun _ => ret []).

(** [table[key] || fallback] for the three look-up tables. *)
Definition table_lookup (table : list (string * value)) (key fallback : string)
  : value :=
  or_else (obj_get table key) (VStr fallback).

Definition activity_titles : list (string * value) :=
  [ ("email_send", VStr "Email sent");
    ("whatsapp_reply", VStr "WhatsApp replied");
    ("payment_processed", VStr "Payment processed");
    ("social_post", VStr "Social media post");
    ("audit_completed", VStr "Audit completed") ].

Definition activity_icons : list (string * value) :=
  [ ("email_send", VStr "fas fa-envelope");
    ("whatsapp_reply", VStr "fab fa-whatsapp");
    ("payment_processed", VStr "fas fa-credit-card");
    ("social_post", VStr "fas fa-share-alt");
    ("audit_completed", VStr "fas fa-chart-bar") ].

Definition activity_colors : list (string * value) :=
  [ ("email_send", VStr "#2563eb");
    ("whatsapp_reply", VStr "#25d366");
    ("payment_processed", VStr "#10b981");
    ("social_post", VStr "#0077b5");
    ("audit_completed", VStr "#f59e0b") ].

(** [getActivityTitle(log)] *)
Definition getActivityTitle (log : value) : option value :=
  match member log "action_type" with
  | Some actionType =>
      option_map (fun key => table_lookup activity_titles key "Action performed")
                 (ToString actionType)
  | None => None
  end.

(** [getActivityDescription(log)] *)
Definition getActivityDescription (log : value) : option value :=
  match member log "description", member log "action_type" with
  | Some description, Some actionType =>
      if truthy description then Some description
      else option_map (fun s => VStr ("Action: " ++ s)) (ToString actionType)
  | _, _ => None
  end.

(** [getActivityIcon(actionType)] *)
Definition getActivityIcon (actionType : value) : option value :=
  option_map (fun key => table_lookup activity_icons key "fas fa-cog")
             (ToString actionType).

(** [getActivityColor(actionType)] *)
Definition getActivityColor (actionType : value) : option value :=
  option_map (fun key => table_lookup activity_colors key "#6b7280")
             (ToString actionType).

(** The callback of [logs.slice(-10).map(...)]; [None] when it throws. *)
Definition activity_of (log : value) : option value :=
  match member log "timestamp", member log "action_type" with
  | Some timestamp, Some actionType =>
      match getActivityTitle log, getActivityDescription log,
            ToString timestamp,
            getActivityIcon actionType, getActivityColor actionType with
      | Some title, Some description, Some _, Some icon, Some color =>
          Some (VObj [ ("id", timestamp);
                       ("type", actionType);
                       ("title", title);
                       ("description", description);
                       ("time", VStr (Date_toLocaleTimeString timestamp));
                       ("icon", icon);
                       ("iconColor", color) ])
      | _, _, _, _, _ => None
      end
  | _, _ => None
  end.

(** [xs.slice(-n)] *)
Definition slice_last {A} (n : nat) (xs : list A) : list A :=
  skipn (length xs - n) xs.

Fixpoint map_all {A B} (f : A -> option B) (xs : list A) : option (list B) :=
  match xs with
  | [] => Some []
  | x :: rest =>
      match f x, map_all f rest with
      | Some y, Some ys => Some (y :: ys)
      | _, _ => None
      end
  end.

(** [<today>.json], the day-bucket of one clock reading. *)
Definition day_bucket (t : Z) : string :=
  match Str.split "T" (Date_toISOString t) with
  | today :: _ => today ++ ".json"
  | [] => "undefined.json"
  end.

(** [getRecentActivities()] *)
Definition getRecentActivities : M (list value) :=
  try_catch
    (t <- clock ;;
     let logFile := [VAULT_Logs; day_bucket t] in
     try_catch
       (logContent <- fs_readFile logFile ;;
        logs <- parse_json logContent ;;
        match logs with
        | VArr entries =>
            or_TypeError "Cannot read properties of null"
              (map_all activity_of (slice_last 10 entries))
        | _ => throw (Exn "TypeError" "logs.slice(...).map is not a function")
        end)
       (fun _ => getSampleActivities))
    (fun _ => getSampleActivities).

(** [v.toString()] *)
Definition toString_method (v : value) : option string :=
  match v with
  | VUndefined | VNull => None
  | _ => ToString v
  end.

(** [files.find(f => f.includes(approvalId.toString()))] *)
Fixpoint find_approval_file (files : list string) (approvalId : value)
  : M (option string) :=
  match files with
  | [] => ret None
  | f :: rest =>
      wanted <- or_TypeError "approvalId.toString is not a function"
                  (toString_method approvalId) ;;
      if Str.includes f wanted then ret (Some f)
      else find_approval_file rest approvalId
  end.

(** The replacement text
    [`status: ${action}d\napproved_at: ${new Date().toISOString()}`]. *)
Definition status_template (action : string) (t : Z) : string :=
  "status: " ++ action ++ "d" ++ Str.nl ++ "approved_at: " ++ Date_toISOString t.

(** [updateApprovalStatus(approvalId, action)] *)
Definition updateApprovalStatus (approvalId action : value) : M unit :=
  files <- fs_readdir VAULT_Pending_Approval ;;
  found <- find_approval_file files approvalId ;;
  match found with
  | Some approvalFile =>
      if String.eqb approvalFile "" then ret tt
      else
        let destDir :=
          if is_string action "approve" then VAULT_Approved else VAULT_Rejected in
        fs_mkdir destDir ;;
        fs_rename VAULT_Pending_Approval destDir approvalFile ;;
        content <- fs_readFile [destDir; approvalFile] ;;
        shown <- or_TypeError "Cannot convert object to primitive value"
                   (ToString action) ;;
        t <- clock ;;
        let updatedContent :=
          Str.replace_first "status: pending" (status_template shown t) content in
        fs_writeFile [destDir; approvalFile] updatedContent
  | None => ret tt
  end.

(** [executeApprovedAction(approvalId)]: only a logger line, whose
    template converts [approvalId] to a string. *)
Definition executeApprovedAction (approvalId : value) : M unit :=
  _ <- or_TypeError "Cannot convert object to primitive value"
         (ToString approvalId) ;;
  ret tt.

(** [logAction(logEntry)] *)
Definition logAction (logEntry : value) : M unit :=
  t <- clock ;;
  let logFile := [VAULT_Logs; day_bucket t] in
  logs <- try_catch
            (content <- fs_readFile logFile ;;
             parse_json content)
            (fun _ => ret (VArr [])) ;;
  match logs with
  | VArr entries =>
      fs_writeFile logFile (JSON_stringify (VArr (entries ++ [logEntry])))
  | _ => throw (Exn "TypeError" "logs.push is not a function")
  end.

(** The four processing routines only write a logger line. *)
Definition processEmails : M unit := ret tt.
Definition processWhatsApp : M unit := ret tt.
Definition runBusinessAudit : M unit := ret tt.
Definition generateReport : M unit := ret tt.

Definition default_stats : list (string * value) :=
  [ ("weeklyRevenue", VInt 2450);
    ("pendingTasks", VInt 8);
    ("unreadMessages", VInt 5);
    ("aiUptime", VNum (Finite (998 # 10))) ].

(** [getDefaultDashboardData()] *)
Definition getDefaultDashboardData : M value :=
  activities <- getSampleActivities ;;
  template <- getDashboardTemplate ;;
  ret (VObj [ ("aiActive", VBool true);
              ("pendingApprovals", VArr []);
              ("recentActivities", VArr activities);
              ("stats", VObj default_stats);
              ("dashboardContent", VStr template) ]).

(** [stats.k || fallback] for every counter of [default_stats]. *)
Definition stats_of (stats : list (string * value)) : list (string * value) :=
  map (fun kd => (fst kd, or_else (obj_get stats (fst kd)) (snd kd))) default_stats.

(** The counters read off the parsed side-file, whatever it parsed to. *)
Definition read_stats (stats : value) : M (list (string * value)) :=
  match stats with
  | VUndefined | VNull =>
      throw (Exn "TypeError" "Cannot read properties of null")
  | VObj props => ret (stats_of props)
  | _ => ret (stats_of [])
  end.

(** [getDashboardData()] *)
Definition getDashboardData : M value :=
  try_catch
    (dashboardContent <- fs_readFile ["Dashboard.md"] ;;
     statsContent <- try_catch (fs_readFile [VAULT_Logs; "stats.json"])
                       (fun _ => ret "{}") ;;
     stats <- parse_json statsContent ;;
     approvals <- getPendingApprovals ;;
     activities <- getRecentActivities ;;
     counters <- read_stats stats ;;
     ret (VObj [ ("aiActive", VBool true);
                 ("pendingApprovals", VArr approvals);
                 ("recentActivities", VArr activities);
                 ("stats", VObj counters);
                 ("dashboardContent", VStr dashboardContent) ]))
    (fun _ => getDefaultDashboardData).

(** *** The routes *)

Record response : Type := Response { status : nat; body : value }.

(** [const { k, ... } = req.body] *)
Definition destructure (source : value) (k : string) : M value :=
  match source with
  | VUndefined =>
      throw (Exn "TypeError"
               ("Cannot destructure property '" ++ k
                  ++ "' of 'req.body' as it is undefined."))
  | VNull =>
      throw (Exn "TypeError"
               ("Cannot destructure property '" ++ k
                  ++ "' of 'req.body' as it is null."))
  | VObj props => ret (obj_get props k)
  | _ => ret VUndefined
  end.

(** [app.get('/api/dashboard')] *)
Definition api_dashboard : M response :=
  try_catch
    (dashboardData <- getDashboardData ;;
     ret (Response 200 dashboardData))
    (fun _ => ret (Response 500 (VObj [("error", VStr "Failed to load dashboard")]))).

(** [app.get('/api/approvals')] *)
Definition api_approvals : M response :=
  try_catch
    (approvals <- getPendingApprovals ;;
     ret (Response 200 (VArr approvals)))
    (fun _ => ret (Response 500 (VObj [("error", VStr "Failed to load approvals")]))).

(** [app.post('/api/approve')] *)
Definition api_approve (req_body : value) : M response :=
  try_catch
    (approvalId <- destructure req_body "approvalId" ;;
     action <- destructure req_body "action" ;;
     if negb (truthy approvalId) || negb (truthy action) then
       ret (Response 400 (VObj [("error", VStr "Missing required fields")]))
     else
       updateApprovalStatus approvalId action ;;
       (if is_string action "approve" then executeApprovedAction approvalId
        else ret tt) ;;
       t <- clock ;;
       logAction (VObj [ ("type", VStr "approval");
                         ("action", action);
                         ("approvalId", approvalId);
                         ("timestamp", VStr (Date_toISOString t)) ]) ;;
       shown <- or_TypeError "Cannot convert object to primitive value"
                  (ToString action) ;;
       ret (Response 200
              (VObj [ ("success", VBool true);
                      ("message", VStr ("Action " ++ shown ++ "d successfully")) ])))
    (fun _ => ret (Response 500 (VObj [("error", VStr "Failed to process approval")]))).

(** [app.post('/api/process')] *)
Definition api_process (req_body : value) : M response :=
  try_catch
    (action <- destructure req_body "action" ;;
     (if is_string action "emails" then processEmails
      else if is_string action "whatsapp" then processWhatsApp
      else if is_string action "audit" then runBusinessAudit
      else if is_string action "report" then generateReport
      else throw (Exn "Error" "Unknown action")) ;;
     shown <- or_TypeError "Cannot convert object to primitive value"
                (ToString action) ;;
     ret (Response 200
            (VObj [ ("success", VBool true);
                    ("message", VStr (shown ++ " processing started")) ])))
    (fun error => ret (Response 500 (VObj [("error", VStr (exn_message error))]))).

End Server.

(* ------------------------------------------------------------------ *)
(** ** A reference runtime

    A concrete [Runtime], for running the model on concrete vaults.  It
    follows ECMA-262 and ECMA-404 on the texts and numbers below; where an
    engine does more (characters from code unit 256 on, more than 15
    significant digits, dates written in other formats than
    [toISOString]'s), it is only an approximation.  The locale is en-GB and
    the time zone is UTC; the clock starts at 2026-01-01T00:00:00.000Z and
    advances by one millisecond per reading. *)

Module Node.

Definition Z_to_string (z : Z) : string :=
  DecimalString.NilZero.string_of_int (Z.to_int z).

Definition ndigits (z : Z) : Z := Z.of_nat (String.length (Z_to_string z)).

Fixpoint zeros (n : nat) : string :=
  match n with
  | O => ""
  | S n' => String "0" (zeros n')
  end.

Fixpoint take (n : nat) (s : string) : string :=
  match n, s with
  | S n', String c s' => String c (take n' s')
  | _, _ => ""
  end.

Fixpoint drop (n : nat) (s : string) : string :=
  match n, s with
  | S n', String _ s' => drop n' s'
  | _, _ => s
  end.

Fixpoint strip_trailing_zeros (s : string) : string :=
  match s with
  | EmptyString => ""
  | String c s' =>
      match strip_trailing_zeros s' with
      | EmptyString => if Ascii.eqb c "0" then "" else String c ""
      | t => String c t
      end
  end.

Definition pad (width : nat) (z : Z) : string :=
  let s := Z_to_string z in
  zeros (width - String.length s) ++ s.

(** The significant digits [ds] and the exponent [n] of a positive
    rational: it is [0.ds * 10^n], rounded to 17 digits. *)
Definition decimal_digits (num den : Z) : string * Z :=
  let n0 := ndigits num - ndigits den in
  let above :=
    if 0 <=? n0 then den * 10 ^ n0 <=? num else den <=? num * 10 ^ (- n0) in
  let n := if above : bool then n0 + 1 else n0 in
  let e := 17 - n in
  let '(sn, sd) :=
    if 0 <=? e then (num * 10 ^ e, den) else (num, den * 10 ^ (- e)) in
  let s := (2 * sn + sd) / (2 * sd) in
  if 10 ^ 17 <=? s then (strip_trailing_zeros (Z_to_string (s / 10)), n + 1)
  else (strip_trailing_zeros (Z_to_string s), n).

(** Number::toString (radix 10) *)
Definition number_toString (x : number) : string :=
  match x with
  | NaN => "NaN"
  | Infinity negative => if negative then "-Infinity" else "Infinity"
  | Finite q =>
      if Qnum q =? 0 then "0"
      else
        let sign := if Qnum q <? 0 then "-" else "" in
        let '(ds, n) := decimal_digits (Z.abs (Qnum q)) (Zpos (Qden q)) in
        let k := Z.of_nat (String.length ds) in
        sign ++
        (if (k <=? n) && (n <=? 21) then ds ++ zeros (Z.to_nat (n - k))
         else if (0 <? n) && (n <=? 21) then
           take (Z.to_nat n) ds ++ "." ++ drop (Z.to_nat n) ds
         else if (-6 <? n) && (n <=? 0) then
           "0." ++ zeros (Z.to_nat (- n)) ++ ds
         else
           let e := n - 1 in
           let shown := (if e <? 0 then "-" else "+") ++ Z_to_string (Z.abs e) in
           if k =? 1 then ds ++ "e" ++ shown
           else take 1 ds ++ "." ++ drop 1 ds ++ "e" ++ shown)
  end.

(** *** JSON.parse *)

Definition is_json_space (c : ascii) : bool :=
  let n := nat_of_ascii c in
  (n =? 32)%nat || (n =? 9)%nat || (n =? 10)%nat || (n =? 13)%nat.

Fixpoint skip_space (s : string) : string :=
  match s with
  | EmptyString => ""
  | String c s' => if is_json_space c then skip_space s' else s
  end.

Fixpoint take_digits (s : string) : list Z * string :=
  match s with
  | EmptyString => ([], "")
  | String c s' =>
      match Str.digit 10 c with
      | Some d => let '(ds, rest) := take_digits s' in (d :: ds, rest)
      | None => ([], s)
      end
  end.

(** The double nearest to [m * 10^e], as a [number]: overflow gives an
    infinity and underflow gives zero. *)
Definition number_of_decimal (m e : Z) : number :=
  if m =? 0 then Finite 0
  else
    let magnitude := ndigits (Z.abs m) + e in
    if 310 <? magnitude then Infinity (m <? 0)
    else if magnitude <? -330 then Finite 0
    else
      let q := if 0 <=? e then inject_Z (m * 10 ^ e)
               else Qmake m (Z.to_pos (10 ^ (- e))) in
      let a := Z.abs (Qnum q) in
      let d := Zpos (Qden q) in
      if (2 ^ 1024 - 2 ^ 970) * d <=? a then Infinity (m <? 0)
      else if a * 2 ^ 1075 <=? d then Finite 0
      else Finite (Qred q).

Definition parse_number (s : string) : option (number * string) :=
  let '(negative, s1) :=
    match s with
    | String "-" r => (true, r)
    | _ => (false, s)
    end in
  let '(int_digits, s2) :=
    match s1 with
    | String "0" r => ([0], r)
    | _ => take_digits s1
    end in
  match int_digits with
  | [] => None
  | _ =>
      let frac :=
        match s2 with
        | String "." r =>
            match take_digits r with
            | ([], _) => None
            | (ds, rest) => Some (ds, rest)
            end
        | _ => Some ([], s2)
        end in
      match frac with
      | None => None
      | Some (frac_digits, s3) =>
          let exponent :=
            match s3 with
            | String c r =>
                if Ascii.eqb c "e" || Ascii.eqb c "E" then
                  let '(minus, r1) :=
                    match r with
                    | String "-" r' => (true, r')
                    | String "+" r' => (false, r')
                    | _ => (false, r)
                    end in
                  match take_digits r1 with
                  | ([], _) => None
                  | (ds, rest) =>
                      let v := Str.digits_value 10 ds in
                      Some (if minus : bool then - v else v, rest)
                  end
                else Some (0, s3)
            | EmptyString => Some (0, s3)
            end in
          match exponent with
          | None => None
          | Some (e, s4) =>
              let m := Str.digits_value 10 (int_digits ++ frac_digits) in
              let m := if negative : bool then - m else m in
              Some (number_of_decimal m (e - Z.of_nat (length frac_digits)), s4)
          end
      end
  end.

Definition hex4 (a b c d : ascii) : option Z :=
  match Str.digit 16 a, Str.digit 16 b, Str.digit 16 c, Str.digit 16 d with
  | Some x, Some y, Some z, Some w => Some (((x * 16 + y) * 16 + z) * 16 + w)
  | _, _, _, _ => None
  end.

(** The rest of a string literal, after its opening quote. *)
Fixpoint parse_string (s : string) : option (string * string) :=
  match s with
  | EmptyString => None
  | String c r =>
      if Ascii.eqb c (ascii_of_nat 34) then Some ("", r)
      else if Ascii.eqb c "\" then
        match r with
        | String e r' =>
            let simple (x : nat) :=
              match parse_string r' with
              | Some (t, rest) => Some (String (ascii_of_nat x) t, rest)
              | None => None
              end in
            if Ascii.eqb e (ascii_of_nat 34) then simple 34%nat
            else if Ascii.eqb e "\" then simple 92%nat
            else if Ascii.eqb e "/" then simple 47%nat
            else if Ascii.eqb e "b" then simple 8%nat
            else if Ascii.eqb e "f" then simple 12%nat
            else if Ascii.eqb e "n" then simple 10%nat
            else if Ascii.eqb e "r" then simple 13%nat
            else if Ascii.eqb e "t" then simple 9%nat
            else if Ascii.eqb e "u" then
              match r' with
              | String h1 (String h2 (String h3 (String h4 r''))) =>
                  match hex4 h1 h2 h3 h4, parse_string r'' with
                  | Some code, Some (t, rest) =>
                      if code <? 256
                      then Some (String (ascii_of_nat (Z.to_nat code)) t, rest)
                      else None
                  | _, _ => None
                  end
              | _ => None
              end
            else None
        | EmptyString => None
        end
      else if (nat_of_ascii c <? 32)%nat then None
      else
        match parse_string r with
        | Some (t, rest) => Some (String c t, rest)
        | None => None
        end
  end.

Fixpoint parse_value (fuel : nat) (s : string) : option (value * string) :=
  match fuel with
  | O => None
  | S fuel' =>
      match skip_space s with
      | String "[" r =>
          match skip_space r with
          | String "]" r' => Some (VArr [], r')
          | _ =>
              match parse_elements fuel' r with
              | Some (items, rest) => Some (VArr items, rest)
              | None => None
              end
          end
      | String "{" r =>
          match skip_space r with
          | String "}" r' => Some (VObj [], r')
          | _ =>
              match parse_members fuel' r [] with
              | Some (props, rest) => Some (VObj props, rest)
              | None => None
              end
          end
      | String c r as s' =>
          if Ascii.eqb c (ascii_of_nat 34) then
            match parse_string r with
            | Some (t, rest) => Some (VStr t, rest)
            | None => None
            end
          else
            match Str.strip_prefix "null" s', Str.strip_prefix "true" s',
                  Str.strip_prefix "false" s' with
            | Some rest, _, _ => Some (VNull, rest)
            | _, Some rest, _ => Some (VBool true, rest)
            | _, _, Some rest => Some (VBool false, rest)
            | _, _, _ =>
                match parse_number s' with
                | Some (n, rest) => Some (VNum n, rest)
                | None => None
                end
            end
      | EmptyString => None
      end
  end

with parse_elements (fuel : nat) (s : string) : option (list value * string) :=
  match fuel with
  | O => None
  | S fuel' =>
      match parse_value fuel' s with
      | Some (v, rest) =>
          match skip_space rest with
          | String "," r =>
              match parse_elements fuel' r with
              | Some (vs, rest') => Some (v :: vs, rest')
              | None => None
              end
          | String "]" r => Some ([v], r)
          | _ => None
          end
      | None => None
      end
  end

with parse_members (fuel : nat) (s : string) (acc : list (string * value))
  : option (list (string * value) * string) :=
  match fuel with
  | O => None
  | S fuel' =>
      match skip_space s with
      | String c r =>
          if Ascii.eqb c (ascii_of_nat 34) then
            match parse_string r with
            | Some (k, rest) =>
                match skip_space rest with
                | String ":" r1 =>
                    match parse_value fuel' r1 with
                    | Some (v, rest1) =>
                        let acc' := obj_set acc k v in
                        match skip_space rest1 with
                        | String "," r2 => parse_members fuel' r2 acc'
                        | String "}" r2 => Some (acc', r2)
                        | _ => None
                        end
                    | None => None
                    end
                | _ => None
                end
            | None => None
            end
          else None
      | EmptyString => None
      end
  end.

(** [JSON.parse(text)]; the fuel covers every text, each call consuming
    a character at least every other step. *)
Definition json_parse (text : string) : option value :=
  match parse_value (2 * String.length text + 2) text with
  | Some (v, rest) =>
      match skip_space rest with
      | EmptyString => Some v
      | _ => None
      end
  | None => None
  end.

(** *** JSON.stringify(value, null, 2) *)

Definition hex_digit (n : nat) : ascii :=
  if (n <? 10)%nat then ascii_of_nat (48 + n) else ascii_of_nat (87 + n).

Fixpoint escape (s : string) : string :=
  match s with
  | EmptyString => ""
  | String c r =>
      let n := nat_of_ascii c in
      (if (n =? 34)%nat then "\" ++ Str.dquote
       else if (n =? 92)%nat then "\\"
       else if (n =? 8)%nat then "\b"
       else if (n =? 12)%nat then "\f"
       else if (n =? 10)%nat then "\n"
       else if (n =? 13)%nat then "\r"
       else if (n =? 9)%nat then "\t"
       else if (n <? 32)%nat then
         "\u00" ++ String (hex_digit (n / 16)) (String (hex_digit (n mod 16)) "")
       else String c "") ++ escape r
  end.

Definition quote (s : string) : string := Str.dquote ++ escape s ++ Str.dquote.

(** SerializeJSONProperty: [None] is [undefined]. *)
Fixpoint serialize (indent : string) (v : value) : option string :=
  let inner := indent ++ "  " in
  match v with
  | VUndefined | VNative _ => None
  | VNull => Some "null"
  | VBool b => Some (if b then "true" else "false")
  | VNum (Finite q) => Some (number_toString (Finite q))
  | VNum _ => Some "null"
  | VStr s => Some (quote s)
  | VArr items =>
      let fix elements (l : list value) : list string :=
        match l with
        | [] => []
        | x :: rest =>
            match serialize inner x with
            | Some t => t
            | None => "null"
            end :: elements rest
        end in
      match elements items with
      | [] => Some "[]"
      | parts =>
          Some ("[" ++ Str.nl ++ inner
                    ++ Str.join ("," ++ Str.nl ++ inner) parts
                    ++ Str.nl ++ indent ++ "]")
      end
  | VObj props =>
      let fix members (l : list (string * value)) : list string :=
        match l with
        | [] => []
        | (k, x) :: rest =>
            match serialize inner x with
            | Some t => (quote k ++ ": " ++ t) :: members rest
            | None => members rest
            end
        end in
      match members props with
      | [] => Some "{}"
      | parts =>
          Some ("{" ++ Str.nl ++ inner
                    ++ Str.join ("," ++ Str.nl ++ inner) parts
                    ++ Str.nl ++ indent ++ "}")
      end
  end.

Definition json_stringify (v : value) : string :=
  match serialize "" v with
  | Some text => text
  | None => "undefined"
  end.

(** *** Dates *)

Definition msPerDay : Z := 86400000.

(** Year, month and day of a day number counted from 1970-01-01. *)
Definition civil_of_days (days : Z) : Z * Z * Z :=
  let z := days + 719468 in
  let era := z / 146097 in
  let doe := z - era * 146097 in
  let yoe := (doe - doe / 1460 + doe / 36524 - doe / 146096) / 365 in
  let doy := doe - (365 * yoe + yoe / 4 - yoe / 100) in
  let mp := (5 * doy + 2) / 153 in
  let d := doy - (153 * mp + 2) / 5 + 1 in
  let m := if mp <? 10 then mp + 3 else mp - 9 in
  (yoe + era * 400 + (if m <=? 2 then 1 else 0), m, d).

Definition days_of_civil (y m d : Z) : Z :=
  let y' := if m <=? 2 then y - 1 else y in
  let era := y' / 400 in
  let yoe := y' - era * 400 in
  let doy := (153 * (if 2 <? m then m - 3 else m + 9) + 2) / 5 + d - 1 in
  era * 146097 + (yoe * 365 + yoe / 4 - yoe / 100 + doy) - 719468.

Definition clock_of (t : Z) : string :=
  let ms := t mod msPerDay in
  pad 2 (ms / 3600000) ++ ":" ++ pad 2 (ms / 60000 mod 60) ++ ":"
      ++ pad 2 (ms / 1000 mod 60).

(** [new Date(t).toISOString()] *)
Definition toISOString (t : Z) : string :=
  let '(y, m, d) := civil_of_days (t / msPerDay) in
  let year :=
    if (0 <=? y) && (y <=? 9999) then pad 4 y
    else (if y <? 0 then "-" else "+") ++ pad 6 (Z.abs y) in
  year ++ "-" ++ pad 2 m ++ "-" ++ pad 2 d ++ "T" ++ clock_of t ++ "."
       ++ pad 3 (t mod 1000) ++ "Z".

Fixpoint all_digits (s : string) : bool :=
  match s with
  | EmptyString => true
  | String c r =>
      match Str.digit 10 c with
      | Some _ => all_digits r
      | None => false
      end
  end.

Definition field (width : nat) (s : string) : option Z :=
  if (String.length s =? width)%nat && all_digits s
  then Some (Str.digits_value 10 (Str.leading_digits 10 s))
  else None.

(** The time value of a text in the format of [toISOString]. *)
Definition parse_iso (s : string) : option Z :=
  match Str.split "T" s with
  | [date; time] =>
      match Str.split "-" date, Str.split ":" time with
      | [ys; ms; ds], [hs; mins; rest] =>
          match Str.split "." rest with
          | [ss; frac] =>
              match field 4 ys, field 2 ms, field 2 ds, field 2 hs,
                    field 2 mins, field 2 ss, field 3 (take 3 frac) with
              | Some y, Some m, Some d, Some h, Some mi, Some sec, Some milli =>
                  let days := days_of_civil y m d in
                  if String.eqb (drop 3 frac) "Z" && (1 <=? m) && (m <=? 12)
                     && (1 <=? d) && (h <? 24) && (mi <? 60) && (sec <? 60)
                     && (let '(y', m', d') := civil_of_days days in
                         (y' =? y) && (m' =? m) && (d' =? d))
                  then Some (days * msPerDay + h * 3600000 + mi * 60000
                             + sec * 1000 + milli)
                  else None
              | _, _, _, _, _, _, _ => None
              end
          | _ => None
          end
      | _, _ => None
      end
  | _ => None
  end.

(** The time value of [new Date(v)]. *)
Definition time_value (v : value) : option Z :=
  let clip (t : Z) := if Z.abs t <=? 8640000000000000 then Some t else None in
  match v with
  | VNum (Finite q) => clip (Z.quot (Qnum q) (Zpos (Qden q)))
  | VBool b => Some (if b then 1 else 0)
  | VNull => Some 0
  | VStr s => parse_iso s
  | _ => None
  end.

(** [new Date(v).toLocaleTimeString()] *)
Definition toLocaleTimeString (v : value) : string :=
  match time_value v with
  | Some t => clock_of t
  | None => "Invalid Date"
  end.

(** [new Date(t).toLocaleDateString()] *)
Definition toLocaleDateString (t : Z) : string :=
  let '(y, m, d) := civil_of_days (t / msPerDay) in
  pad 2 d ++ "/" ++ pad 2 m ++ "/" ++ Z_to_string y.

Definition epoch_2026 : Z := 1767225600000.

Definition reference : Runtime :=
  {| Number_toString := number_toString;
     JSON_parse := json_parse;
     JSON_stringify := json_stringify;
     Date_now := fun k => epoch_2026 + Z.of_nat k;
     Date_toISOString := toISOString;
     Date_toLocaleTimeString := toLocaleTimeString;
     Date_toLocaleDateString := toLocaleDateString |}.

(** Test documents are written with single quotes for the double ones. *)
Fixpoint json (s : string) : string :=
  match s with
  | EmptyString => ""
  | String c r =>
      String (if Ascii.eqb c "'" then ascii_of_nat 34 else c) (json r)
  end.

End Node.

(* ------------------------------------------------------------------ *)
(** ** Observations on a vault, used in the statements *)

(** What [fs.readFile] and [fs.readdir] give on a vault. *)
Definition read_file (v : Vault) (p : path) : outcome string :=
  fst (fs_readFile p (mkWorld v 0)).

Definition read_dir (v : Vault) (dir : string) : outcome (list string) :=
  fst (fs_readdir dir (mkWorld v 0)).

(** The world after one reading of the clock. *)
Definition tick (w : World) : World := mkWorld (vault w) (S (ticks w)).

(** The file name carries a numeric identifier other than zero. *)
Definition encodes_id (file : string) : bool :=
  match nth_error (Str.split "_" file) 1 with
  | Some part =>
      match Str.parseInt part with
      | Some n => negb (n =? 0)
      | None => false
      end
  | None => false
  end.

(** The names [fs.readdir] reports for the pending bucket. *)
Definition pending_names (v : Vault) : list string :=
  match read_dir v "Pending_Approval" with
  | Ok files => files
  | Throw _ => []
  end.

(** The files the listing loop reads. *)
Definition md_files (files : list string) : list string :=
  filter (fun f => Str.endsWith f ".md") files.

(** The entries a decided file joins: those of the destination bucket,
    or none when [fs.mkdir] has to create it; [None] when the name is
    taken by a file. *)
Definition destination (v : Vault) (dest : string) : option (list (string * leaf)) :=
  match lookup v dest with
  | Some (Bucket to) => Some to
  | Some (RootFile _) => None
  | None => Some []
  end.

Section Observations.
Context `{Runtime}.

(** The entry the approve route logs for a decision taken at time [t]. *)
Definition decision_entry (approvalId action : value) (t : Z) : value :=
  VObj [ ("type", VStr "approval");
         ("action", action);
         ("approvalId", approvalId);
         ("timestamp", VStr (Date_toISOString t)) ].

(** The answer of the approve route to a decision that went through. *)
Definition decided (shown : string) : response :=
  Response 200
    (VObj [ ("success", VBool true);
            ("message", VStr ("Action " ++ shown ++ "d successfully")) ]).

(** A log entry every field of which converts to text. *)
Definition plain_entry (log : value) : Prop :=
  exists props,
    log = VObj props /\
    ToString (obj_get props "timestamp") <> None /\
    ToString (obj_get props "action_type") <> None.

(** The activity shown for a log entry keeps its timestamp and type. *)
Definition shows (log act : value) : Prop :=
  member act "id" = member log "timestamp" /\
  member act "type" = member log "action_type".

(** The feed of the day-bucket of clock reading [t], when it can be
    read, parsed and converted. *)
Definition recent_of (v : Vault) (t : Z) : option (list value) :=
  match read_file v [VAULT_Logs; day_bucket t] with
  | Ok content =>
      match JSON_parse content with
      | Some (VArr entries) => map_all activity_of (slice_last 10 entries)
      | _ => None
      end
  | Throw _ => None
  end.

(** What [logAction] finds in the day-bucket of clock reading [t]. *)
Definition stored_logs (v : Vault) (t : Z) : value :=
  match read_file v [VAULT_Logs; day_bucket t] with
  | Ok content =>
      match JSON_parse content with
      | Some logs => logs
      | None => VArr []
      end
  | Throw _ => VArr []
  end.

(** The header of a file is missing, or malformed: there is no block
    between two [---] lines at the start, or no line of the block has a
    colon. *)
Definition headerless (content : string) : Prop :=
  match frontmatterMatch content with
  | None => True
  | Some block =>
      Forall (fun line => Str.includes line ":" = false) (Str.split Str.LF block)
  end.

(** What the listing holds for the file [f] of a bucket. *)
Definition lists (entries : list (string * leaf)) (f : string) (r : value)
  : Prop :=
  exists content id,
    lookup entries f = Some (File content) /\
    r = approval_record id f (parseFrontmatter content) /\
    (headerless content ->
     r = VObj [ ("id", id); ("file", VStr f); ("title", VUndefined);
                ("description", VStr "Requires approval");
                ("amount", VInt 0); ("recipient", VStr "Unknown") ]).

End Observations.

Ltac run_monad :=
  repeat progress
    (unfold bind, ret, throw, try_catch, or_TypeError, get_vault, put_vault,
       bucket_of, clock in *; simpl in * ).

(* ------------------------------------------------------------------ *)
(** ** Concrete vaults *)

Module Scenario.

Definition payment_request : string := "---
type: payment
action: make_payment
amount: 89
recipient: Hosting Provider
status: pending
---

Pay the hosting invoice.
".

Definition email_request : string := "---
type: email
subject: Send invoice to Client B
amount: 2000
recipient: client@example.com
status: pending
---

Requires approval before sending.
".

Definition start (v : Vault) : World := mkWorld v 0.

Definition today : string := "2026-01-01.json".

(** One pending request, an empty log. *)
Definition one_pending : Vault :=
  [ ("Dashboard.md", RootFile "# AI Employee Dashboard");
    ("Logs", Bucket []);
    ("Pending_Approval", Bucket [("APPROVAL_12_hosting.md", File payment_request)]);
    ("Approved", Bucket []) ].

(** Two pending requests; the name of the first contains the id of the
    second. *)
Definition two_pending : Vault :=
  [ ("Dashboard.md", RootFile "# AI Employee Dashboard");
    ("Logs", Bucket []);
    ("Pending_Approval",
     Bucket [ ("APPROVAL_12_hosting.md", File payment_request);
              ("APPROVAL_1_invoice.md", File email_request) ]);
    ("Approved", Bucket []) ].

(** A day-bucket cut short in the middle of a write. *)
Definition truncated_log : string := Node.json "[
  {
    'timestamp': '2026-01-01T07:30:00.000Z',
    'action_type': 'email_send',
    'description': 'Invoice sent to Client A'
  }".

Definition with_truncated_log : Vault :=
  [ ("Dashboard.md", RootFile "# AI Employee Dashboard");
    ("Logs", Bucket [(today, File truncated_log)]);
    ("Pending_Approval", Bucket []) ].

(** A stats side-file that is not JSON, next to a live request. *)
Definition with_broken_stats : Vault :=
  [ ("Dashboard.md", RootFile "# AI Employee Dashboard");
    ("Logs", Bucket [("stats.json", File "{ weeklyRevenue: 3000 }")]);
    ("Pending_Approval", Bucket [("APPROVAL_12_hosting.md", File payment_request)]) ].

(** A stats side-file with a counter at zero. *)
Definition with_zero_stats : Vault :=
  [ ("Dashboard.md", RootFile "# AI Employee Dashboard");
    ("Logs", Bucket [("stats.json",
                      File (Node.json "{ 'weeklyRevenue': 0, 'pendingTasks': 3 }"))]);
    ("Pending_Approval", Bucket []) ].

(** A well-formed request and a sub-directory named like a request. *)
Definition with_unreadable_entry : Vault :=
  [ ("Pending_Approval",
     Bucket [ ("APPROVAL_12_hosting.md", File payment_request);
              ("DRAFT_3_notes.md", Opaque) ]) ].

(** A well-formed request and a file without a header. *)
Definition with_headerless_entry : Vault :=
  [ ("Pending_Approval",
     Bucket [ ("APPROVAL_12_hosting.md", File payment_request);
              ("DRAFT_3_notes.md", File "remember the invoice") ]) ].

(** A file whose name carries no identifier. *)
Definition with_unnumbered_entry : Vault :=
  [ ("Pending_Approval", Bucket [("notes.md", File "remember the invoice")]) ].

Definition decision (id : Z) (action : string) : value :=
  VObj [("approvalId", VInt id); ("action", VStr action)].

Definition first_entry : value :=
  VObj [ ("timestamp", VStr "2026-01-01T08:00:00.000Z");
         ("action_type", VStr "email_send");
         ("description", VStr "first") ].

Definition second_entry : value :=
  VObj [ ("timestamp", VStr "2026-01-01T09:00:00.000Z");
         ("action_type", VStr "payment_processed");
         ("description", VStr "second") ].

(** A day-bucket with two entries, in the order of their appends. *)
Definition two_entries : list value := [first_entry; second_entry].


Definition field (k : string) (r : value) : option value := member r k.

(** The records [getPendingApprovals] returns in a world. *)
Definition listing (w : World) : list value :=
  match fst (@getPendingApprovals Node.reference w) with
  | Ok approvals => approvals
  | Throw _ => []
  end.


(** The world after a run. *)
Definition after {A} (m : M A) (w : World) : World := snd (m w).

End Scenario.

(* ------------------------------------------------------------------ *)
(** ** Start-up, shutdown, health and the push channel (src/server.js) *)

Section Lifecycle.
Context `{Runtime}.

(** [fs.access(p)]: the entry exists, whatever it is. *)
Definition fs_access (p : path) : M unit :=
  v <- get_vault ;;
  match p with
  | [name] =>
      match lookup v name with
      | Some _ => ret tt
      | None => throw (fs_error "ENOENT")
      end
  | [dir; name] =>
      entries <- bucket_of v dir ;;
      match lookup entries name with
      | Some _ => ret tt
      | None => throw (fs_error "ENOENT")
      end
  | _ => throw (fs_error "ENOENT")
  end.

(** [new Date(t).toISOString().split('T')[0]] *)
Definition iso_date (t : Z) : string :=
  match Str.split "T" (Date_toISOString t) with
  | date :: _ => date
  | [] => "undefined"
  end.

(** [getCompanyHandbookTemplate()] *)
Definition getCompanyHandbookTemplate : M string :=
  t <- clock ;;
  ret ("---
version: 1.0
effective_date: " ++ iso_date t ++ "
---


# Company Handbook


## Communication Rules


### Email Etiquette
- Always be polite and professional
- Respond within 24 hours for business emails
- Flag urgent messages with " ++ Str.dquote ++ "[URGENT]" ++ Str.dquote ++ " prefix
- Never share sensitive information via email


### WhatsApp/SMS Rules
- Business hours: 9 AM - 6 PM (monitoring only)
- Emergency keywords: " ++ Str.dquote ++ "urgent" ++ Str.dquote ++ ", " ++ Str.dquote ++ "asap" ++ Str.dquote ++ ", " ++ Str.dquote ++ "emergency" ++ Str.dquote ++ ", " ++ Str.dquote ++ "help" ++ Str.dquote ++ "
- Personal messages: do not respond automatically
- Payment discussions: always verify via email


## Financial Rules


### Approval Thresholds
- Payments under $50: auto-approve (recurring only)
- Payments $50-$100: flag for review
- Payments over $100: require explicit approval
- New payees: always require approval


### Subscription Management
- Flag unused subscriptions after 30 days of inactivity
- Alert on price increases > 20%
- Review all subscriptions monthly


## Social Media Rules


### Posting Guidelines
- Professional tone for LinkedIn
- Friendly tone for Instagram/Facebook
- Never post political/controversial content
- All posts require approval before publishing


### Response Rules
- Positive comments: thank the user
- Negative comments: escalate to human
- Questions: provide helpful information
- Spam: ignore and delete


## Security Rules


### Data Protection
- Never store passwords in plain text
- Use environment variables for API keys
- Encrypt sensitive files
- Regular backup of vault data


### Access Control
- Never share login credentials
- Use 2FA where available
- Rotate API keys monthly
- Log all access attempts


## Error Handling


### When in Doubt
1. Pause and alert human
2. Document the uncertainty
3. Wait for instructions
4. Never assume


### Recovery Procedures
- API failures: retry 3 times with exponential backoff
- File errors: quarantine and alert
- System crashes: auto-restart with watchdog
").

(** [getBusinessGoalsTemplate()] *)
Definition getBusinessGoalsTemplate : M string :=
  t <- clock ;;
  ret ("---
quarter: Q1 2026
last_updated: " ++ iso_date t ++ "
---


# Business Goals - Q1 2026


## Revenue Targets
- **Monthly Goal**: $10,000
- **Quarter Goal**: $30,000
- **Current MTD**: $4,500


## Key Performance Indicators


### Response Times
| Metric | Target | Alert Threshold |
|--------|--------|-----------------|
| Email response | < 24 hours | > 48 hours |
| WhatsApp response | < 2 hours | > 6 hours |
| Invoice processing | < 1 hour | > 4 hours |


### Financial Metrics
| Metric | Target | Alert Threshold |
|--------|--------|-----------------|
| Invoice payment rate | > 90% | < 80% |
| Software costs | < $500/month | > $600/month |
| Profit margin | > 30% | < 20% |


## Active Projects


### Project Alpha
- **Deadline**: Jan 15, 2026
- **Budget**: $2,000
- **Status**: In progress
- **Milestones**:
  - [x] Initial planning
  - [ ] Design phase
  - [ ] Development
  - [ ] Testing
  - [ ] Delivery


### Project Beta
- **Deadline**: Jan 30, 2026
- **Budget**: $3,500
- **Status**: Planning
- **Milestones**:
  - [x] Requirements gathering
  - [ ] Proposal submission
  - [ ] Contract signing
  - [ ] Project kickoff


## Subscription Audit Rules


### Review Criteria
Flag for review if:
- No login/usage in 30 days
- Cost increased > 20%
- Duplicate functionality with another tool
- Can be replaced with free alternative


### Essential Services
- Google Workspace ($12/month)
- Notion Team ($8/user/month)
- GitHub Pro ($4/month)
- Domain hosting ($15/month)


## Growth Initiatives


### Client Acquisition
- Target 5 new clients this quarter
- Focus on referral program
- LinkedIn outreach campaign


### Service Expansion
- Research new service offerings
- Create service packages
- Update pricing strategy
").

(** The [folders] of [initVault]. *)
Definition vault_folders : list string :=
  [ "Needs_Action"; "Plans"; "Done"; "Logs"; "Pending_Approval"; "Approved";
    "In_Progress"; "Updates" ].

(** The first loop of [initVault]: a folder that cannot be made is logged
    and skipped. *)
Fixpoint make_folders (folders : list string) : M unit :=
  match folders with
  | [] => ret tt
  | folder :: rest =>
      try_catch (fs_mkdir folder) (fun _ => ret tt) ;;
      make_folders rest
  end.

(** The second loop of [initVault]: a document is written when
    [fs.access] fails on it. *)
Fixpoint write_initial_files (files : list (string * string)) : M unit :=
  match files with
  | [] => ret tt
  | (name, template) :: rest =>
      try_catch (fs_access [name]) (fun _ => fs_writeFile [name] template) ;;
      write_initial_files rest
  end.

(** [initVault()]: the three templates are built before the second loop
    starts, whether they are written or not. *)
Definition initVault : M unit :=
  make_folders vault_folders ;;
  dashboard <- getDashboardTemplate ;;
  handbook <- getCompanyHandbookTemplate ;;
  goals <- getBusinessGoalsTemplate ;;
  write_initial_files [ ("Dashboard.md", dashboard);
                        ("Company_Handbook.md", handbook);
                        ("Business_Goals.md", goals) ].

(** [startServer()]: [app.listen] does not touch the vault. *)
Definition startServer : M unit := initVault.

(** [app.get('/api/health')] *)
Definition api_health : M response :=
  t <- clock ;;
  ret (Response 200
         (VObj [ ("status", VStr "healthy");
                 ("timestamp", VStr (Date_toISOString t));
                 ("services",
                  VObj [ ("orchestrator", VStr "running");
                         ("watchers", VStr "active");
                         ("mcp_servers", VStr "connected") ]) ])).

(** [saveSystemState()] *)
Definition saveSystemState : M unit :=
  t <- clock ;;
  stats <- getDashboardData ;;
  fs_writeFile [VAULT_Logs; "system_state.json"]
    (JSON_stringify (VObj [ ("lastShutdown", VStr (Date_toISOString t));
                            ("stats", stats) ])).

(** *** The push channel

    A WebSocket is an object of the [ws] library: the hub keeps the state
    of every socket under its identity, and [clients] is the [Set] of the
    program, in insertion order.  The library changes [readyState] (1 is
    OPEN); the program only reads it.  [JSON.stringify(data)], without
    indentation, is the parameter [stringify]. *)

Record socket : Type := Socket { readyState : nat; outbox : list string }.

Record Hub : Type := mkHub {
  sockets : list (nat * socket);
  clients : list nat
}.

Fixpoint socket_of (store : list (nat * socket)) (ws : nat) : option socket :=
  match store with
  | [] => None
  | (i, s) :: rest => if (i =? ws)%nat then Some s else socket_of rest ws
  end.

(** [client.send(message)] *)
Fixpoint socket_send (store : list (nat * socket)) (ws : nat) (message : string)
  : list (nat * socket) :=
  match store with
  | [] => []
  | (i, s) :: rest =>
      if (i =? ws)%nat
      then (i, Socket (readyState s) (outbox s ++ [message])) :: rest
      else (i, s) :: socket_send rest ws message
  end.

(** [clients.add(ws)], in the connection handler. *)
Definition on_connection (ws : nat) (h : Hub) : Hub :=
  mkHub (sockets h)
        (if existsb (Nat.eqb ws) (clients h) then clients h
         else (clients h ++ [ws])%list).

(** [clients.delete(ws)], in the close handler. *)
Definition on_close (ws : nat) (h : Hub) : Hub :=
  mkHub (sockets h) (filter (fun c => negb (c =? ws)%nat) (clients h)).

Section Broadcast.
Variable stringify : value -> string.

(** The callback of [clients.forEach]. *)
Definition deliver (message : string) (store : list (nat * socket)) (client : nat)
  : list (nat * socket) :=
  match socket_of store client with
  | Some s =>
      if (readyState s =? 1)%nat then socket_send store client message else store
  | None => store
  end.

(** [broadcastUpdate(data)] *)
Definition broadcastUpdate (data : value) (h : Hub) : Hub :=
  let message := stringify data in
  mkHub (fold_left (deliver message) (clients h) (sockets h)) (clients h).

(** The weekly task of [cron.schedule('0 8 * * 1', ...)]: the broadcast
    follows the audit, and is not reached when the audit throws. *)
Definition weekly_audit (w : World) (h : Hub) : World * Hub :=
  match runBusinessAudit w with
  | (Ok _, w1) =>
      match clock w1 with
      | (Ok t, w2) =>
          (w2, broadcastUpdate
                 (VObj [ ("type", VStr "audit_completed");
                         ("message", VStr "Weekly audit completed");
                         ("timestamp", VStr (Date_toISOString t)) ]) h)
      | (Throw _, w2) => (w2, h)
      end
  | (Throw _, w1) => (w1, h)
  end.

(** The task of [cron.schedule('*/5 * * * *', ...)]. *)
Definition status_tick (w : World) (h : Hub) : World * Hub :=
  match clock w with
  | (Ok t, w1) =>
      (w1, broadcastUpdate
             (VObj [ ("type", VStr "status_update");
                     ("timestamp", VStr (Date_toISOString t));
                     ("status", VStr "active") ]) h)
  | (Throw _, w1) => (w1, h)
  end.

End Broadcast.

End Lifecycle.

(* ------------------------------------------------------------------ *)
(** ** Sequences of calls, used in the statements *)

Section Sequences.
Context `{Runtime}.

(** [logAction(e1); logAction(e2); ...], one call after the other. *)
Fixpoint log_all (logEntries : list value) : M unit :=
  match logEntries with
  | [] => ret tt
  | logEntry :: rest => logAction logEntry ;; log_all rest
  end.

End Sequences.

(* ------------------------------------------------------------------ *)
(** ** Well-formed headers, used in the statements *)







(** What the loop of [parseFrontmatter] does with one line. *)
Definition header_step (frontmatter : list (string * value)) (line : string)
  : list (string * value) :=
  match Str.split ":" line with
  | key :: valueParts =>
      if negb (String.eqb key "") && negb (length valueParts =? 0)%nat
      then frontmatter_assign frontmatter (Str.trim key)
             (Str.trim (Str.join ":" valueParts))
      else frontmatter
  | [] => frontmatter
  end.

(** Every property is a text. *)
Definition texts (props : list (string * value)) : Prop :=
  forall k v, obj_find props k = Some v -> exists s, v = VStr s.

(* ------------------------------------------------------------------ *)
(** ** Further concrete vaults and hubs *)

Module Situations.
Import Scenario.

(** A stats side-file with a stored counter and a key that is not a
    counter. *)
Definition with_stored_counter : Vault :=
  [ ("Dashboard.md", RootFile "# AI Employee Dashboard");
    ("Logs", Bucket [("stats.json",
                      File (Node.json "{ 'weeklyRevenue': 3000, 'extra': 1 }"))]);
    ("Pending_Approval", Bucket []) ].

(** A day-bucket that holds an object. *)
Definition object_log : string := Node.json "{ 'entries': [] }".

Definition with_object_log : Vault :=
  [ ("Logs", Bucket [(today, File object_log)]) ].

(** A day-bucket that holds an empty array. *)
Definition with_empty_log : Vault :=
  [ ("Logs", Bucket [(today, File "[]")]) ].

(** A request without a header. *)
Definition bare_request : string := "Pay the hosting invoice.".

Definition with_bare_request : Vault :=
  [ ("Pending_Approval", Bucket [("APPROVAL_7_note.md", File bare_request)]);
    ("Logs", Bucket []) ].


(** Three sockets: the first two are in the client set, the second one
    is closing. *)
Definition three_sockets : Hub :=
  mkHub [ (1%nat, Socket 1 []); (2%nat, Socket 3 []); (3%nat, Socket 1 []) ]
        [1%nat; 2%nat].

End Situations.

(* ------------------------------------------------------------------ *)
(** ** Properties of the string operations *)

Module StrFacts.
Import Str.

Lemma strip_prefix_sound p : forall s r,
  strip_prefix p s = Some r -> s = p ++ r.
Proof.
  induction p as [|a p IH]; intros s r Hs; simpl in *.
  - now inversion Hs.
  - destruct s as [|b s]; [discriminate|].
    destruct (Ascii.eqb_spec a b) as [->|]; [|discriminate].
    now rewrite (IH _ _ Hs).
Qed.

Lemma find_sub_sound p : forall s a b,
  find_sub p s = Some (a, b) -> s = a ++ p ++ b.
Proof.
  induction s as [|c s IH]; intros a b Hf; simpl in Hf.
  - destruct (strip_prefix p "") eqn:E; [|discriminate].
    inversion Hf; subst. simpl. now apply strip_prefix_sound.
  - destruct (strip_prefix p (String c s)) eqn:E.
    + inversion Hf; subst. simpl. now apply strip_prefix_sound.
    + destruct (find_sub p s) as [[b' a']|] eqn:F; [|discriminate].
      inversion Hf; subst. simpl. now rewrite (IH _ _ eq_refl).
Qed.

Lemma plain_app a b : plain (a ++ b) = plain a && plain b.
Proof.
  induction a as [|c a IH]; simpl; [reflexivity|].
  now rewrite IH, andb_assoc.
Qed.

Lemma getSubstitution_plain m b a t :
  plain t = true -> getSubstitution m b a t = t.
Proof.
  induction t as [|c t IH]; intros Hp; [reflexivity|].
  simpl in Hp. apply andb_prop in Hp as [Hc Ht].
  destruct (Ascii.eqb_spec c "$") as [->|Hne]; [discriminate|].
  specialize (IH Ht).
  destruct c as [[] [] [] [] [] [] [] []]; simpl; now rewrite IH.
Qed.

(** Replacing by a text without dollar signs puts that text in the
    place of the first occurrence. *)
Lemma replace_first_plain p t s a b :
  plain t = true -> find_sub p s = Some (a, b) ->
  replace_first p t s = a ++ t ++ b /\ s = a ++ p ++ b.
Proof.
  intros Hp Hf. unfold replace_first. rewrite Hf.
  rewrite (getSubstitution_plain _ _ _ _ Hp).
  split; [reflexivity|]. now apply find_sub_sound.
Qed.

Lemma split_without_separator sep s :
  includes s (String sep "") = false -> split sep s = [s].
Proof.
  unfold includes. induction s as [|c s IH]; simpl; [reflexivity|].
  destruct (Ascii.eqb_spec sep c) as [->|Hne].
  - discriminate.
  - destruct (find_sub (String sep "") s) as [[b a]|]; [discriminate|].
    intros _. destruct (Ascii.eqb_spec c sep); [congruence|].
    now rewrite IH.
Qed.

Lemma includes_find_sub s p :
  includes s p = true -> exists a b, find_sub p s = Some (a, b).
Proof.
  unfold includes. destruct (find_sub p s) as [[a b]|]; [eauto|discriminate].
Qed.

End StrFacts.

(* ------------------------------------------------------------------ *)
(** ** Properties of the vault operations *)

Module VfsFacts.

Section Assoc.
Context {A : Type}.
Implicit Types (l : list (string * A)) (k : string).

Lemma lookup_store_same l k a : lookup (store l k a) k = Some a.
Proof.
  induction l as [|[k' a'] l IH]; simpl.
  - now rewrite String.eqb_refl.
  - destruct (String.eqb_spec k' k); simpl.
    + now rewrite String.eqb_refl.
    + destruct (String.eqb_spec k' k); [contradiction|assumption].
Qed.

Lemma lookup_store_other l k k' a :
  k <> k' -> lookup (store l k a) k' = lookup l k'.
Proof.
  intros Hne. induction l as [|[k0 a0] l IH]; simpl.
  - destruct (String.eqb_spec k k'); [contradiction|reflexivity].
  - destruct (String.eqb_spec k0 k); simpl.
    + subst. destruct (String.eqb_spec k k'); [contradiction|reflexivity].
    + now rewrite IH.
Qed.

Lemma lookup_remove_same l k : lookup (remove l k) k = None.
Proof.
  induction l as [|[k0 a0] l IH]; simpl; [reflexivity|].
  destruct (String.eqb_spec k0 k); simpl; [assumption|].
  destruct (String.eqb_spec k0 k); [contradiction|assumption].
Qed.

Lemma lookup_remove_other l k k' :
  k <> k' -> lookup (remove l k) k' = lookup l k'.
Proof.
  intros Hne. induction l as [|[k0 a0] l IH]; simpl; [reflexivity|].
  destruct (String.eqb_spec k0 k); simpl.
  - subst. destruct (String.eqb_spec k k'); [contradiction|assumption].
  - now rewrite IH.
Qed.

Lemma names_remove l k :
  names (remove l k) = filter (fun n => negb (String.eqb n k)) (names l).
Proof.
  induction l as [|[k0 a0] l IH]; simpl; [reflexivity|].
  destruct (String.eqb k0 k); simpl; now rewrite <- IH.
Qed.

Lemma not_in_names_remove l k : ~ In k (names (remove l k)).
Proof.
  rewrite names_remove. intros Hin. apply filter_In in Hin as [_ Hk].
  now rewrite String.eqb_refl in Hk.
Qed.

Lemma lookup_in_names l k a : lookup l k = Some a -> In k (names l).
Proof.
  induction l as [|[k0 a0] l IH]; simpl; [discriminate|].
  destruct (String.eqb_spec k0 k); [now left|]. intros Hl. right. auto.
Qed.
End Assoc.

End VfsFacts.

(* ------------------------------------------------------------------ *)
(** ** Properties of the server *)

Section ServerFacts.
Context `{Runtime}.

Lemma fs_readFile_read p w : fs_readFile p w = (read_file (vault w) p, w).
Proof.
  unfold read_file, fs_readFile. destruct w as [v t]. run_monad.
  destruct p as [|a [|b [|c p]]]; try reflexivity.
  - destruct (lookup v a) as [[]|]; reflexivity.
  - destruct (lookup v a) as [[|entries]|]; try reflexivity.
    destruct (lookup entries b) as [[]|]; reflexivity.
Qed.

Lemma fs_readdir_read dir w : fs_readdir dir w = (read_dir (vault w) dir, w).
Proof.
  unfold read_dir, fs_readdir. destruct w as [v t]. run_monad.
  destruct (lookup v dir) as [[]|]; reflexivity.
Qed.

Lemma getSampleActivities_run w :
  exists acts, getSampleActivities w = (Ok acts, tick w) /\ length acts = 1%nat.
Proof. eexists. split; reflexivity. Qed.

Lemma getDashboardTemplate_run w :
  exists text, getDashboardTemplate w = (Ok text, tick (tick (tick w))).
Proof. eexists. reflexivity. Qed.

Lemma approval_id_run file w :
  exists id w', approval_id file w = (Ok id, w') /\ vault w' = vault w.
Proof.
  unfold approval_id.
  destruct (Str.parseInt _) as [n|]; [destruct (n =? 0)|];
    run_monad; eauto.
Qed.

Lemma approval_id_encoded file w :
  encodes_id file = true -> exists n, approval_id file w = (Ok (VInt n), w).
Proof.
  unfold encodes_id, approval_id. intros He.
  destruct (nth_error _ 1) as [part|]; [|discriminate].
  destruct (Str.parseInt part) as [n|]; [|discriminate].
  destruct (n =? 0); [discriminate|]. now exists n.
Qed.

(** The listing loop reads the vault and the clock, and writes nothing. *)
Lemma pending_loop_vault files : forall approvals w,
  vault (snd (pending_loop files approvals w)) = vault w.
Proof.
  induction files as [|file rest IH]; intros approvals w; simpl; [reflexivity|].
  destruct (Str.endsWith file ".md"); [|apply IH].
  unfold bind at 1. rewrite fs_readFile_read.
  destruct (read_file _ _) as [content|e]; [|reflexivity].
  unfold bind at 1.
  destruct (approval_id_run file w) as (id & w' & -> & Hv).
  rewrite IH. exact Hv.
Qed.

Lemma getPendingApprovals_run w :
  exists approvals w',
    getPendingApprovals w = (Ok approvals, w') /\ vault w' = vault w.
Proof.
  unfold getPendingApprovals, try_catch, bind. rewrite fs_readdir_read.
  destruct (read_dir _ _) as [files|e]; [|unfold ret; eauto].
  pose proof (pending_loop_vault files [] w) as Hv.
  destruct (pending_loop files [] w) as [[approvals|e] w'];
    unfold ret; simpl in *; eauto.
Qed.

Lemma getRecentActivities_eq w :
  getRecentActivities w =
    match recent_of (vault w) (Date_now (ticks w)) with
    | Some acts => (Ok acts, tick w)
    | None => getSampleActivities (tick w)
    end.
Proof.
  unfold getRecentActivities, recent_of.
  unfold try_catch at 1. unfold bind at 1. unfold clock at 1.
  fold (tick w).
  unfold try_catch at 1. unfold bind at 1. rewrite fs_readFile_read.
  change (vault (tick w)) with (vault w).
  destruct (read_file _ _) as [content|e]; [|reflexivity].
  unfold bind, parse_json.
  destruct (JSON_parse content) as [[| | | | |entries| |]|]; try reflexivity.
  unfold ret, or_TypeError.
  destruct (map_all activity_of _); reflexivity.
Qed.

Lemma map_all_length {A B} (f : A -> option B) xs : forall ys,
  map_all f xs = Some ys -> length ys = length xs.
Proof.
  induction xs as [|x xs IH]; simpl; intros ys Hm.
  - now inversion Hm.
  - destruct (f x); [|discriminate].
    destruct (map_all f xs) as [ys'|]; [|discriminate].
    inversion Hm; subst. simpl. now rewrite (IH _ eq_refl).
Qed.

Lemma slice_last_length {A} n (xs : list A) : (length (slice_last n xs) <= n)%nat.
Proof. unfold slice_last. rewrite length_skipn. lia. Qed.

Lemma getRecentActivities_run w :
  exists acts w',
    getRecentActivities w = (Ok acts, w') /\ vault w' = vault w
    /\ (length acts <= 10)%nat.
Proof.
  rewrite getRecentActivities_eq.
  destruct (recent_of _ _) as [acts|] eqn:E.
  - exists acts, (tick w). repeat split.
    unfold recent_of in E.
    destruct (read_file _ _); [|discriminate].
    destruct (JSON_parse _) as [[| | | | |entries| |]|]; try discriminate.
    rewrite (map_all_length _ _ _ E). apply slice_last_length.
  - destruct (getSampleActivities_run (tick w)) as (acts & -> & Hl).
    exists acts, (tick (tick w)). repeat split. rewrite Hl. lia.
Qed.

Lemma getDefaultDashboardData_run w :
  exists acts text,
    getDefaultDashboardData w =
      (Ok (VObj [ ("aiActive", VBool true);
                  ("pendingApprovals", VArr []);
                  ("recentActivities", VArr acts);
                  ("stats", VObj default_stats);
                  ("dashboardContent", VStr text) ]),
       tick (tick (tick (tick w))))
    /\ length acts = 1%nat.
Proof. do 2 eexists. split; reflexivity. Qed.

Lemma stats_of_find props k d :
  In (k, d) default_stats ->
  obj_find (stats_of props) k = Some (or_else (obj_get props k) d).
Proof.
  unfold default_stats. simpl.
  intros [E|[E|[E|[E|[]]]]]; inversion E; subst; reflexivity.
Qed.

Lemma default_stats_find k d :
  In (k, d) default_stats -> obj_find default_stats k = Some d.
Proof.
  unfold default_stats. simpl.
  intros [E|[E|[E|[E|[]]]]]; inversion E; subst; reflexivity.
Qed.

(** C10. A counter that the parsed stats side-file stores with a falsy
    value (0, the empty string, false, null), or does not store at all,
    is reported with its compiled-in default: weeklyRevenue 2450,
    pendingTasks 8, unreadMessages 5, aiUptime 99.8. *)
Theorem falsy_counter_reports_default w content props k d :
  read_file (vault w) [VAULT_Logs; "stats.json"] = Ok content ->
  JSON_parse content = Some (VObj props) ->
  In (k, d) default_stats ->
  truthy (obj_get props k) = false ->
  exists snapshot w' counters,
    getDashboardData w = (Ok (VObj snapshot), w') /\
    obj_find snapshot "stats" = Some (VObj counters) /\
    obj_find counters k = Some d.
Proof.
  intros Hread Hparse Hin Hfalsy.
  unfold getDashboardData. unfold try_catch at 1. unfold bind at 1.
  rewrite fs_readFile_read.
  destruct (read_file (vault w) ["Dashboard.md"]) as [dashboardContent|e].
  - unfold bind at 1. unfold try_catch at 1.
    rewrite fs_readFile_read, Hread.
    unfold bind at 1. unfold parse_json. rewrite Hparse. unfold ret at 1.
    unfold bind at 1.
    destruct (getPendingApprovals_run w) as (approvals & w1 & -> & _).
    unfold bind at 1.
    destruct (getRecentActivities_run w1) as (acts & w2 & -> & _ & _).
    unfold bind, read_stats, ret.
    do 3 eexists. split; [reflexivity|]. split; [reflexivity|].
    rewrite (stats_of_find _ _ _ Hin). unfold or_else. now rewrite Hfalsy.
  - destruct (getDefaultDashboardData_run w) as (acts & text & -> & _).
    do 3 eexists. split; [reflexivity|]. split; [reflexivity|].
    now apply default_stats_find.
Qed.

(** C6, as amended. Only a stats side-file that cannot be read degrades
    partially: the counters are the compiled-in defaults, and the
    pending approvals, the recent activities and the dashboard document
    are the live ones.  A stats side-file that is read but does not
    parse, or a dashboard document that cannot be read, gives the static
    default snapshot, whose pendingApprovals is empty. *)
Theorem snapshot_degradation w :
  (forall dashboardContent e,
      read_file (vault w) ["Dashboard.md"] = Ok dashboardContent ->
      read_file (vault w) [VAULT_Logs; "stats.json"] = Throw e ->
      JSON_parse "{}" = Some (VObj []) ->
      exists approvals w1 acts w2,
        getPendingApprovals w = (Ok approvals, w1) /\
        getRecentActivities w1 = (Ok acts, w2) /\
        getDashboardData w =
          (Ok (VObj [ ("aiActive", VBool true);
                      ("pendingApprovals", VArr approvals);
                      ("recentActivities", VArr acts);
                      ("stats", VObj default_stats);
                      ("dashboardContent", VStr dashboardContent) ]), w2))
  /\ (forall statsContent,
      read_file (vault w) [VAULT_Logs; "stats.json"] = Ok statsContent ->
      JSON_parse statsContent = None ->
      getDashboardData w = getDefaultDashboardData w)
  /\ (forall e,
      read_file (vault w) ["Dashboard.md"] = Throw e ->
      getDashboardData w = getDefaultDashboardData w).
Proof.
  split; [|split].
  - intros dashboardContent e Hdash Hstats Hempty.
    destruct (getPendingApprovals_run w) as (approvals & w1 & Hp & _).
    destruct (getRecentActivities_run w1) as (acts & w2 & Hr & _ & _).
    exists approvals, w1, acts, w2. split; [exact Hp|]. split; [exact Hr|].
    unfold getDashboardData. unfold try_catch at 1. unfold bind at 1.
    rewrite fs_readFile_read, Hdash.
    unfold bind at 1. unfold try_catch at 1. rewrite fs_readFile_read, Hstats.
    unfold ret at 1. unfold bind at 1. unfold parse_json. rewrite Hempty.
    unfold ret at 1. unfold bind at 1. rewrite Hp.
    unfold bind at 1. rewrite Hr. reflexivity.
  - intros statsContent Hstats Hparse.
    unfold getDashboardData. unfold try_catch at 1. unfold bind at 1.
    rewrite fs_readFile_read.
    destruct (read_file (vault w) ["Dashboard.md"]); [|reflexivity].
    unfold bind at 1. unfold try_catch at 1. rewrite fs_readFile_read, Hstats.
    unfold bind at 1. unfold parse_json. rewrite Hparse. reflexivity.
  - intros e Hdash.
    unfold getDashboardData. unfold try_catch at 1. unfold bind at 1.
    now rewrite fs_readFile_read, Hdash.
Qed.

(** C7, as amended. A processing request whose action is none of
    emails, whatsapp, audit and report is answered with status 500 and
    the error message [Unknown action]; nothing is written and the
    server goes on. *)
Theorem process_unknown_action_is_500 req_body action w :
  member req_body "action" = Some action ->
  is_string action "emails" = false ->
  is_string action "whatsapp" = false ->
  is_string action "audit" = false ->
  is_string action "report" = false ->
  api_process req_body w =
    (Ok (Response 500 (VObj [("error", VStr "Unknown action")])), w).
Proof.
  intros Hm He Hw Ha Hr.
  assert (Hd : destructure req_body "action" w = (Ok action, w)).
  { destruct req_body; simpl in Hm; inversion Hm; reflexivity. }
  unfold api_process, try_catch. unfold bind at 1. rewrite Hd.
  unfold bind at 1. now rewrite He, Hw, Ha, Hr.
Qed.

Lemma read_file_bucket v dir entries f :
  lookup v dir = Some (Bucket entries) ->
  read_file v [dir; f] =
    match lookup entries f with
    | Some (File content) => Ok content
    | Some Opaque => Throw (fs_error "EISDIR")
    | None => Throw (fs_error "ENOENT")
    end.
Proof.
  intros Hl. unfold read_file, fs_readFile. run_monad. rewrite Hl. simpl.
  destruct (lookup entries f) as [[]|]; reflexivity.
Qed.

Lemma read_dir_bucket v dir entries :
  lookup v dir = Some (Bucket entries) -> read_dir v dir = Ok (names entries).
Proof.
  intros Hl. unfold read_dir, fs_readdir. run_monad. now rewrite Hl.
Qed.

Lemma pending_loop_stable files : forall approvals w,
  Forall (fun f => Str.endsWith f ".md" = true -> encodes_id f = true) files ->
  snd (pending_loop files approvals w) = w.
Proof.
  induction files as [|file rest IH]; intros approvals w Hall; simpl;
    [reflexivity|].
  inversion Hall as [|? ? Hfile Hrest]; subst.
  destruct (Str.endsWith file ".md"); [|now apply IH].
  unfold bind at 1. rewrite fs_readFile_read.
  destruct (read_file _ _) as [content|e]; [|reflexivity].
  unfold bind at 1.
  destruct (approval_id_encoded file w (Hfile eq_refl)) as (n & ->).
  now apply IH.
Qed.

Lemma getPendingApprovals_stable w :
  Forall (fun f => Str.endsWith f ".md" = true -> encodes_id f = true)
         (pending_names (vault w)) ->
  snd (getPendingApprovals w) = w.
Proof.
  unfold pending_names, getPendingApprovals, try_catch, bind.
  rewrite fs_readdir_read. fold VAULT_Pending_Approval.
  destruct (read_dir _ _) as [files|e]; [|reflexivity].
  intros Hall. pose proof (pending_loop_stable files [] w Hall) as Hs.
  destruct (pending_loop files [] w) as [[approvals|e] w']; simpl in *;
    now subst.
Qed.

Lemma approval_id_clock file w :
  encodes_id file = false ->
  approval_id file w = (Ok (VInt (Date_now (ticks w))), tick w).
Proof.
  unfold encodes_id, approval_id. intros He.
  destruct (nth_error _ 1) as [part|].
  - destruct (Str.parseInt part) as [n|]; [|reflexivity].
    destruct (n =? 0); [reflexivity|discriminate].
  - reflexivity.
Qed.

(** C9, as amended. When every [.md] file of the pending bucket carries
    a numeric identifier other than zero in its name, listing twice with
    no write in between returns the same records, whatever the clock
    does.  The identifier of a file without one is the clock reading of
    the moment. *)
Theorem listPending_twice w :
  (Forall (fun f => Str.endsWith f ".md" = true -> encodes_id f = true)
          (pending_names (vault w)) ->
   fst (getPendingApprovals (snd (getPendingApprovals w)))
   = fst (getPendingApprovals w))
  /\ (forall file,
         encodes_id file = false ->
         approval_id file w = (Ok (VInt (Date_now (ticks w))), tick w)).
Proof.
  split.
  - intros Hall. now rewrite (getPendingApprovals_stable w Hall).
  - intros file. apply approval_id_clock.
Qed.

(** The record of a file without a front-matter block. *)
Lemma approval_record_default id file :
  approval_record id file [] =
    VObj [ ("id", id); ("file", VStr file); ("title", VUndefined);
           ("description", VStr "Requires approval");
           ("amount", VInt 0); ("recipient", VStr "Unknown") ].
Proof. reflexivity. Qed.

Lemma parseFrontmatter_headerless content :
  headerless content -> parseFrontmatter content = [].
Proof.
  unfold headerless, parseFrontmatter.
  destruct (frontmatterMatch content) as [block|]; [|reflexivity].
  induction 1 as [|line lines Hline _ IH]; simpl; [reflexivity|].
  rewrite (StrFacts.split_without_separator _ _ Hline).
  cbn [length Nat.eqb negb]. rewrite andb_false_r. exact IH.
Qed.

Lemma pending_loop_readable entries files : forall approvals w,
  lookup (vault w) VAULT_Pending_Approval = Some (Bucket entries) ->
  (forall f, In f files -> Str.endsWith f ".md" = true ->
             exists content, lookup entries f = Some (File content)) ->
  exists more w',
    pending_loop files approvals w = (Ok (approvals ++ more)%list, w') /\
    Forall2 (lists entries) (md_files files) more.
Proof.
  induction files as [|file rest IH]; intros approvals w Hb Hall; simpl.
  - exists [], w. rewrite app_nil_r. split; [reflexivity|constructor].
  - assert (Hrest : forall f, In f rest -> Str.endsWith f ".md" = true ->
              exists content, lookup entries f = Some (File content)).
    { intros f Hin. apply Hall. now right. }
    destruct (Str.endsWith file ".md") eqn:Emd; [|now apply IH].
    destruct (Hall file (or_introl eq_refl) Emd) as (content & Hc).
    unfold bind at 1. rewrite fs_readFile_read.
    rewrite (read_file_bucket _ _ _ file Hb), Hc.
    unfold bind at 1.
    destruct (approval_id_run file w) as (id & w1 & -> & Hv).
    destruct (IH (approvals ++ [approval_record id file (parseFrontmatter content)])%list
                 w1) as (more & w' & -> & Hmore); [now rewrite Hv|exact Hrest|].
    exists (approval_record id file (parseFrontmatter content) :: more), w'.
    rewrite <- app_assoc. split; [reflexivity|].
    constructor; [|exact Hmore].
    exists content, id. split; [exact Hc|]. split; [reflexivity|].
    intros Hm. rewrite (parseFrontmatter_headerless _ Hm).
    apply approval_record_default.
Qed.

Lemma pending_loop_unreadable entries files : forall approvals w f,
  lookup (vault w) VAULT_Pending_Approval = Some (Bucket entries) ->
  In f files ->
  Str.endsWith f ".md" = true ->
  lookup entries f = Some Opaque ->
  exists e w', pending_loop files approvals w = (Throw e, w').
Proof.
  induction files as [|file rest IH]; intros approvals w f Hb Hin Hmd Hf;
    [contradiction|]. simpl.
  destruct (Str.endsWith file ".md") eqn:Emd.
  - unfold bind at 1. rewrite fs_readFile_read.
    rewrite (read_file_bucket _ _ _ file Hb).
    destruct (lookup entries file) as [[content|]|] eqn:Efile; [|eauto|eauto].
    unfold bind at 1.
    destruct (approval_id_run file w) as (id & w1 & -> & Hv).
    destruct Hin as [->|Hin]; [congruence|].
    apply (IH _ w1 f); [now rewrite Hv|assumption..].
  - destruct Hin as [->|Hin]; [congruence|]. now apply (IH _ w f).
Qed.

(** C8, as amended. When every [.md] entry of the pending bucket can be
    read, the listing holds one record per [.md] entry, in directory
    order, whatever the entries contain; the record of an entry whose
    header is missing, or has no line with a colon, has the default fields
    (no title, description [Requires approval], amount 0, recipient
    [Unknown]).  When one [.md] entry cannot be read, the listing is
    empty. *)
Theorem listPending_tolerates_missing_headers w entries :
  lookup (vault w) VAULT_Pending_Approval = Some (Bucket entries) ->
  ((forall f, In f (names entries) -> Str.endsWith f ".md" = true ->
              exists content, lookup entries f = Some (File content)) ->
   exists approvals w',
     getPendingApprovals w = (Ok approvals, w') /\
     Forall2 (lists entries) (md_files (names entries)) approvals)
  /\ (forall f, In f (names entries) -> Str.endsWith f ".md" = true ->
                lookup entries f = Some Opaque ->
                fst (getPendingApprovals w) = Ok []).
Proof.
  intros Hb. split.
  - intros Hall.
    destruct (pending_loop_readable entries (names entries) [] w Hb Hall)
      as (more & w' & Hloop & Hmore).
    exists more, w'. split; [|exact Hmore].
    unfold getPendingApprovals, try_catch, bind.
    rewrite fs_readdir_read, (read_dir_bucket _ _ _ Hb), Hloop. reflexivity.
  - intros f Hin Hmd Hf.
    destruct (pending_loop_unreadable entries (names entries) [] w f
                Hb Hin Hmd Hf) as (e & w' & Hloop).
    unfold getPendingApprovals, try_catch, bind.
    rewrite fs_readdir_read, (read_dir_bucket _ _ _ Hb), Hloop. reflexivity.
Qed.

Lemma fs_writeFile_bucket w dir entries f text :
  lookup (vault w) dir = Some (Bucket entries) ->
  lookup entries f <> Some Opaque ->
  fs_writeFile [dir; f] text w =
    (Ok tt, mkWorld (store (vault w) dir (Bucket (store entries f (File text))))
                    (ticks w)).
Proof.
  intros Hd Hf. unfold fs_writeFile. run_monad. rewrite Hd. simpl.
  destruct (lookup entries f) as [[]|]; try reflexivity. now contradiction Hf.
Qed.

Lemma logAction_eq logEntry w :
  logAction logEntry w =
    let t := Date_now (ticks w) in
    match stored_logs (vault w) t with
    | VArr entries =>
        fs_writeFile [VAULT_Logs; day_bucket t]
          (JSON_stringify (VArr (entries ++ [logEntry]))) (tick w)
    | _ => (Throw (Exn "TypeError" "logs.push is not a function"), tick w)
    end.
Proof.
  unfold logAction, stored_logs. unfold bind at 1. unfold clock at 1.
  fold (tick w). unfold bind at 1. unfold try_catch, bind at 1.
  rewrite fs_readFile_read. change (vault (tick w)) with (vault w).
  cbv zeta.
  destruct (read_file _ _) as [content|e]; unfold parse_json, ret.
  - destruct (JSON_parse content) as [[]|]; reflexivity.
  - reflexivity.
Qed.

(** Appending to a day-bucket that holds a sequence of entries, or to
    one that does not exist yet. *)
Lemma logAction_appends logEntry w logs entries :
  let t := Date_now (ticks w) in
  lookup (vault w) VAULT_Logs = Some (Bucket logs) ->
  lookup logs (day_bucket t) <> Some Opaque ->
  stored_logs (vault w) t = VArr entries ->
  exists w',
    logAction logEntry w = (Ok tt, w') /\
    read_file (vault w') [VAULT_Logs; day_bucket t]
    = Ok (JSON_stringify (VArr (entries ++ [logEntry]))) /\
    (forall dir, dir <> VAULT_Logs ->
                 lookup (vault w') dir = lookup (vault w) dir).
Proof.
  intros t Hl Hf Hs. rewrite logAction_eq. fold t. cbv zeta. rewrite Hs.
  rewrite (fs_writeFile_bucket (tick w) VAULT_Logs logs); [|exact Hl|exact Hf].
  eexists. split; [reflexivity|]. simpl. split.
  - erewrite read_file_bucket by apply VfsFacts.lookup_store_same.
    now rewrite VfsFacts.lookup_store_same.
  - intros dir Hne. apply VfsFacts.lookup_store_other. congruence.
Qed.

(** C3. Where the day-bucket file is there but does not parse,
    [logAction] takes the stored sequence to be empty: the file is
    rewritten with the new entry alone, and what it held is gone. *)
Theorem logAction_overwrites_unparsable_log w logs content logEntry :
  let t := Date_now (ticks w) in
  lookup (vault w) VAULT_Logs = Some (Bucket logs) ->
  lookup logs (day_bucket t) = Some (File content) ->
  JSON_parse content = None ->
  exists w',
    logAction logEntry w = (Ok tt, w') /\
    read_file (vault w') [VAULT_Logs; day_bucket t]
    = Ok (JSON_stringify (VArr [logEntry])).
Proof.
  intros t Hl Hf Hp.
  destruct (logAction_appends logEntry w logs []) as (w' & Hrun & Hread & _).
  - exact Hl.
  - fold t. rewrite Hf. discriminate.
  - unfold stored_logs. fold t.
    rewrite (read_file_bucket _ _ _ (day_bucket t) Hl), Hf. now rewrite Hp.
  - exists w'. split; [exact Hrun|exact Hread].
Qed.

Lemma activity_of_plain log :
  plain_entry log -> exists act, activity_of log = Some act /\ shows log act.
Proof.
  intros (props & -> & Hts & Hty).
  unfold activity_of, getActivityTitle, getActivityDescription,
    getActivityIcon, getActivityColor, shows. simpl.
  destruct (ToString (obj_get props "timestamp")); [|now contradiction Hts].
  destruct (ToString (obj_get props "action_type")); [|now contradiction Hty].
  simpl. destruct (truthy (obj_get props "description")); simpl;
    eexists; split; try reflexivity; split; reflexivity.
Qed.

Lemma map_all_plain logs :
  Forall plain_entry logs ->
  exists acts, map_all activity_of logs = Some acts /\ Forall2 shows logs acts.
Proof.
  induction 1 as [|log logs Hlog _ (acts & Hacts & Hall)]; simpl.
  - exists []. split; [reflexivity|constructor].
  - destruct (activity_of_plain log Hlog) as (act & -> & Hact).
    rewrite Hacts. exists (act :: acts). split; [reflexivity|].
    now constructor.
Qed.



Lemma toString_method_ToString v s :
  toString_method v = Some s -> ToString v = Some s.
Proof. destruct v; simpl; congruence. Qed.

Lemma find_approval_file_run approvalId wanted files w :
  toString_method approvalId = Some wanted ->
  find_approval_file files approvalId w
  = (Ok (find (fun f => Str.includes f wanted) files), w).
Proof.
  intros Hs. induction files as [|f rest IH]; simpl; [reflexivity|].
  rewrite Hs. unfold bind, or_TypeError, ret.
  destruct (Str.includes f wanted); [reflexivity|exact IH].
Qed.

Lemma find_none {A} (p : A -> bool) l :
  (forall x, In x l -> p x = false) -> find p l = None.
Proof.
  induction l as [|x l IH]; simpl; intros Hall; [reflexivity|].
  rewrite (Hall x (or_introl eq_refl)). apply IH. intros y Hy. apply Hall.
  now right.
Qed.

(** Without a matching file, the decision touches nothing. *)
Lemma updateApprovalStatus_no_match approvalId action wanted files w :
  read_dir (vault w) VAULT_Pending_Approval = Ok files ->
  toString_method approvalId = Some wanted ->
  (forall f, In f files -> Str.includes f wanted = false) ->
  updateApprovalStatus approvalId action w = (Ok tt, w).
Proof.
  intros Hd Hs Hnone. unfold updateApprovalStatus. unfold bind at 1.
  rewrite fs_readdir_read, Hd. unfold bind at 1.
  rewrite (find_approval_file_run _ _ _ _ Hs), (find_none _ _ Hnone).
  reflexivity.
Qed.

(** C1, as amended. When the pending bucket can be listed and no file in
    it matches the id, [updateApprovalStatus] returns normally and
    leaves the vault as it is: no file is moved or rewritten.  The
    approve route does not signal a not-found outcome: it goes on to
    append the entry of the decision to the day-bucket and answers
    [success: true] (status 500 when the append throws). *)
Theorem decide_unknown_id props approvalId action wanted shown files w :
  obj_get props "approvalId" = approvalId ->
  obj_get props "action" = action ->
  truthy approvalId = true ->
  truthy action = true ->
  read_dir (vault w) VAULT_Pending_Approval = Ok files ->
  toString_method approvalId = Some wanted ->
  ToString action = Some shown ->
  (forall f, In f files -> Str.includes f wanted = false) ->
  let logEntry := decision_entry approvalId action (Date_now (ticks w)) in
  let logFile := [VAULT_Logs; day_bucket (Date_now (S (ticks w)))] in
  updateApprovalStatus approvalId action w = (Ok tt, w)
  /\ api_approve (VObj props) w =
       match logAction logEntry (tick w) with
       | (Ok _, w') => (Ok (decided shown), w')
       | (Throw _, w') =>
           (Ok (Response 500 (VObj [("error", VStr "Failed to process approval")])),
            w')
       end
  /\ (forall logs entries,
         lookup (vault w) VAULT_Logs = Some (Bucket logs) ->
         lookup logs (day_bucket (Date_now (S (ticks w)))) <> Some Opaque ->
         stored_logs (vault w) (Date_now (S (ticks w))) = VArr entries ->
         exists w',
           api_approve (VObj props) w = (Ok (decided shown), w') /\
           read_file (vault w') logFile
           = Ok (JSON_stringify (VArr (entries ++ [logEntry]))) /\
           lookup (vault w') VAULT_Pending_Approval
           = lookup (vault w) VAULT_Pending_Approval).
Proof.
  intros Hid Hact Tid Tact Hd Hs Hshown Hnone logEntry logFile.
  pose proof (updateApprovalStatus_no_match approvalId action wanted files w
                Hd Hs Hnone) as Hupd.
  assert (Hroute : api_approve (VObj props) w =
            match logAction logEntry (tick w) with
            | (Ok _, w') => (Ok (decided shown), w')
            | (Throw _, w') =>
                (Ok (Response 500
                       (VObj [("error", VStr "Failed to process approval")])),
                 w')
            end).
  { unfold api_approve, try_catch. unfold bind at 1. simpl destructure.
    rewrite Hid, Hact. unfold ret at 1. unfold bind at 1. unfold ret at 1.
    rewrite Tid, Tact. cbn [negb orb].
    unfold bind at 1. rewrite Hupd. unfold bind at 1.
    assert (Hexec : (if is_string action "approve"
                     then executeApprovedAction approvalId else ret tt) w
                    = (Ok tt, w)).
    { destruct (is_string action "approve"); [|reflexivity].
      unfold executeApprovedAction, bind, or_TypeError.
      now rewrite (toString_method_ToString _ _ Hs). }
    rewrite Hexec. unfold bind at 1. unfold clock at 1. fold (tick w).
    unfold bind at 1. fold (decision_entry approvalId action (Date_now (ticks w))).
    fold logEntry.
    destruct (logAction logEntry (tick w)) as [[u|e] w']; [|reflexivity].
    unfold bind, or_TypeError. rewrite Hshown. reflexivity. }
  split; [exact Hupd|]. split; [exact Hroute|].
  intros logs entries Hlogs Hfile Hstored.
  destruct (logAction_appends logEntry (tick w) logs entries Hlogs Hfile Hstored)
    as (w' & Hrun & Hread & Hother).
  exists w'. rewrite Hroute, Hrun. split; [reflexivity|]. split; [exact Hread|].
  apply Hother. discriminate.
Qed.

Lemma fs_mkdir_run w dest to :
  destination (vault w) dest = Some to ->
  exists v1,
    fs_mkdir dest w = (Ok tt, mkWorld v1 (ticks w)) /\
    lookup v1 dest = Some (Bucket to) /\
    (forall dir, dir <> dest -> lookup v1 dir = lookup (vault w) dir).
Proof.
  unfold destination, fs_mkdir. intros Hdest. run_monad.
  destruct (lookup (vault w) dest) as [[content|entries]|] eqn:E;
    [discriminate| |]; inversion Hdest; subst.
  - exists (vault w). destruct w. simpl in *. repeat split. exact E.
  - eexists. split; [reflexivity|]. split.
    + apply VfsFacts.lookup_store_same.
    + intros dir Hne. apply VfsFacts.lookup_store_other. congruence.
Qed.

Lemma fs_rename_run w src dst f from to content :
  lookup (vault w) src = Some (Bucket from) ->
  lookup (vault w) dst = Some (Bucket to) ->
  lookup from f = Some (File content) ->
  lookup to f <> Some Opaque ->
  fs_rename src dst f w =
    (Ok tt,
     mkWorld (store (store (vault w) src (Bucket (remove from f)))
                    dst (Bucket (store to f (File content))))
             (ticks w)).
Proof.
  intros Hsrc Hdst Hf Hclash. unfold fs_rename. run_monad.
  rewrite Hsrc. simpl. rewrite Hf, Hdst. simpl.
  destruct (lookup to f) as [[]|]; try reflexivity. now contradiction Hclash.
Qed.

(** The effect of a decision on the file it picks: the first file of
    the pending bucket whose name contains the text of the id. *)
Lemma decide_moves_file w pend approvalId wanted action f content to :
  let dest := if String.eqb action "approve" then VAULT_Approved
              else VAULT_Rejected in
  lookup (vault w) VAULT_Pending_Approval = Some (Bucket pend) ->
  toString_method approvalId = Some wanted ->
  find (fun g => Str.includes g wanted) (names pend) = Some f ->
  f <> "" ->
  lookup pend f = Some (File content) ->
  destination (vault w) dest = Some to ->
  lookup to f <> Some Opaque ->
  exists w',
    updateApprovalStatus approvalId (VStr action) w = (Ok tt, w') /\
    lookup (vault w') VAULT_Pending_Approval = Some (Bucket (remove pend f)) /\
    read_file (vault w') [dest; f]
    = Ok (Str.replace_first "status: pending"
            (status_template action (Date_now (ticks w))) content).
Proof.
  intros dest Hpend Hs Hfind Hne Hf Hdest Hclash.
  assert (Hdp : dest <> VAULT_Pending_Approval).
  { unfold dest. destruct (String.eqb action "approve"); discriminate. }
  destruct (fs_mkdir_run w dest to Hdest) as (v1 & Hmk & Hv1d & Hv1o).
  assert (Hv1p : lookup v1 VAULT_Pending_Approval = Some (Bucket pend)).
  { rewrite Hv1o; [exact Hpend|congruence]. }
  unfold updateApprovalStatus. unfold bind at 1.
  rewrite fs_readdir_read, (read_dir_bucket _ _ _ Hpend).
  unfold bind at 1. rewrite (find_approval_file_run _ _ _ _ Hs), Hfind.
  destruct (String.eqb_spec f ""); [contradiction|].
  change (is_string (VStr action) "approve") with (String.eqb action "approve").
  fold dest. unfold bind at 1. rewrite Hmk. unfold bind at 1.
  rewrite (fs_rename_run (mkWorld v1 (ticks w)) _ _ f pend to content
             Hv1p Hv1d Hf Hclash).
  unfold bind at 1. rewrite fs_readFile_read. cbn [vault ticks].
  set (v2 := store (store v1 VAULT_Pending_Approval (Bucket (remove pend f)))
                   dest (Bucket (store to f (File content)))).
  assert (Hv2d : lookup v2 dest = Some (Bucket (store to f (File content))))
    by apply VfsFacts.lookup_store_same.
  rewrite (read_file_bucket _ _ _ f Hv2d), VfsFacts.lookup_store_same.
  unfold bind at 1. simpl ToString. unfold or_TypeError, ret at 1.
  unfold bind at 1. unfold clock at 1. cbn [vault ticks].
  rewrite (fs_writeFile_bucket (mkWorld v2 (S (ticks w))) dest _ f _ Hv2d);
    [|rewrite VfsFacts.lookup_store_same; discriminate].
  eexists. split; [reflexivity|]. cbn [vault ticks]. split.
  - rewrite VfsFacts.lookup_store_other by congruence.
    unfold v2. rewrite VfsFacts.lookup_store_other by congruence.
    apply VfsFacts.lookup_store_same.
  - erewrite read_file_bucket by apply VfsFacts.lookup_store_same.
    now rewrite VfsFacts.lookup_store_same.
Qed.

Lemma pending_names_bucket v entries :
  lookup v VAULT_Pending_Approval = Some (Bucket entries) ->
  pending_names v = names entries.
Proof.
  intros Hl. unfold pending_names. fold VAULT_Pending_Approval.
  now rewrite (read_dir_bucket _ _ _ Hl).
Qed.


(** C5. After a rejection the status line of the moved file reads
    [status: rejectd]: the code appends the letter d to the name of the
    action, which gives [approved] for approve but not [rejected] for
    reject. *)
Theorem decide_reject_writes_rejectd
        w pend approvalId wanted f content to :
  lookup (vault w) VAULT_Pending_Approval = Some (Bucket pend) ->
  toString_method approvalId = Some wanted ->
  find (fun g => Str.includes g wanted) (names pend) = Some f ->
  f <> "" ->
  lookup pend f = Some (File content) ->
  Str.includes content "status: pending" = true ->
  destination (vault w) VAULT_Rejected = Some to ->
  lookup to f <> Some Opaque ->
  Str.plain (Date_toISOString (Date_now (ticks w))) = true ->
  exists w' before after,
    updateApprovalStatus approvalId (VStr "reject") w = (Ok tt, w') /\
    content = before ++ "status: pending" ++ after /\
    read_file (vault w') [VAULT_Rejected; f]
    = Ok (before ++ "status: rejectd" ++ Str.nl ++ "approved_at: "
                 ++ Date_toISOString (Date_now (ticks w)) ++ after).
Proof.
  intros Hpend Hs Hfind Hne Hf Hinc Hdest Hclash Hplain.
  destruct (decide_moves_file w pend approvalId wanted "reject" f content to
              Hpend Hs Hfind Hne Hf Hdest Hclash) as (w' & Hrun & _ & Hread).
  destruct (StrFacts.includes_find_sub _ _ Hinc) as (before & after & Hsub).
  destruct (StrFacts.replace_first_plain "status: pending"
              (status_template "reject" (Date_now (ticks w))) content
              before after) as (Hrep & Hcontent); [|exact Hsub|].
  { unfold status_template. rewrite !StrFacts.plain_app, Hplain. reflexivity. }
  exists w', before, after. split; [exact Hrun|]. split; [exact Hcontent|].
  simpl in Hread. rewrite Hread, Hrep. unfold status_template, Str.nl.
  reflexivity.
Qed.

End ServerFacts.

(* ------------------------------------------------------------------ *)
(** ** The claims on concrete vaults *)

Module Examples.
Import Scenario.
#[local] Existing Instance Node.reference.

(** C1, counterexample. No pending file matches the id 999, and yet the
    route answers [success: true] and the day-bucket, which did not
    exist, holds the entry of the decision. *)
Lemma decide_unknown_id_counterexample :
  pending_names one_pending = ["APPROVAL_12_hosting.md"]
  /\ Str.includes "APPROVAL_12_hosting.md" "999" = false
  /\ fst (api_approve (decision 999 "approve") (start one_pending))
     = Ok (Response 200
             (VObj [ ("success", VBool true);
                     ("message", VStr "Action approved successfully") ]))
  /\ read_file one_pending ["Logs"; today] = Throw (fs_error "ENOENT")
  /\ read_file (vault (after (api_approve (decision 999 "approve"))
                             (start one_pending))) ["Logs"; today]
     = Ok (Node.json "[
  {
    'type': 'approval',
    'action': 'approve',
    'approvalId': 999,
    'timestamp': '2026-01-01T00:00:00.000Z'
  }
]").
Proof. repeat split; vm_compute; reflexivity. Qed.

Lemma decide_unknown_id_witness :
  (read_dir (vault (start one_pending)) "Pending_Approval"
   = Ok ["APPROVAL_12_hosting.md"]
   /\ toString_method (VInt 999) = Some "999"
   /\ Str.includes "APPROVAL_12_hosting.md" "999" = false
   /\ stored_logs one_pending (Date_now 1) = VArr [])
  /\ updateApprovalStatus (VInt 999) (VStr "approve") (start one_pending)
     = (Ok tt, start one_pending)
  /\ exists w',
      api_approve (decision 999 "approve") (start one_pending)
      = (Ok (decided "approve"), w')
      /\ read_file (vault w') ["Logs"; day_bucket (Date_now 1)]
         = Ok (JSON_stringify
                 (VArr [decision_entry (VInt 999) (VStr "approve") (Date_now 0)]))
      /\ lookup (vault w') "Pending_Approval" = lookup one_pending "Pending_Approval".
Proof.
  split; [repeat split; vm_compute; reflexivity|].
  destruct (decide_unknown_id
              [("approvalId", VInt 999); ("action", VStr "approve")]
              (VInt 999) (VStr "approve") "999" "approve"
              ["APPROVAL_12_hosting.md"] (start one_pending))
    as (Hupdate & _ & Hlogged); try (vm_compute; reflexivity).
  - intros f [<-|[]]. vm_compute. reflexivity.
  - split; [exact Hupdate|].
    apply (Hlogged [] []); vm_compute; [reflexivity|discriminate|reflexivity].
Defined.



(** C3, at the failing input: a day-bucket cut short in the middle of a
    write.  The append succeeds and the file holds the new entry alone. *)
Lemma logAction_overwrites_unparsable_log_witness :
  (lookup with_truncated_log "Logs" = Some (Bucket [(today, File truncated_log)])
   /\ day_bucket (Date_now 0) = today
   /\ JSON_parse truncated_log = None)
  /\ exists w',
      logAction second_entry (start with_truncated_log) = (Ok tt, w')
      /\ read_file (vault w') ["Logs"; today]
         = Ok (JSON_stringify (VArr [second_entry])).
Proof.
  split; [repeat split; vm_compute; reflexivity|].
  change today with (day_bucket (Date_now (ticks (start with_truncated_log)))).
  apply (logAction_overwrites_unparsable_log (start with_truncated_log)
           [(today, File truncated_log)] truncated_log second_entry);
    vm_compute; reflexivity.
Defined.



(** C5, at the failing input: rejecting the pending request 12. *)
Lemma decide_reject_witness :
  (find (fun g => Str.includes g "12") (pending_names two_pending)
   = Some "APPROVAL_12_hosting.md"
   /\ Str.includes payment_request "status: pending" = true
   /\ destination two_pending "Rejected" = Some [])
  /\ exists w' before after,
      updateApprovalStatus (VInt 12) (VStr "reject") (start two_pending)
      = (Ok tt, w')
      /\ payment_request = before ++ "status: pending" ++ after
      /\ read_file (vault w') ["Rejected"; "APPROVAL_12_hosting.md"]
         = Ok (before ++ "status: rejectd" ++ Str.nl ++ "approved_at: "
                      ++ Date_toISOString (Date_now 0) ++ after).
Proof.
  split; [repeat split; vm_compute; reflexivity|].
  apply (decide_reject_writes_rejectd (start two_pending)
           [ ("APPROVAL_12_hosting.md", File payment_request);
             ("APPROVAL_1_invoice.md", File email_request) ]
           (VInt 12) "12" "APPROVAL_12_hosting.md" payment_request []);
    try (vm_compute; reflexivity); vm_compute; discriminate.
Defined.

(** C6, counterexample. The dashboard document is read, the stats
    side-file is read but is not JSON, one request is pending: the
    snapshot is the static default one, with no pending approval. *)
Lemma snapshot_degradation_counterexample :
  read_file with_broken_stats ["Dashboard.md"] = Ok "# AI Employee Dashboard"
  /\ read_file with_broken_stats ["Logs"; "stats.json"]
     = Ok "{ weeklyRevenue: 3000 }"
  /\ JSON_parse "{ weeklyRevenue: 3000 }" = None
  /\ map (field "file") (listing (start with_broken_stats))
     = [Some (VStr "APPROVAL_12_hosting.md")]
  /\ match fst (getDashboardData (start with_broken_stats)) with
     | Ok snapshot => member snapshot "pendingApprovals"
     | Throw _ => None
     end = Some (VArr []).
Proof. repeat split; vm_compute; reflexivity. Qed.

Lemma snapshot_degradation_witness :
  (read_file one_pending ["Dashboard.md"] = Ok "# AI Employee Dashboard"
   /\ read_file one_pending ["Logs"; "stats.json"] = Throw (fs_error "ENOENT")
   /\ JSON_parse "{}" = Some (VObj []))
  /\ exists approvals w1 acts w2,
      getPendingApprovals (start one_pending) = (Ok approvals, w1)
      /\ getRecentActivities w1 = (Ok acts, w2)
      /\ getDashboardData (start one_pending)
         = (Ok (VObj [ ("aiActive", VBool true);
                       ("pendingApprovals", VArr approvals);
                       ("recentActivities", VArr acts);
                       ("stats", VObj default_stats);
                       ("dashboardContent", VStr "# AI Employee Dashboard") ]),
            w2).
Proof.
  split; [repeat split; vm_compute; reflexivity|].
  apply (proj1 (snapshot_degradation (start one_pending))
               "# AI Employee Dashboard" (fs_error "ENOENT"));
    vm_compute; reflexivity.
Defined.

(** C7, counterexample. The action [deploy] is none of the four, and the
    answer has status 500, which is not a client error. *)
Lemma process_unknown_action_counterexample :
  ~ (forall action w r w',
        is_string action "emails" = false ->
        is_string action "whatsapp" = false ->
        is_string action "audit" = false ->
        is_string action "report" = false ->
        api_process (VObj [("action", action)]) w = (Ok r, w') ->
        (400 <= status r < 500)%nat).
Proof.
  intros claim.
  specialize (claim (VStr "deploy") (start one_pending) _ _
                    eq_refl eq_refl eq_refl eq_refl eq_refl).
  simpl in claim. lia.
Qed.

Lemma process_unknown_action_witness :
  (member (VObj [("action", VStr "deploy")]) "action" = Some (VStr "deploy")
   /\ is_string (VStr "deploy") "emails" = false
   /\ is_string (VStr "deploy") "whatsapp" = false
   /\ is_string (VStr "deploy") "audit" = false
   /\ is_string (VStr "deploy") "report" = false)
  /\ api_process (VObj [("action", VStr "deploy")]) (start one_pending)
     = (Ok (Response 500 (VObj [("error", VStr "Unknown action")])),
        start one_pending).
Proof.
  split; [repeat split; reflexivity|].
  apply (process_unknown_action_is_500 (VObj [("action", VStr "deploy")])
           (VStr "deploy") (start one_pending)); reflexivity.
Defined.

(** C8, counterexample. One entry of the bucket cannot be read, and the
    well-formed request next to it is not listed either. *)
Lemma listPending_unreadable_counterexample :
  read_file with_unreadable_entry ["Pending_Approval"; "APPROVAL_12_hosting.md"]
  = Ok payment_request
  /\ getPendingApprovals (start with_unreadable_entry)
     = (Ok [], start with_unreadable_entry).
Proof. split; vm_compute; reflexivity. Qed.

Lemma listPending_tolerates_missing_headers_witness :
  (lookup (vault (start with_headerless_entry)) "Pending_Approval"
   = Some (Bucket [ ("APPROVAL_12_hosting.md", File payment_request);
                    ("DRAFT_3_notes.md", File "remember the invoice") ])
   /\ headerless "remember the invoice")
  /\ exists approvals w',
      getPendingApprovals (start with_headerless_entry) = (Ok approvals, w')
      /\ Forall2 (lists [ ("APPROVAL_12_hosting.md", File payment_request);
                          ("DRAFT_3_notes.md", File "remember the invoice") ])
                 ["APPROVAL_12_hosting.md"; "DRAFT_3_notes.md"] approvals.
Proof.
  split; [split; [reflexivity|exact I]|].
  apply (proj1 (listPending_tolerates_missing_headers
                  (start with_headerless_entry)
                  [ ("APPROVAL_12_hosting.md", File payment_request);
                    ("DRAFT_3_notes.md", File "remember the invoice") ]
                  eq_refl)).
  intros f [<-|[<-|[]]] _; eexists; reflexivity.
Defined.

(** C9, counterexample. The name [notes.md] carries no identifier: the
    record takes the clock reading of each call, and two listings in a
    row differ. *)
Lemma listPending_twice_counterexample :
  map (field "id") (listing (start with_unnumbered_entry))
  = [Some (VInt 1767225600000)]
  /\ map (field "id")
         (listing (after getPendingApprovals (start with_unnumbered_entry)))
     = [Some (VInt 1767225600001)]
  /\ vault (after getPendingApprovals (start with_unnumbered_entry))
     = with_unnumbered_entry
  /\ listing (after getPendingApprovals (start with_unnumbered_entry))
     <> listing (start with_unnumbered_entry).
Proof.
  repeat split; try (vm_compute; reflexivity).
  vm_compute. intros E. inversion E.
Qed.

Lemma listPending_twice_witness :
  Forall (fun f => Str.endsWith f ".md" = true -> encodes_id f = true)
         (pending_names (vault (start two_pending)))
  /\ fst (getPendingApprovals (snd (getPendingApprovals (start two_pending))))
     = fst (getPendingApprovals (start two_pending)).
Proof.
  assert (Hall : Forall (fun f => Str.endsWith f ".md" = true ->
                                  encodes_id f = true)
                        (pending_names (vault (start two_pending)))).
  { repeat constructor. }
  split; [exact Hall|].
  apply (proj1 (listPending_twice (start two_pending)) Hall).
Defined.

(** C10, on a side-file that stores [weeklyRevenue: 0]. *)
Lemma falsy_counter_witness :
  (read_file (vault (start with_zero_stats)) ["Logs"; "stats.json"]
   = Ok (Node.json "{ 'weeklyRevenue': 0, 'pendingTasks': 3 }")
   /\ JSON_parse (Node.json "{ 'weeklyRevenue': 0, 'pendingTasks': 3 }")
      = Some (VObj [("weeklyRevenue", VInt 0); ("pendingTasks", VInt 3)])
   /\ truthy (VInt 0) = false)
  /\ exists snapshot w' counters,
      getDashboardData (start with_zero_stats) = (Ok (VObj snapshot), w')
      /\ obj_find snapshot "stats" = Some (VObj counters)
      /\ obj_find counters "weeklyRevenue" = Some (VInt 2450).
Proof.
  split; [repeat split; vm_compute; reflexivity|].
  apply (falsy_counter_reports_default (start with_zero_stats)
           (Node.json "{ 'weeklyRevenue': 0, 'pendingTasks': 3 }")
           [("weeklyRevenue", VInt 0); ("pendingTasks", VInt 3)]
           "weeklyRevenue" (VInt 2450));
    try (vm_compute; reflexivity).
  left. reflexivity.
Defined.

End Examples.

(* ------------------------------------------------------------------ *)
(** ** The built-ins on sample inputs *)

Module Checks.
Import Scenario.
#[local] Existing Instance Node.reference.

Example parseInt_cases :
  Str.parseInt "12" = Some 12
  /\ Str.parseInt "007" = Some 7
  /\ Str.parseInt " 42px" = Some 42
  /\ Str.parseInt "-7" = Some (-7)
  /\ Str.parseInt "0x1A" = Some 26
  /\ Str.parseInt "hosting.md" = None
  /\ Str.parseInt "undefined" = None.
Proof. repeat split; reflexivity. Qed.

Example split_cases :
  Str.split "_" "APPROVAL_12_hosting.md" = ["APPROVAL"; "12"; "hosting.md"]
  /\ Str.split ":" "" = [""]
  /\ Str.split ":" "a::b" = ["a"; ""; "b"]
  /\ Str.split "_" "notes.md" = ["notes.md"].
Proof. repeat split; reflexivity. Qed.

Example trim_cases :
  Str.trim "  Hosting Provider " = "Hosting Provider"
  /\ Str.trim (Str.nl ++ " a b" ++ Str.nl) = "a b"
  /\ Str.trim "   " = "".
Proof. repeat split; reflexivity. Qed.

Example includes_cases :
  Str.includes "APPROVAL_12_hosting.md" "1" = true
  /\ Str.includes "APPROVAL_12_hosting.md" "21" = false
  /\ Str.includes "abc" "" = true
  /\ Str.endsWith "notes.md" ".md" = true
  /\ Str.endsWith "notes.md.bak" ".md" = false.
Proof. repeat split; reflexivity. Qed.

Example replace_cases :
  Str.replace_first "status: pending" "status: approved" "a status: pending, status: pending"
  = "a status: approved, status: pending"
  /\ Str.replace_first "status: pending" "x" "status: approved" = "status: approved"
  /\ Str.replace_first "b" "[$&$$$1]" "abc" = "a[b$$1]c"
  /\ Str.replace_first "b" "$`$'" "abc" = "aacc".
Proof. repeat split; reflexivity. Qed.

Example parseFrontmatter_cases :
  parseFrontmatter payment_request
  = [ ("type", VStr "payment"); ("action", VStr "make_payment");
      ("amount", VStr "89"); ("recipient", VStr "Hosting Provider");
      ("status", VStr "pending") ]
  /\ parseFrontmatter ("---" ++ Str.nl ++ "at: 08:30:00" ++ Str.nl ++ "no colon here"
                             ++ Str.nl ++ "at : later" ++ Str.nl ++ "---")
     = [("at", VStr "later")]
  /\ parseFrontmatter "remember the invoice" = []
  /\ parseFrontmatter ("---" ++ Str.nl ++ "status: pending") = [].
Proof. repeat split; reflexivity. Qed.

Example encodes_id_cases :
  encodes_id "APPROVAL_12_hosting.md" = true
  /\ encodes_id "notes.md" = false
  /\ encodes_id "APPROVAL_0_x.md" = false
  /\ encodes_id "APPROVAL_draft_3.md" = false.
Proof. repeat split; reflexivity. Qed.

Example toISOString_cases :
  Node.toISOString 0 = "1970-01-01T00:00:00.000Z"
  /\ Node.toISOString 1709210096789 = "2024-02-29T12:34:56.789Z"
  /\ Node.toISOString (-1) = "1969-12-31T23:59:59.999Z"
  /\ day_bucket (Date_now 0) = "2026-01-01.json"
  /\ Node.parse_iso "2024-02-29T12:34:56.789Z" = Some 1709210096789
  /\ Node.parse_iso "2023-02-29T12:34:56.789Z" = None.
Proof. repeat split; vm_compute; reflexivity. Qed.

Example number_toString_cases :
  Node.number_toString (Finite (inject_Z 2450)) = "2450"
  /\ Node.number_toString (Finite (998 # 10)) = "99.8"
  /\ Node.number_toString (Finite (-5 # 2)) = "-2.5"
  /\ Node.number_toString (Finite (inject_Z (10 ^ 21))) = "1e+21"
  /\ Node.number_toString (Finite (123 # 1000000)) = "0.000123"
  /\ Node.number_toString (Finite (1 # 10000000)) = "1e-7"
  /\ Node.number_toString NaN = "NaN".
Proof. repeat split; vm_compute; reflexivity. Qed.

Example json_parse_cases :
  Node.json_parse (Node.json "{ 'a': [1, 2.50, -3e2, true, null], 'b': {}, 'a': 'x' }")
  = Some (VObj [("a", VStr "x"); ("b", VObj [])])
  /\ Node.json_parse (Node.json "[1, 2.50, -3e2, 'x\ny', true, null]")
     = Some (VArr [ VInt 1; VNum (Finite (5 # 2)); VInt (-300);
                    VStr ("x" ++ Str.nl ++ "y"); VBool true; VNull ])
  /\ Node.json_parse "{}" = Some (VObj [])
  /\ Node.json_parse "" = None
  /\ Node.json_parse "[1,]" = None
  /\ Node.json_parse "01" = None
  /\ Node.json_parse "{ weeklyRevenue: 3000 }" = None
  /\ Node.json_parse "1e400" = Some (VNum (Infinity false))
  /\ Node.json_parse "[1] x" = None.
Proof. repeat split; vm_compute; reflexivity. Qed.

Example json_stringify_roundtrip :
  Node.json_stringify (VArr [first_entry])
  = Node.json "[
  {
    'timestamp': '2026-01-01T08:00:00.000Z',
    'action_type': 'email_send',
    'description': 'first'
  }
]"
  /\ Node.json_stringify (VArr []) = "[]"
  /\ Node.json_stringify (VObj [("a", VUndefined); ("b", VArr [VUndefined])])
     = Node.json "{
  'b': [
    null
  ]
}"
  /\ Node.json_parse (Node.json_stringify (VArr two_entries)) = Some (VArr two_entries).
Proof. repeat split; vm_compute; reflexivity. Qed.

Example ToString_cases :
  ToString (VInt 12) = Some "12"
  /\ ToString (VArr [VInt 1; VNull; VStr "a"]) = Some "1,,a"
  /\ ToString (VObj [("id", VInt 1)]) = Some "[object Object]"
  /\ ToString (VObj [("toString", VInt 1)]) = None
  /\ toString_method VNull = None.
Proof. repeat split; vm_compute; reflexivity. Qed.

(** The scenario of the hosting payment: the request is approved, it
    leaves the listing, and the counters of the dashboard stay the
    compiled-in ones. *)
Example hosting_payment_scenario :
  map (field "id") (listing (start one_pending)) = [Some (VInt 12)]
  /\ fst (api_approve (decision 12 "approve") (start one_pending))
     = Ok (decided "approve")
  /\ listing (after (api_approve (decision 12 "approve")) (start one_pending)) = []
  /\ read_file (vault (after (api_approve (decision 12 "approve"))
                             (start one_pending)))
               ["Approved"; "APPROVAL_12_hosting.md"]
     = Ok "---
type: payment
action: make_payment
amount: 89
recipient: Hosting Provider
status: approved
approved_at: 2026-01-01T00:00:00.000Z
---

Pay the hosting invoice.
".
Proof. repeat split; vm_compute; reflexivity. Qed.

(** The header of a decided file, read back. *)
Example decided_headers :
  match read_file (vault (after (updateApprovalStatus (VInt 12) (VStr "approve"))
                                (start two_pending)))
                  ["Approved"; "APPROVAL_12_hosting.md"] with
  | Ok text => Some (obj_find (parseFrontmatter text) "status",
                     obj_find (parseFrontmatter text) "approved_at")
  | Throw _ => None
  end = Some (Some (VStr "approved"), Some (VStr "2026-01-01T00:00:00.000Z"))
  /\ match read_file (vault (after (updateApprovalStatus (VInt 12) (VStr "reject"))
                                   (start two_pending)))
                     ["Rejected"; "APPROVAL_12_hosting.md"] with
     | Ok text => obj_find (parseFrontmatter text) "status"
     | Throw _ => None
     end = Some (VStr "rejectd")
  /\ fst (api_approve (decision 12 "reject") (start two_pending))
     = Ok (decided "reject").
Proof. repeat split; vm_compute; reflexivity. Qed.

(** A request without its two fields is refused with status 400, and
    nothing changes. *)
Example approve_without_fields :
  api_approve (VObj []) (start one_pending)
  = (Ok (Response 400 (VObj [("error", VStr "Missing required fields")])),
     start one_pending).
Proof. reflexivity. Qed.

(** Two appends to an empty day-bucket give a file of two entries, in the
    order of the appends. *)
Example two_appends :
  option_map Node.json_parse
    (match read_file (vault (after (logAction second_entry)
                                   (after (logAction first_entry)
                                          (start one_pending))))
                     ["Logs"; today] with
     | Ok text => Some text
     | Throw _ => None
     end)
  = Some (Some (VArr [first_entry; second_entry])).
Proof. vm_compute. reflexivity. Qed.

End Checks.

(* ------------------------------------------------------------------ *)
(** ** Further properties of the routes and of the aggregator *)

Section RouteFacts.
Context `{Runtime}.

(** X1. A decision request in which [approvalId] or [action] is missing
    or falsy (0, the empty string, null, false) is refused with status
    400, and nothing is read, written or logged. *)
Theorem approve_missing_fields req_body approvalId action w :
  member req_body "approvalId" = Some approvalId ->
  member req_body "action" = Some action ->
  truthy approvalId = false \/ truthy action = false ->
  api_approve req_body w =
    (Ok (Response 400 (VObj [("error", VStr "Missing required fields")])), w).
Proof.
  intros Hid Hact Hfalsy.
  assert (Hd : forall k x, member req_body k = Some x ->
                           destructure req_body k w = (Ok x, w)).
  { intros k x Hm. destruct req_body; simpl in Hm; inversion Hm; reflexivity. }
  unfold api_approve, try_catch. unfold bind at 1. rewrite (Hd _ _ Hid).
  unfold bind at 1. rewrite (Hd _ _ Hact).
  destruct Hfalsy as [-> | ->]; [reflexivity|].
  now rewrite orb_true_r.
Qed.

(** X2. The processing route never changes the vault or reads the clock,
    and it answers 200, with the message [<action> processing started],
    exactly for the four actions emails, whatsapp, audit and report. *)
Theorem process_known_actions props w :
  let action := obj_get props "action" in
  let known := existsb (is_string action) ["emails"; "whatsapp"; "audit"; "report"] in
  snd (api_process (VObj props) w) = w
  /\ (known = true ->
      exists name,
        action = VStr name /\
        fst (api_process (VObj props) w)
        = Ok (Response 200
                (VObj [ ("success", VBool true);
                        ("message", VStr (name ++ " processing started")) ])))
  /\ (known = false ->
      fst (api_process (VObj props) w)
      = Ok (Response 500 (VObj [("error", VStr "Unknown action")]))).
Proof.
  intros action known.
  assert (Hknown : forall lit, is_string action lit = true ->
            ToString action = Some lit /\ action = VStr lit).
  { intros lit Hl. destruct action; try discriminate. simpl in Hl.
    apply String.eqb_eq in Hl. now subst. }
  assert (Hrun : api_process (VObj props) w =
            (Ok (match find (is_string action)
                         ["emails"; "whatsapp"; "audit"; "report"] with
                 | Some lit =>
                     Response 200
                       (VObj [ ("success", VBool true);
                               ("message", VStr (lit ++ " processing started")) ])
                 | None => Response 500 (VObj [("error", VStr "Unknown action")])
                 end), w)).
  { cbv beta iota delta [api_process try_catch bind destructure ret throw
                         processEmails processWhatsApp runBusinessAudit
                         generateReport or_TypeError find].
    fold action.
    destruct (is_string action "emails") eqn:E1;
      [destruct (Hknown _ E1) as [-> _]; reflexivity|].
    destruct (is_string action "whatsapp") eqn:E2;
      [destruct (Hknown _ E2) as [-> _]; reflexivity|].
    destruct (is_string action "audit") eqn:E3;
      [destruct (Hknown _ E3) as [-> _]; reflexivity|].
    destruct (is_string action "report") eqn:E4;
      [destruct (Hknown _ E4) as [-> _]; reflexivity|].
    reflexivity. }
  rewrite Hrun. unfold known. cbn [fst snd existsb find].
  split; [reflexivity|].
  destruct (is_string action "emails") eqn:E1;
    [split; [|discriminate]; intros _; exists "emails"; split;
     [apply (Hknown _ E1)|reflexivity]|].
  destruct (is_string action "whatsapp") eqn:E2;
    [split; [|discriminate]; intros _; exists "whatsapp"; split;
     [apply (Hknown _ E2)|reflexivity]|].
  destruct (is_string action "audit") eqn:E3;
    [split; [|discriminate]; intros _; exists "audit"; split;
     [apply (Hknown _ E3)|reflexivity]|].
  destruct (is_string action "report") eqn:E4;
    [split; [|discriminate]; intros _; exists "report"; split;
     [apply (Hknown _ E4)|reflexivity]|].
  split; [discriminate|reflexivity].
Qed.

Lemma stats_of_shape props :
  map fst (stats_of props)
  = ["weeklyRevenue"; "pendingTasks"; "unreadMessages"; "aiUptime"]
  /\ Forall (fun kv => truthy (snd kv) = true) (stats_of props).
Proof.
  split; [reflexivity|].
  unfold stats_of, default_stats, or_else. simpl map.
  repeat constructor; simpl;
    match goal with
    | |- truthy (if truthy ?x then _ else _) = true =>
        destruct (truthy x) eqn:E; [exact E|reflexivity]
    end.
Qed.

Lemma getDashboardData_shape w :
  exists approvals acts counters content w',
    getDashboardData w =
      (Ok (VObj [ ("aiActive", VBool true);
                  ("pendingApprovals", VArr approvals);
                  ("recentActivities", VArr acts);
                  ("stats", VObj counters);
                  ("dashboardContent", VStr content) ]), w')
    /\ vault w' = vault w
    /\ map fst counters
       = ["weeklyRevenue"; "pendingTasks"; "unreadMessages"; "aiUptime"]
    /\ Forall (fun kv => truthy (snd kv) = true) counters
    /\ (length acts <= 10)%nat.
Proof.
  assert (Hdefault : forall w0, vault w0 = vault w ->
             exists approvals acts counters content w',
               getDefaultDashboardData w0 =
                 (Ok (VObj [ ("aiActive", VBool true);
                             ("pendingApprovals", VArr approvals);
                             ("recentActivities", VArr acts);
                             ("stats", VObj counters);
                             ("dashboardContent", VStr content) ]), w')
               /\ vault w' = vault w
               /\ map fst counters
                  = ["weeklyRevenue"; "pendingTasks"; "unreadMessages"; "aiUptime"]
               /\ Forall (fun kv => truthy (snd kv) = true) counters
               /\ (length acts <= 10)%nat).
  { intros w0 Hv.
    destruct (getDefaultDashboardData_run w0) as (acts & text & Hd & Hl).
    exists [], acts, default_stats, text, (tick (tick (tick (tick w0)))).
    split; [exact Hd|]. split; [exact Hv|]. split; [reflexivity|].
    split; [repeat constructor|]. rewrite Hl. lia. }
  unfold getDashboardData. unfold try_catch at 1. unfold bind at 1.
    rewrite fs_readFile_read.
    destruct (read_file (vault w) ["Dashboard.md"]) as [dashboardContent|e];
      [|now apply Hdefault].
    unfold bind at 1. unfold try_catch at 1. rewrite fs_readFile_read.
    set (statsContent :=
           match read_file (vault w) [VAULT_Logs; "stats.json"] with
           | Ok text => text
           | Throw _ => "{}"
           end).
    replace (match read_file (vault w) [VAULT_Logs; "stats.json"] with
             | Ok a => (Ok a, w)
             | Throw _ => ret "{}" w
             end) with (@Ok string statsContent, w)
      by (unfold statsContent, ret;
          destruct (read_file (vault w) [VAULT_Logs; "stats.json"]); reflexivity).
    unfold bind at 1. unfold parse_json.
    destruct (JSON_parse statsContent) as [stats|]; [|now apply Hdefault].
    unfold ret at 1. unfold bind at 1.
    destruct (getPendingApprovals_run w) as (approvals & w1 & -> & Hv1).
    unfold bind at 1.
    destruct (getRecentActivities_run w1) as (acts & w2 & -> & Hv2 & Hl).
    assert (Hv : vault w2 = vault w) by congruence.
    assert (Hobj : forall props,
               exists approvals0 acts0 counters content w',
                 (Ok (VObj [ ("aiActive", VBool true);
                             ("pendingApprovals", VArr approvals);
                             ("recentActivities", VArr acts);
                             ("stats", VObj (stats_of props));
                             ("dashboardContent", VStr dashboardContent) ]), w2)
                 = (Ok (VObj [ ("aiActive", VBool true);
                               ("pendingApprovals", VArr approvals0);
                               ("recentActivities", VArr acts0);
                               ("stats", VObj counters);
                               ("dashboardContent", VStr content) ]), w')
                 /\ vault w' = vault w
                 /\ map fst counters
                    = ["weeklyRevenue"; "pendingTasks"; "unreadMessages"; "aiUptime"]
                 /\ Forall (fun kv => truthy (snd kv) = true) counters
                 /\ (length acts0 <= 10)%nat).
    { intros props. exists approvals, acts, (stats_of props), dashboardContent, w2.
      split; [reflexivity|]. split; [exact Hv|].
      split; [apply stats_of_shape|]. split; [apply stats_of_shape|exact Hl]. }
    unfold bind, read_stats, ret, throw.
    destruct stats; try apply Hobj; now apply Hdefault.
Qed.

(** X3. The aggregator never fails and never returns a partial object:
    whatever the vault holds, the snapshot has its five fields, the four
    counters (each truthy: a stored 0 is never reported) and a feed of at
    most ten entries; the vault is left as it was, and the dashboard route
    answers 200 with that snapshot. *)
Theorem snapshot_always_complete w :
  exists approvals acts counters content w',
    let snapshot :=
      VObj [ ("aiActive", VBool true);
             ("pendingApprovals", VArr approvals);
             ("recentActivities", VArr acts);
             ("stats", VObj counters);
             ("dashboardContent", VStr content) ] in
    getDashboardData w = (Ok snapshot, w')
    /\ api_dashboard w = (Ok (Response 200 snapshot), w')
    /\ vault w' = vault w
    /\ map fst counters
       = ["weeklyRevenue"; "pendingTasks"; "unreadMessages"; "aiUptime"]
    /\ Forall (fun kv => truthy (snd kv) = true) counters
    /\ (length acts <= 10)%nat.
Proof.
  destruct (getDashboardData_shape w)
    as (approvals & acts & counters & content & w' & Hd & Hrest).
  exists approvals, acts, counters, content, w'. cbv zeta.
  split; [exact Hd|]. split; [|exact Hrest].
  unfold api_dashboard, try_catch, bind. now rewrite Hd.
Qed.

(** X4. The listing route never fails and never writes: it always answers
    200 with an array, and the vault is left as it was, also when the
    pending bucket is missing or an entry cannot be read. *)
Theorem approvals_route_total w :
  exists approvals w',
    api_approvals w = (Ok (Response 200 (VArr approvals)), w')
    /\ vault w' = vault w
    /\ (forall e, read_dir (vault w) VAULT_Pending_Approval = Throw e ->
                  approvals = [] /\ w' = w).
Proof.
  destruct (getPendingApprovals_run w) as (approvals & w' & Hrun & Hv).
  exists approvals, w'. split; [|split; [exact Hv|]].
  - unfold api_approvals, try_catch, bind. now rewrite Hrun.
  - intros e He. unfold getPendingApprovals, try_catch, bind in Hrun.
    rewrite fs_readdir_read, He in Hrun. unfold ret in Hrun.
    inversion Hrun. now split.
Qed.

(** X5. A counter that the stats side-file stores with a truthy value is
    reported as it is stored, provided the dashboard document can be
    read; keys of the side-file other than the four counters never reach
    the snapshot. *)
Theorem stored_counter_reported w dashboardContent content props k d :
  read_file (vault w) ["Dashboard.md"] = Ok dashboardContent ->
  read_file (vault w) [VAULT_Logs; "stats.json"] = Ok content ->
  JSON_parse content = Some (VObj props) ->
  In (k, d) default_stats ->
  truthy (obj_get props k) = true ->
  exists snapshot w' counters,
    getDashboardData w = (Ok (VObj snapshot), w') /\
    obj_find snapshot "stats" = Some (VObj counters) /\
    obj_find counters k = Some (obj_get props k) /\
    map fst counters = map fst default_stats.
Proof.
  intros Hdash Hstats Hparse Hin Htruthy.
  unfold getDashboardData. unfold try_catch at 1. unfold bind at 1.
  rewrite fs_readFile_read, Hdash.
  unfold bind at 1. unfold try_catch at 1. rewrite fs_readFile_read, Hstats.
  unfold bind at 1. unfold parse_json. rewrite Hparse. unfold ret at 1.
  unfold bind at 1.
  destruct (getPendingApprovals_run w) as (approvals & w1 & -> & _).
  unfold bind at 1.
  destruct (getRecentActivities_run w1) as (acts & w2 & -> & _ & _).
  unfold bind, read_stats, ret.
  do 3 eexists. split; [reflexivity|]. split; [reflexivity|].
  split; [|reflexivity].
  rewrite (stats_of_find _ _ _ Hin). unfold or_else. now rewrite Htruthy.
Qed.

End RouteFacts.

(* ------------------------------------------------------------------ *)
(** ** Further properties of the activity log *)

Section LogFacts.
Context `{Runtime}.

Lemma map_all_null logs : In VNull logs -> map_all activity_of logs = None.
Proof.
  induction logs as [|log logs IH]; simpl; [contradiction|].
  intros [->|Hin]; [reflexivity|].
  rewrite (IH Hin). now destruct (activity_of log).
Qed.

(** X6. When the day-bucket of the moment cannot be read, does not parse,
    parses to something that is not an array, or has a [null] among its
    last ten entries, the feed is the seed sequence: the single
    [System initialized] activity, stamped with the time of the call. *)
Theorem feed_falls_back_to_seed w :
  let logFile := [VAULT_Logs; day_bucket (Date_now (ticks w))] in
  match read_file (vault w) logFile with
  | Throw _ => True
  | Ok content =>
      match JSON_parse content with
      | Some (VArr entries) => In VNull (slice_last 10 entries)
      | _ => True
      end
  end ->
  getRecentActivities w =
    (Ok [ VObj [ ("id", VInt 1);
                 ("type", VStr "email");
                 ("title", VStr "System initialized");
                 ("description", VStr "AI Employee started successfully");
                 ("time", VStr (Date_toLocaleTimeString
                                  (VInt (Date_now (S (ticks w))))));
                 ("icon", VStr "fas fa-rocket");
                 ("iconColor", VStr "#10b981") ] ],
     tick (tick w)).
Proof.
  intros logFile Hcase. rewrite getRecentActivities_eq.
  assert (Hnone : recent_of (vault w) (Date_now (ticks w)) = None).
  { unfold recent_of. fold logFile.
    destruct (read_file (vault w) logFile) as [content|e]; [|reflexivity].
    destruct (JSON_parse content) as [[| | | | |entries| |]|]; try reflexivity.
    now apply map_all_null. }
  rewrite Hnone. reflexivity.
Qed.

Lemma slice_last_nil {A} n (xs : list A) :
  (0 < n)%nat -> slice_last n xs = [] -> xs = [].
Proof.
  unfold slice_last. intros Hn Hs.
  assert (Hl : length (skipn (length xs - n) xs) = 0%nat) by now rewrite Hs.
  rewrite length_skipn in Hl. destruct xs as [|x xs]; [reflexivity|].
  cbn [length] in Hl. lia.
Qed.

(** X7. The feed is empty exactly when the day-bucket of the moment
    parses to an empty array: the seed sequence is not used for a
    day-bucket that exists and holds no entry. *)
Theorem feed_empty_iff w :
  let logFile := [VAULT_Logs; day_bucket (Date_now (ticks w))] in
  fst (getRecentActivities w) = Ok []
  <-> exists content,
        read_file (vault w) logFile = Ok content /\
        JSON_parse content = Some (VArr []).
Proof.
  intros logFile. rewrite getRecentActivities_eq. unfold recent_of. fold logFile.
  split.
  - destruct (read_file (vault w) logFile) as [content|e] eqn:Er; [|discriminate].
    destruct (JSON_parse content) as [[| | | | |entries| |]|] eqn:Ep;
      try discriminate.
    destruct (map_all activity_of (slice_last 10 entries)) as [acts|] eqn:E;
      [|discriminate].
    cbn [fst]. intros Hempty. inversion Hempty; subst.
    apply map_all_length in E. symmetry in E. apply length_zero_iff_nil in E.
    apply (slice_last_nil 10) in E; [|lia]. subst. now exists content.
  - intros (content & -> & ->). reflexivity.
Qed.


End LogFacts.

Section AppendFacts.
Context `{Runtime}.

(** The world after an append that goes through. *)
Lemma logAction_result logEntry w logs entries :
  let t := Date_now (ticks w) in
  lookup (vault w) VAULT_Logs = Some (Bucket logs) ->
  lookup logs (day_bucket t) <> Some Opaque ->
  stored_logs (vault w) t = VArr entries ->
  logAction logEntry w =
    (Ok tt,
     mkWorld (store (vault w) VAULT_Logs
                (Bucket (store logs (day_bucket t)
                           (File (JSON_stringify (VArr (entries ++ [logEntry])))))))
             (S (ticks w))).
Proof.
  intros t Hl Hf Hs. rewrite logAction_eq. fold t. cbv zeta. rewrite Hs.
  now rewrite (fs_writeFile_bucket (tick w) VAULT_Logs logs).
Qed.

(** X9. An append rewrites the day-bucket of the moment and nothing else:
    the other files of the Logs bucket (the stats side-file, the
    day-buckets of other days), every other bucket and every document of
    the vault are as before, also when the append throws. *)
Theorem logAction_touches_only_day_bucket logEntry w :
  let day := day_bucket (Date_now (ticks w)) in
  let w' := snd (logAction logEntry w) in
  (forall dir, dir <> VAULT_Logs -> lookup (vault w') dir = lookup (vault w) dir)
  /\ (forall name, name <> day ->
        read_file (vault w') [VAULT_Logs; name]
        = read_file (vault w) [VAULT_Logs; name])
  /\ (forall e, fst (logAction logEntry w) = Throw e -> vault w' = vault w).
Proof.
  intros day w'. unfold w'. rewrite logAction_eq. cbv zeta. fold day.
  destruct (stored_logs (vault w) (Date_now (ticks w)));
    try (cbn [snd fst tick vault]; repeat split; reflexivity).
  unfold fs_writeFile. run_monad.
  destruct (lookup (vault w) VAULT_Logs) as [[content|logs]|] eqn:El;
    try (cbn [snd fst vault]; repeat split; reflexivity).
  simpl.
  destruct (lookup logs day) as [[old|]|] eqn:Ef;
    cbn [snd fst vault];
    try (repeat split; reflexivity);
    (split; [|split]);
    try (intros dir Hne; apply VfsFacts.lookup_store_other; congruence);
    try discriminate;
    intros name Hne;
    (erewrite read_file_bucket by apply VfsFacts.lookup_store_same);
    rewrite (read_file_bucket _ _ _ name El);
    rewrite VfsFacts.lookup_store_other by congruence; reflexivity.
Qed.

(** X10. A day-bucket that parses, but not to an array (an object, a
    text, a number, [null]), blocks every append: [logAction] throws a
    TypeError and the file stays as it is. *)
Theorem logAction_rejects_non_array logEntry w content logs :
  let t := Date_now (ticks w) in
  read_file (vault w) [VAULT_Logs; day_bucket t] = Ok content ->
  JSON_parse content = Some logs ->
  (forall entries, logs <> VArr entries) ->
  logAction logEntry w =
    (Throw (Exn "TypeError" "logs.push is not a function"), tick w)
  /\ read_file (vault (tick w)) [VAULT_Logs; day_bucket t] = Ok content.
Proof.
  intros t Hread Hparse Hnot. split; [|exact Hread].
  rewrite logAction_eq. fold t. cbv zeta. unfold stored_logs.
  rewrite Hread, Hparse.
  destruct logs; try reflexivity. now contradiction (Hnot items).
Qed.

(** X11. Appends accumulate: a run of appends that all fall on the same
    day leaves, in the day-bucket, the entries that were stored followed
    by the new ones in the order of the calls, provided the runtime reads
    back the arrays it writes. *)
Theorem appends_accumulate logEntries : forall w logs stored day,
  logEntries <> [] ->
  lookup (vault w) VAULT_Logs = Some (Bucket logs) ->
  lookup logs day <> Some Opaque ->
  (forall k, (k < length logEntries)%nat ->
             day_bucket (Date_now (ticks w + k)) = day) ->
  stored_logs (vault w) (Date_now (ticks w)) = VArr stored ->
  (forall k, (0 < k < length logEntries)%nat ->
             JSON_parse (JSON_stringify (VArr (stored ++ firstn k logEntries)))
             = Some (VArr (stored ++ firstn k logEntries))) ->
  exists w',
    log_all logEntries w = (Ok tt, w')
    /\ read_file (vault w') [VAULT_Logs; day]
       = Ok (JSON_stringify (VArr (stored ++ logEntries)))
    /\ ticks w' = (ticks w + length logEntries)%nat.
Proof.
  induction logEntries as [|logEntry rest IH];
    intros w logs stored day Hne Hlogs Hfile Hday Hstored Hround;
    [contradiction|].
  assert (Hday0 : day_bucket (Date_now (ticks w)) = day).
  { rewrite <- (Hday 0%nat); [now rewrite Nat.add_0_r|simpl; lia]. }
  simpl log_all. unfold bind.
  rewrite (logAction_result logEntry w logs stored Hlogs);
    [|now rewrite Hday0|exact Hstored].
  rewrite Hday0.
  set (text := JSON_stringify (VArr (stored ++ [logEntry]))).
  set (w1 := mkWorld (store (vault w) VAULT_Logs
                        (Bucket (store logs day (File text)))) (S (ticks w))).
  assert (Hlogs1 : lookup (vault w1) VAULT_Logs
                   = Some (Bucket (store logs day (File text))))
    by apply VfsFacts.lookup_store_same.
  assert (Hread1 : read_file (vault w1) [VAULT_Logs; day] = Ok text).
  { rewrite (read_file_bucket _ _ _ day Hlogs1).
    now rewrite VfsFacts.lookup_store_same. }
  destruct rest as [|next rest'].
  - exists w1. split; [reflexivity|]. split; [exact Hread1|]. simpl. lia.
  - destruct (IH w1 (store logs day (File text)) (stored ++ [logEntry])%list day)
      as (w' & Hrun & Hread & Hticks).
    + discriminate.
    + exact Hlogs1.
    + rewrite VfsFacts.lookup_store_same. discriminate.
    + intros k Hk. cbn [ticks w1].
      replace (S (ticks w) + k)%nat with (ticks w + S k)%nat by lia.
      apply Hday. simpl in *. lia.
    + unfold stored_logs. cbn [ticks w1].
      replace (S (ticks w)) with (ticks w + 1)%nat by lia.
      rewrite (Hday 1%nat) by (simpl; lia). rewrite Hread1. unfold text.
      specialize (Hround 1%nat). cbn [firstn] in Hround.
      rewrite Hround; [reflexivity|simpl; lia].
    + intros k Hk. rewrite <- app_assoc.
      change ([logEntry] ++ firstn k (next :: rest'))%list
        with (firstn (S k) (logEntry :: next :: rest')).
      apply Hround. simpl in *. lia.
    + exists w'. split; [exact Hrun|]. split.
      * rewrite Hread, <- app_assoc. reflexivity.
      * rewrite Hticks. cbn [ticks w1 length]. lia.
Qed.

Lemma slice_last_snoc {A} n (xs : list A) x :
  slice_last (S n) (xs ++ [x]) = (slice_last n xs ++ [x])%list.
Proof.
  unfold slice_last. rewrite length_app. cbn [length].
  replace (length xs + 1 - S n)%nat with (length xs - n)%nat by lia.
  rewrite skipn_app.
  replace (length xs - n - length xs)%nat with 0%nat by lia.
  reflexivity.
Qed.

Lemma Forall2_snoc_inv {A B} (R : A -> B -> Prop) xs x ys :
  Forall2 R (xs ++ [x]) ys ->
  exists ys' y, ys = (ys' ++ [y])%list /\ Forall2 R xs ys' /\ R x y.
Proof.
  intros Hall. apply Forall2_app_inv_l in Hall as (ys' & tl & Hxs & Hx & ->).
  inversion Hx as [|? y ? tl' Hr Hnil]; subst. inversion Hnil; subst.
  now exists ys', y.
Qed.

(** X12. What is appended is what the feed shows last: after an append
    that the runtime reads back, on the same day, the feed ends with the
    activity of the new entry, after the (at most nine) entries that
    precede it in the day-bucket. *)
Theorem appended_entry_is_shown_last logEntry w logs stored :
  let t := Date_now (ticks w) in
  lookup (vault w) VAULT_Logs = Some (Bucket logs) ->
  lookup logs (day_bucket t) <> Some Opaque ->
  stored_logs (vault w) t = VArr stored ->
  day_bucket (Date_now (S (ticks w))) = day_bucket t ->
  JSON_parse (JSON_stringify (VArr (stored ++ [logEntry])))
  = Some (VArr (stored ++ [logEntry])) ->
  Forall plain_entry (slice_last 9 stored) ->
  plain_entry logEntry ->
  exists w1 earlier act,
    logAction logEntry w = (Ok tt, w1)
    /\ getRecentActivities w1 = (Ok (earlier ++ [act])%list, tick w1)
    /\ shows logEntry act
    /\ Forall2 shows (slice_last 9 stored) earlier.
Proof.
  intros t Hlogs Hfile Hstored Hday Hround Hplain Hentry.
  rewrite (logAction_result logEntry w logs stored Hlogs Hfile Hstored).
  fold t. eexists. 
  assert (Hall : Forall plain_entry (slice_last 10 (stored ++ [logEntry]))).
  { rewrite slice_last_snoc. apply Forall_app. split; [exact Hplain|].
    now constructor. }
  destruct (map_all_plain _ Hall) as (acts & Hacts & Hshows).
  rewrite slice_last_snoc in Hshows.
  apply Forall2_snoc_inv in Hshows as (earlier & act & -> & Hearlier & Hact).
  exists earlier, act. split; [reflexivity|].
  split; [|split; [exact Hact|exact Hearlier]].
  rewrite getRecentActivities_eq. unfold recent_of. cbn [vault ticks].
  rewrite Hday.
  erewrite read_file_bucket by apply VfsFacts.lookup_store_same.
  rewrite VfsFacts.lookup_store_same, Hround, Hacts. reflexivity.
Qed.

End AppendFacts.

(* ------------------------------------------------------------------ *)
(** ** Further properties of the decision *)

Section DecisionFacts.
Context `{Runtime}.

Lemma store_store_same {A} (l : list (string * A)) k a b :
  store (store l k a) k b = store l k b.
Proof.
  induction l as [|[k' a'] l IH]; simpl.
  - now rewrite String.eqb_refl.
  - destruct (String.eqb_spec k' k); simpl.
    + now rewrite String.eqb_refl.
    + destruct (String.eqb_spec k' k); [contradiction|now rewrite IH].
Qed.

Lemma replace_first_absent p t s :
  Str.includes s p = false -> Str.replace_first p t s = s.
Proof.
  unfold Str.includes, Str.replace_first.
  now destruct (Str.find_sub p s) as [[b a]|].
Qed.

(** The whole effect of a decision that finds a regular file. *)
Lemma decide_frame w pend approvalId wanted action f content to :
  let dest := if String.eqb action "approve" then VAULT_Approved
              else VAULT_Rejected in
  let updated := Str.replace_first "status: pending"
                   (status_template action (Date_now (ticks w))) content in
  lookup (vault w) VAULT_Pending_Approval = Some (Bucket pend) ->
  toString_method approvalId = Some wanted ->
  find (fun g => Str.includes g wanted) (names pend) = Some f ->
  f <> "" ->
  lookup pend f = Some (File content) ->
  destination (vault w) dest = Some to ->
  lookup to f <> Some Opaque ->
  exists w',
    updateApprovalStatus approvalId (VStr action) w = (Ok tt, w')
    /\ ticks w' = S (ticks w)
    /\ lookup (vault w') VAULT_Pending_Approval = Some (Bucket (remove pend f))
    /\ lookup (vault w') dest = Some (Bucket (store to f (File updated)))
    /\ (forall dir, dir <> VAULT_Pending_Approval -> dir <> dest ->
                    lookup (vault w') dir = lookup (vault w) dir).
Proof.
  intros dest updated Hpend Hs Hfind Hne Hf Hdest Hclash.
  assert (Hdp : dest <> VAULT_Pending_Approval).
  { unfold dest. destruct (String.eqb action "approve"); discriminate. }
  destruct (fs_mkdir_run w dest to Hdest) as (v1 & Hmk & Hv1d & Hv1o).
  assert (Hv1p : lookup v1 VAULT_Pending_Approval = Some (Bucket pend)).
  { rewrite Hv1o; [exact Hpend|congruence]. }
  unfold updateApprovalStatus. unfold bind at 1.
  rewrite fs_readdir_read, (read_dir_bucket _ _ _ Hpend).
  unfold bind at 1. rewrite (find_approval_file_run _ _ _ _ Hs), Hfind.
  destruct (String.eqb_spec f ""); [contradiction|].
  change (is_string (VStr action) "approve") with (String.eqb action "approve").
  fold dest. unfold bind at 1. rewrite Hmk. unfold bind at 1.
  rewrite (fs_rename_run (mkWorld v1 (ticks w)) _ _ f pend to content
             Hv1p Hv1d Hf Hclash).
  unfold bind at 1. rewrite fs_readFile_read. cbn [vault ticks].
  set (v2 := store (store v1 VAULT_Pending_Approval (Bucket (remove pend f)))
                   dest (Bucket (store to f (File content)))).
  assert (Hv2d : lookup v2 dest = Some (Bucket (store to f (File content))))
    by apply VfsFacts.lookup_store_same.
  rewrite (read_file_bucket _ _ _ f Hv2d), VfsFacts.lookup_store_same.
  unfold bind at 1. simpl ToString. unfold or_TypeError, ret at 1.
  unfold bind at 1. unfold clock at 1. cbn [vault ticks].
  rewrite (fs_writeFile_bucket (mkWorld v2 (S (ticks w))) dest _ f _ Hv2d);
    [|rewrite VfsFacts.lookup_store_same; discriminate].
  eexists. split; [reflexivity|]. cbn [vault ticks].
  split; [reflexivity|]. split; [|split].
  - rewrite VfsFacts.lookup_store_other by congruence.
    unfold v2. rewrite VfsFacts.lookup_store_other by congruence.
    apply VfsFacts.lookup_store_same.
  - rewrite VfsFacts.lookup_store_same, store_store_same. reflexivity.
  - intros dir Hp Hd.
    rewrite VfsFacts.lookup_store_other by congruence.
    unfold v2. rewrite !VfsFacts.lookup_store_other by congruence.
    apply Hv1o. exact Hd.
Qed.

Lemma read_file_missing_bucket v dir f :
  lookup v dir = None -> read_file v [dir; f] = Throw (fs_error "ENOENT").
Proof.
  intros Hl. unfold read_file, fs_readFile. run_monad. now rewrite Hl.
Qed.

(** X13. A decision moves one file and touches nothing else.  The file
    it picks is read in the destination bucket and is no longer in the
    pending bucket; every other pending entry, every other entry of the
    destination bucket, and every other bucket and document of the vault
    read as before. *)
Theorem decide_moves_one_file w pend approvalId wanted action f content to :
  let dest := if String.eqb action "approve" then VAULT_Approved
              else VAULT_Rejected in
  lookup (vault w) VAULT_Pending_Approval = Some (Bucket pend) ->
  toString_method approvalId = Some wanted ->
  find (fun g => Str.includes g wanted) (names pend) = Some f ->
  f <> "" ->
  lookup pend f = Some (File content) ->
  destination (vault w) dest = Some to ->
  lookup to f <> Some Opaque ->
  exists w' updated,
    updateApprovalStatus approvalId (VStr action) w = (Ok tt, w')
    /\ read_file (vault w') [VAULT_Pending_Approval; f] = Throw (fs_error "ENOENT")
    /\ read_file (vault w') [dest; f] = Ok updated
    /\ (forall g, g <> f ->
          read_file (vault w') [VAULT_Pending_Approval; g]
          = read_file (vault w) [VAULT_Pending_Approval; g])
    /\ (forall g, g <> f ->
          read_file (vault w') [dest; g] = read_file (vault w) [dest; g])
    /\ (forall dir, dir <> VAULT_Pending_Approval -> dir <> dest ->
          lookup (vault w') dir = lookup (vault w) dir).
Proof.
  intros dest Hpend Hs Hfind Hne Hf Hdest Hclash.
  destruct (decide_frame w pend approvalId wanted action f content to
              Hpend Hs Hfind Hne Hf Hdest Hclash)
    as (w' & Hrun & _ & Hp' & Hd' & Hother).
  fold dest in Hd'. eexists w', _. split; [exact Hrun|].
  split; [|split; [|split; [|split; [|exact Hother]]]].
  - rewrite (read_file_bucket _ _ _ f Hp'). now rewrite VfsFacts.lookup_remove_same.
  - rewrite (read_file_bucket _ _ _ f Hd'). now rewrite VfsFacts.lookup_store_same.
  - intros g Hg. rewrite (read_file_bucket _ _ _ g Hp'), (read_file_bucket _ _ _ g Hpend).
    rewrite VfsFacts.lookup_remove_other by congruence. reflexivity.
  - intros g Hg. rewrite (read_file_bucket _ _ _ g Hd').
    rewrite VfsFacts.lookup_store_other by congruence.
    unfold destination in Hdest.
    destruct (lookup (vault w) dest) as [[c|es]|] eqn:El; [discriminate| |];
      inversion Hdest; subst.
    + now rewrite (read_file_bucket _ _ _ g El).
    + now rewrite (read_file_missing_bucket _ _ g El).
Qed.

(** X14. Deciding twice does not act twice.  Once a decision has moved
    the file, and no other pending file name contains the text of the id,
    a second decision on the same id, to approve or to reject, returns
    normally and changes nothing: the file is not moved again and its
    content is not rewritten again. *)
Theorem decide_twice_is_idle w pend approvalId wanted action again f content to :
  let dest := if String.eqb action "approve" then VAULT_Approved
              else VAULT_Rejected in
  lookup (vault w) VAULT_Pending_Approval = Some (Bucket pend) ->
  toString_method approvalId = Some wanted ->
  find (fun g => Str.includes g wanted) (names pend) = Some f ->
  f <> "" ->
  lookup pend f = Some (File content) ->
  destination (vault w) dest = Some to ->
  lookup to f <> Some Opaque ->
  (forall g, In g (names pend) -> g <> f -> Str.includes g wanted = false) ->
  exists w',
    updateApprovalStatus approvalId (VStr action) w = (Ok tt, w')
    /\ updateApprovalStatus approvalId again w' = (Ok tt, w').
Proof.
  intros dest Hpend Hs Hfind Hne Hf Hdest Hclash Honly.
  destruct (decide_frame w pend approvalId wanted action f content to
              Hpend Hs Hfind Hne Hf Hdest Hclash)
    as (w' & Hrun & _ & Hp' & _).
  exists w'. split; [exact Hrun|].
  apply (updateApprovalStatus_no_match approvalId again wanted
           (names (remove pend f)) w').
  - apply (read_dir_bucket _ _ _ Hp').
  - exact Hs.
  - intros g Hg. rewrite VfsFacts.names_remove in Hg.
    apply filter_In in Hg as [Hin Hgf].
    apply Honly; [exact Hin|].
    intros ->. now rewrite String.eqb_refl in Hgf.
Qed.

(** X15. A file without the text [status: pending] is moved as it is:
    the rewrite finds nothing to replace, and the decided file has
    neither the new status nor the decision time. *)
Theorem decide_without_status_line w pend approvalId wanted action f content to :
  let dest := if String.eqb action "approve" then VAULT_Approved
              else VAULT_Rejected in
  lookup (vault w) VAULT_Pending_Approval = Some (Bucket pend) ->
  toString_method approvalId = Some wanted ->
  find (fun g => Str.includes g wanted) (names pend) = Some f ->
  f <> "" ->
  lookup pend f = Some (File content) ->
  destination (vault w) dest = Some to ->
  lookup to f <> Some Opaque ->
  Str.includes content "status: pending" = false ->
  exists w',
    updateApprovalStatus approvalId (VStr action) w = (Ok tt, w')
    /\ read_file (vault w') [dest; f] = Ok content.
Proof.
  intros dest Hpend Hs Hfind Hne Hf Hdest Hclash Habsent.
  destruct (decide_frame w pend approvalId wanted action f content to
              Hpend Hs Hfind Hne Hf Hdest Hclash)
    as (w' & Hrun & _ & _ & Hd' & _).
  fold dest in Hd'. exists w'. split; [exact Hrun|].
  rewrite (read_file_bucket _ _ _ f Hd'), VfsFacts.lookup_store_same.
  now rewrite (replace_first_absent _ _ _ Habsent).
Qed.

(** X16. Every action other than [approve] is carried out as a
    rejection: whatever its text, the file goes to the Rejected bucket,
    which is created when it is missing, its first [status: pending]
    becomes the text of the action followed by the letter d, and the
    Approved bucket is not touched. *)
Theorem decide_other_action_rejects w pend approvalId wanted action f content to :
  action <> "approve" ->
  lookup (vault w) VAULT_Pending_Approval = Some (Bucket pend) ->
  toString_method approvalId = Some wanted ->
  find (fun g => Str.includes g wanted) (names pend) = Some f ->
  f <> "" ->
  lookup pend f = Some (File content) ->
  destination (vault w) VAULT_Rejected = Some to ->
  lookup to f <> Some Opaque ->
  exists w',
    updateApprovalStatus approvalId (VStr action) w = (Ok tt, w')
    /\ read_file (vault w') [VAULT_Rejected; f]
       = Ok (Str.replace_first "status: pending"
               ("status: " ++ action ++ "d" ++ Str.nl ++ "approved_at: "
                  ++ Date_toISOString (Date_now (ticks w))) content)
    /\ lookup (vault w') VAULT_Approved = lookup (vault w) VAULT_Approved.
Proof.
  intros Haction Hpend Hs Hfind Hne Hf Hdest Hclash.
  pose proof (decide_frame w pend approvalId wanted action f content to) as Hframe.
  apply String.eqb_neq in Haction. rewrite Haction in Hframe.
  destruct (Hframe Hpend Hs Hfind Hne Hf Hdest Hclash)
    as (w' & Hrun & _ & _ & Hd' & Hother).
  exists w'. split; [exact Hrun|]. split.
  - rewrite (read_file_bucket _ _ _ f Hd'), VfsFacts.lookup_store_same.
    reflexivity.
  - apply Hother; discriminate.
Qed.

End DecisionFacts.

Section ApproveRouteFacts.
Context `{Runtime}.

Lemma api_approve_steps props approvalId action w :
  obj_get props "approvalId" = approvalId ->
  obj_get props "action" = action ->
  truthy approvalId = true ->
  truthy action = true ->
  api_approve (VObj props) w =
    match updateApprovalStatus approvalId action w with
    | (Throw _, w1) =>
        (Ok (Response 500 (VObj [("error", VStr "Failed to process approval")])), w1)
    | (Ok _, w1) =>
        match (if is_string action "approve"
               then executeApprovedAction approvalId else ret tt) w1 with
        | (Throw _, w2) =>
            (Ok (Response 500 (VObj [("error", VStr "Failed to process approval")])),
             w2)
        | (Ok _, w2) =>
            match logAction (decision_entry approvalId action (Date_now (ticks w2)))
                            (tick w2) with
            | (Throw _, w3) =>
                (Ok (Response 500
                       (VObj [("error", VStr "Failed to process approval")])), w3)
            | (Ok _, w3) =>
                match ToString action with
                | Some shown => (Ok (decided shown), w3)
                | None =>
                    (Ok (Response 500
                           (VObj [("error", VStr "Failed to process approval")])),
                     w3)
                end
            end
        end
    end.
Proof.
  intros Hid Hact Tid Tact.
  unfold api_approve, try_catch. unfold bind at 1. simpl destructure.
  rewrite Hid, Hact. unfold ret at 1. unfold bind at 1. unfold ret at 1.
  rewrite Tid, Tact. cbn [negb orb].
  unfold bind at 1.
  destruct (updateApprovalStatus approvalId action w) as [[u|e] w1];
    [|reflexivity].
  unfold bind at 1.
  destruct ((if is_string action "approve"
             then executeApprovedAction approvalId else ret tt) w1)
    as [[u2|e] w2]; [|reflexivity].
  unfold bind at 1. unfold clock at 1. fold (tick w2).
  unfold bind at 1. fold (decision_entry approvalId action (Date_now (ticks w2))).
  destruct (logAction _ (tick w2)) as [[u3|e] w3]; [|reflexivity].
  unfold bind, or_TypeError. destruct (ToString action); reflexivity.
Qed.

Lemma fs_rename_opaque w src dst f from to :
  lookup (vault w) src = Some (Bucket from) ->
  lookup (vault w) dst = Some (Bucket to) ->
  lookup from f = Some Opaque ->
  lookup to f = None ->
  fs_rename src dst f w =
    (Ok tt,
     mkWorld (store (store (vault w) src (Bucket (remove from f)))
                    dst (Bucket (store to f Opaque)))
             (ticks w)).
Proof.
  intros Hsrc Hdst Hf Hnone. unfold fs_rename. run_monad.
  rewrite Hsrc. simpl. rewrite Hf, Hdst. simpl. now rewrite Hnone.
Qed.

(** X17. A matched entry that cannot be read is moved all the same.  The
    route answers 500 and writes no log entry, but the entry has left the
    pending bucket and sits in the destination bucket: the failure comes
    after the rename, and nothing moves the entry back. *)
Theorem decide_unreadable_entry props approvalId action w pend wanted f to :
  let dest := if String.eqb action "approve" then VAULT_Approved
              else VAULT_Rejected in
  obj_get props "approvalId" = approvalId ->
  obj_get props "action" = VStr action ->
  truthy approvalId = true ->
  action <> "" ->
  lookup (vault w) VAULT_Pending_Approval = Some (Bucket pend) ->
  toString_method approvalId = Some wanted ->
  find (fun g => Str.includes g wanted) (names pend) = Some f ->
  f <> "" ->
  lookup pend f = Some Opaque ->
  destination (vault w) dest = Some to ->
  lookup to f = None ->
  exists w' moved,
    api_approve (VObj props) w =
      (Ok (Response 500 (VObj [("error", VStr "Failed to process approval")])), w')
    /\ ~ In f (pending_names (vault w'))
    /\ lookup (vault w') dest = Some (Bucket moved)
    /\ lookup moved f = Some Opaque
    /\ lookup (vault w') VAULT_Logs = lookup (vault w) VAULT_Logs.
Proof.
  intros dest Hid Hact Tid Hne Hpend Hs Hfind Hf0 Hf Hdest Hnone.
  assert (Hdp : dest <> VAULT_Pending_Approval).
  { unfold dest. destruct (String.eqb action "approve"); discriminate. }
  assert (Hdl : dest <> VAULT_Logs).
  { unfold dest. destruct (String.eqb action "approve"); discriminate. }
  destruct (fs_mkdir_run w dest to Hdest) as (v1 & Hmk & Hv1d & Hv1o).
  assert (Hv1p : lookup v1 VAULT_Pending_Approval = Some (Bucket pend)).
  { rewrite Hv1o; [exact Hpend|congruence]. }
  set (v2 := store (store v1 VAULT_Pending_Approval (Bucket (remove pend f)))
                   dest (Bucket (store to f Opaque))).
  assert (Hupd : updateApprovalStatus approvalId (VStr action) w
                 = (Throw (fs_error "EISDIR"), mkWorld v2 (ticks w))).
  { unfold updateApprovalStatus. unfold bind at 1.
    rewrite fs_readdir_read, (read_dir_bucket _ _ _ Hpend).
    unfold bind at 1. rewrite (find_approval_file_run _ _ _ _ Hs), Hfind.
    destruct (String.eqb_spec f ""); [contradiction|].
    change (is_string (VStr action) "approve") with (String.eqb action "approve").
    fold dest. unfold bind at 1. rewrite Hmk. unfold bind at 1.
    rewrite (fs_rename_opaque (mkWorld v1 (ticks w)) _ _ f pend to
               Hv1p Hv1d Hf Hnone).
    unfold bind at 1. rewrite fs_readFile_read. cbn [vault ticks]. fold v2.
    assert (Hv2d : lookup v2 dest = Some (Bucket (store to f Opaque)))
      by apply VfsFacts.lookup_store_same.
    rewrite (read_file_bucket _ _ _ f Hv2d), VfsFacts.lookup_store_same.
    reflexivity. }
  exists (mkWorld v2 (ticks w)), (store to f Opaque).
  split; [|split; [|split; [|split]]].
  - rewrite (api_approve_steps props approvalId (VStr action) w Hid Hact Tid).
    + now rewrite Hupd.
    + simpl. now destruct (String.eqb_spec action "").
  - cbn [vault].
    assert (Hp2 : lookup v2 VAULT_Pending_Approval = Some (Bucket (remove pend f))).
    { unfold v2. rewrite VfsFacts.lookup_store_other by congruence.
      apply VfsFacts.lookup_store_same. }
    rewrite (pending_names_bucket _ _ Hp2). apply VfsFacts.not_in_names_remove.
  - apply VfsFacts.lookup_store_same.
  - apply VfsFacts.lookup_store_same.
  - cbn [vault]. unfold v2. rewrite VfsFacts.lookup_store_other by congruence.
    rewrite VfsFacts.lookup_store_other by discriminate.
    apply Hv1o. congruence.
Qed.

Lemma stored_logs_same_bucket v v' t :
  lookup v' VAULT_Logs = lookup v VAULT_Logs ->
  stored_logs v' t = stored_logs v t.
Proof.
  intros Hl. unfold stored_logs.
  assert (Hr : read_file v' [VAULT_Logs; day_bucket t]
               = read_file v [VAULT_Logs; day_bucket t]).
  { unfold read_file, fs_readFile, bind, get_vault, bucket_of. cbn [vault].
    rewrite Hl. destruct (lookup v VAULT_Logs) as [[c|es]|]; try reflexivity.
    unfold ret, throw. destruct (lookup es (day_bucket t)) as [[]|]; reflexivity. }
  now rewrite Hr.
Qed.

(** X18. A decision that finds its file goes through as a whole: the
    route answers [success: true], the file has left the pending bucket
    and is read, rewritten, in the bucket of the decision, and the
    day-bucket holds the stored entries followed by the entry of the
    decision. *)
Theorem approve_route_moves_and_logs
        props approvalId action w pend wanted f content to logs entries :
  let dest := if String.eqb action "approve" then VAULT_Approved
              else VAULT_Rejected in
  let day := day_bucket (Date_now (S (S (ticks w)))) in
  obj_get props "approvalId" = approvalId ->
  obj_get props "action" = VStr action ->
  truthy approvalId = true ->
  action <> "" ->
  lookup (vault w) VAULT_Pending_Approval = Some (Bucket pend) ->
  toString_method approvalId = Some wanted ->
  find (fun g => Str.includes g wanted) (names pend) = Some f ->
  f <> "" ->
  lookup pend f = Some (File content) ->
  destination (vault w) dest = Some to ->
  lookup to f <> Some Opaque ->
  lookup (vault w) VAULT_Logs = Some (Bucket logs) ->
  lookup logs day <> Some Opaque ->
  stored_logs (vault w) (Date_now (S (S (ticks w)))) = VArr entries ->
  exists w',
    api_approve (VObj props) w = (Ok (decided action), w')
    /\ ~ In f (pending_names (vault w'))
    /\ read_file (vault w') [dest; f]
       = Ok (Str.replace_first "status: pending"
               (status_template action (Date_now (ticks w))) content)
    /\ read_file (vault w') [VAULT_Logs; day]
       = Ok (JSON_stringify
               (VArr (entries ++ [decision_entry approvalId (VStr action)
                                    (Date_now (S (ticks w)))]))).
Proof.
  intros dest day Hid Hact Tid Hne Hpend Hs Hfind Hf0 Hf Hdest Hclash
         Hlogs Hday Hstored.
  assert (Hdl : dest <> VAULT_Logs).
  { unfold dest. destruct (String.eqb action "approve"); discriminate. }
  destruct (decide_frame w pend approvalId wanted action f content to
              Hpend Hs Hfind Hf0 Hf Hdest Hclash)
    as (w1 & Hrun & Hticks & Hp1 & Hd1 & Hother).
  fold dest in Hd1, Hother.
  assert (Hlogs1 : lookup (vault w1) VAULT_Logs = Some (Bucket logs)).
  { rewrite Hother; [exact Hlogs|discriminate|congruence]. }
  assert (Hexec : (if is_string (VStr action) "approve"
                   then executeApprovedAction approvalId else ret tt) w1
                  = (Ok tt, w1)).
  { destruct (is_string (VStr action) "approve"); [|reflexivity].
    unfold executeApprovedAction, bind, or_TypeError.
    now rewrite (toString_method_ToString _ _ Hs). }
  destruct (logAction_appends
              (decision_entry approvalId (VStr action) (Date_now (ticks w1)))
              (tick w1) logs entries) as (w3 & Hlog & Hread & Hframe).
  - exact Hlogs1.
  - cbn [tick ticks]. rewrite Hticks. exact Hday.
  - cbn [tick ticks vault]. rewrite Hticks.
    rewrite (stored_logs_same_bucket (vault w) (vault w1)); [exact Hstored|].
    now rewrite Hlogs1, Hlogs.
  - exists w3.
    rewrite (api_approve_steps props approvalId (VStr action) w Hid Hact Tid);
      [|simpl; now destruct (String.eqb_spec action "")].
    rewrite Hrun, Hexec, Hlog. cbn [ToString].
    split; [reflexivity|]. cbn [tick ticks vault] in Hread, Hframe.
    rewrite Hticks in Hread.
    assert (Hp3 : lookup (vault w3) VAULT_Pending_Approval
                  = Some (Bucket (remove pend f))).
    { rewrite Hframe; [exact Hp1|discriminate]. }
    assert (Hd3 : lookup (vault w3) dest
                  = Some (Bucket (store to f (File
                       (Str.replace_first "status: pending"
                          (status_template action (Date_now (ticks w))) content))))).
    { rewrite Hframe; [exact Hd1|exact Hdl]. }
    split; [|split].
    + rewrite (pending_names_bucket _ _ Hp3). apply VfsFacts.not_in_names_remove.
    + rewrite (read_file_bucket _ _ _ f Hd3). now rewrite VfsFacts.lookup_store_same.
    + exact Hread.
Qed.

(** X19. Without a pending bucket the two sides disagree: the listing is
    empty, as if nothing were pending, while a decision is answered with
    status 500; neither writes anything, and no log entry is made. *)
Theorem missing_pending_bucket props approvalId action w e :
  obj_get props "approvalId" = approvalId ->
  obj_get props "action" = action ->
  truthy approvalId = true ->
  truthy action = true ->
  read_dir (vault w) VAULT_Pending_Approval = Throw e ->
  getPendingApprovals w = (Ok [], w)
  /\ api_approve (VObj props) w =
       (Ok (Response 500 (VObj [("error", VStr "Failed to process approval")])), w).
Proof.
  intros Hid Hact Tid Tact Hdir. split.
  - unfold getPendingApprovals, try_catch, bind.
    now rewrite fs_readdir_read, Hdir.
  - rewrite (api_approve_steps props approvalId action w Hid Hact Tid Tact).
    unfold updateApprovalStatus, bind. now rewrite fs_readdir_read, Hdir.
Qed.

End ApproveRouteFacts.

(* ------------------------------------------------------------------ *)
(** ** Further properties of the header parser and of the records *)

Module HeaderFacts.
Import Str.















End HeaderFacts.

Section FrontmatterFacts.
Context `{Runtime}.
Import HeaderFacts.








End FrontmatterFacts.

Section RecordFacts.
Context `{Runtime}.
Import HeaderFacts.

Lemma obj_find_set props k v k' :
  obj_find (obj_set props k v) k'
  = if String.eqb k k' then Some v else obj_find props k'.
Proof.
  induction props as [|[k0 v0] props IH]; cbn [obj_find obj_set].
  - reflexivity.
  - destruct (String.eqb_spec k0 k) as [->|Hne]; cbn [obj_find].
    + destruct (String.eqb_spec k k'); reflexivity.
    + rewrite IH. destruct (String.eqb_spec k0 k') as [->|Hne'].
      * destruct (String.eqb_spec k k'); [congruence|reflexivity].
      * reflexivity.
Qed.

Lemma obj_find_none_keys props k :
  obj_find props k = None <-> ~ In k (map fst props).
Proof.
  induction props as [|[k0 v0] props IH]; cbn [obj_find map fst In].
  - tauto.
  - destruct (String.eqb_spec k0 k) as [->|Hne].
    + split; [discriminate|]. intros Hn. destruct Hn. now left.
    + rewrite IH. tauto.
Qed.

Lemma obj_set_keys props k v :
  NoDup (map fst props) -> NoDup (map fst (obj_set props k v)).
Proof.
  induction props as [|[k0 v0] props IH]; cbn [obj_set map fst]; intros Hnd.
  - constructor; [intros []|constructor].
  - inversion Hnd as [|? ? Hnotin Hnd']; subst.
    destruct (String.eqb_spec k0 k) as [->|Hne]; cbn [map fst].
    + now constructor.
    + constructor; [|now apply IH].
      apply obj_find_none_keys. rewrite obj_find_set.
      destruct (String.eqb_spec k k0); [congruence|].
      now apply obj_find_none_keys.
Qed.

(** Reading a property of [{...a, ...b}] when no key is repeated in [b]. *)
Lemma obj_find_spread b : forall a k,
  NoDup (map fst b) ->
  obj_find (obj_spread a b) k
  = match obj_find b k with
    | Some v => Some v
    | None => obj_find a k
    end.
Proof.
  unfold obj_spread.
  induction b as [|[k0 v0] b IH]; intros a k Hnd; cbn [fold_left obj_find fst snd].
  - reflexivity.
  - cbn [map fst] in Hnd. inversion Hnd as [|? ? Hnotin Hnd']; subst.
    rewrite (IH _ _ Hnd'), obj_find_set.
    destruct (String.eqb_spec k0 k) as [->|Hne]; [|reflexivity].
    apply obj_find_none_keys in Hnotin. now rewrite Hnotin.
Qed.

Lemma header_step_keys frontmatter line :
  NoDup (map fst frontmatter) -> NoDup (map fst (header_step frontmatter line)).
Proof.
  intros Hnd. unfold header_step, frontmatter_assign.
  destruct (Str.split ":" line) as [|key valueParts]; [exact Hnd|].
  destruct (negb (String.eqb key "") && negb (length valueParts =? 0)%nat);
    [|exact Hnd].
  destruct (String.eqb (Str.trim key) "__proto__"); [exact Hnd|].
  now apply obj_set_keys.
Qed.

Lemma header_step_texts frontmatter line :
  texts frontmatter -> texts (header_step frontmatter line).
Proof.
  intros Ht. unfold header_step, frontmatter_assign.
  destruct (Str.split ":" line) as [|key valueParts]; [exact Ht|].
  destruct (negb (String.eqb key "") && negb (length valueParts =? 0)%nat);
    [|exact Ht].
  destruct (String.eqb (Str.trim key) "__proto__"); [exact Ht|].
  intros k v. rewrite obj_find_set.
  destruct (String.eqb (Str.trim key) k); [|apply Ht].
  intros [= <-]. eauto.
Qed.

Lemma fold_header_step lines : forall frontmatter,
  NoDup (map fst frontmatter) -> texts frontmatter ->
  NoDup (map fst (fold_left header_step lines frontmatter))
  /\ texts (fold_left header_step lines frontmatter).
Proof.
  induction lines as [|line lines IH]; intros frontmatter Hnd Ht; cbn [fold_left].
  - now split.
  - apply IH; [now apply header_step_keys|now apply header_step_texts].
Qed.

Lemma parseFrontmatter_shape content :
  NoDup (map fst (parseFrontmatter content)) /\ texts (parseFrontmatter content).
Proof.
  unfold parseFrontmatter. destruct (frontmatterMatch content) as [block|].
  - change (fold_left _ ?l ?a) with (fold_left header_step l a).
    apply fold_header_step; [constructor|]. intros k v. discriminate.
  - split; [constructor|]. intros k v. discriminate.
Qed.

(** X21. Every field of a file's header is copied to its record,
    including [id] and [file]: a header line [id: ...] replaces the
    number taken from the file name by a text, and [file: ...] replaces
    the file name.  Only [title], [description], [amount] and
    [recipient] are computed afterwards. *)
Theorem header_fields_reach_the_record (id : value) (file content : string) :
  exists props,
    approval_record id file (parseFrontmatter content) = VObj props
    /\ obj_find props "id"
       = Some (match obj_find (parseFrontmatter content) "id" with
               | Some v => v
               | None => id
               end)
    /\ obj_find props "file"
       = Some (match obj_find (parseFrontmatter content) "file" with
               | Some v => v
               | None => VStr file
               end)
    /\ forall k,
         ~ In k ["id"; "file"; "title"; "description"; "amount"; "recipient"] ->
         obj_find props k = obj_find (parseFrontmatter content) k.
Proof.
  destruct (parseFrontmatter_shape content) as [Hnd _].
  eexists. split; [reflexivity|].
  repeat split.
  - rewrite !obj_find_set. cbn [String.eqb Ascii.eqb Bool.eqb].
    rewrite (obj_find_spread _ _ _ Hnd). cbn [obj_find String.eqb Ascii.eqb Bool.eqb].
    now destruct (obj_find (parseFrontmatter content) "id").
  - rewrite !obj_find_set. cbn [String.eqb Ascii.eqb Bool.eqb].
    rewrite (obj_find_spread _ _ _ Hnd). cbn [obj_find String.eqb Ascii.eqb Bool.eqb].
    now destruct (obj_find (parseFrontmatter content) "file").
  - intros k Hk. cbn [In] in Hk.
    rewrite !obj_find_set.
    repeat match goal with
           | |- context [String.eqb ?a k] =>
               destruct (String.eqb_spec a k); [exfalso; apply Hk; tauto|]
           end.
    rewrite (obj_find_spread _ _ _ Hnd). cbn [obj_find].
    repeat match goal with
           | |- context [String.eqb ?a k] =>
               destruct (String.eqb_spec a k); [exfalso; apply Hk; tauto|]
           end.
    now destruct (obj_find (parseFrontmatter content) k).
Qed.

Lemma or_else_text metadata k fallback :
  texts metadata -> inherited k = false ->
  or_else (obj_get metadata k) fallback = fallback
  \/ exists s, s <> "" /\ or_else (obj_get metadata k) fallback = VStr s.
Proof.
  intros Ht Hk. unfold or_else, obj_get. rewrite Hk.
  destruct (obj_find metadata k) as [v|] eqn:E; [|now left].
  destruct (Ht _ _ E) as [s ->]. cbn [truthy].
  destruct (String.eqb_spec s "") as [->|Hne]; cbn [negb]; [now left|].
  right. eauto.
Qed.

(** X22. Whatever the file holds, its record has a description and a
    recipient that are non-empty texts (the header's, or [Requires
    approval] and [Unknown]); its amount is the number 0 or a non-empty
    text, never a number read from the header; its title is absent or a
    text. *)
Theorem record_display_fields (id : value) (file content : string) :
  exists props description recipient,
    approval_record id file (parseFrontmatter content) = VObj props
    /\ obj_find props "description" = Some (VStr description)
    /\ description <> ""
    /\ obj_find props "recipient" = Some (VStr recipient)
    /\ recipient <> ""
    /\ (obj_find props "amount" = Some (VInt 0)
        \/ exists amount, amount <> ""
             /\ obj_find props "amount" = Some (VStr amount))
    /\ (obj_find props "title" = Some VUndefined
        \/ exists title, obj_find props "title" = Some (VStr title)).
Proof.
  destruct (parseFrontmatter_shape content) as [_ Ht].
  set (metadata := parseFrontmatter content) in *.
  destruct (or_else_text metadata "description" (VStr "Requires approval") Ht eq_refl)
    as [Ed|[d [Hd Ed]]];
  destruct (or_else_text metadata "recipient" (VStr "Unknown") Ht eq_refl)
    as [Er|[r [Hr Er]]];
  eexists; do 2 eexists; (split; [reflexivity|]);
  rewrite !obj_find_set; cbn [String.eqb Ascii.eqb Bool.eqb];
  rewrite Ed, Er;
  (split; [reflexivity|]); (split; [first [exact Hd|discriminate]|]);
  (split; [reflexivity|]); (split; [first [exact Hr|discriminate]|]);
  (split;
   [ destruct (or_else_text metadata "amount" (VInt 0) Ht eq_refl)
       as [Ea|[a [Ha Ea]]]; rewrite Ea; [now left|right; eauto]
   | ]);
  unfold or_else, obj_get; cbn [inherited existsb Object_prototype_names
                                String.eqb Ascii.eqb Bool.eqb orb];
  destruct (obj_find metadata "subject") as [v|] eqn:Es;
  try (destruct (Ht _ _ Es) as [s ->]; cbn [truthy];
       destruct (String.eqb s ""); cbn [negb]; [|right; eauto]);
  cbn [truthy];
  destruct (obj_find metadata "action") as [v'|] eqn:Ea';
  try (destruct (Ht _ _ Ea') as [s' ->]; right; eauto);
  now left.
Qed.

End RecordFacts.

Section LifecycleFacts.
Context `{Runtime}.

Lemma make_folders_run folders : forall w,
  exists v',
    make_folders folders w = (Ok tt, mkWorld v' (ticks w))
    /\ forall name,
         lookup v' name
         = match lookup (vault w) name with
           | Some node => Some node
           | None =>
               if existsb (String.eqb name) folders then Some (Bucket []) else None
           end.
Proof.
  induction folders as [|folder rest IH]; intros [v t].
  - exists v. split; [reflexivity|]. intros name. cbn [vault existsb].
    now destruct (lookup v name).
  - cbn [make_folders]. unfold bind at 1. unfold try_catch, fs_mkdir.
    unfold bind at 1. unfold get_vault. cbn [vault].
    destruct (lookup v folder) as [[content|entries]|] eqn:El.
    + destruct (IH (mkWorld v t)) as (v' & Hrun & Hlook).
      exists v'. split; [exact Hrun|]. intros name. rewrite Hlook.
      cbn [vault existsb]. destruct (lookup v name) eqn:En; [reflexivity|].
      destruct (String.eqb_spec name folder) as [->|Hne]; [congruence|reflexivity].
    + destruct (IH (mkWorld v t)) as (v' & Hrun & Hlook).
      exists v'. split; [exact Hrun|]. intros name. rewrite Hlook.
      cbn [vault existsb]. destruct (lookup v name) eqn:En; [reflexivity|].
      destruct (String.eqb_spec name folder) as [->|Hne]; [congruence|reflexivity].
    + destruct (IH (mkWorld (store v folder (Bucket [])) t)) as (v' & Hrun & Hlook).
      exists v'. split; [exact Hrun|]. intros name. rewrite Hlook.
      cbn [vault existsb].
      destruct (String.eqb_spec name folder) as [->|Hne].
      * now rewrite VfsFacts.lookup_store_same, El.
      * rewrite VfsFacts.lookup_store_other by congruence.
        reflexivity.
Qed.

Lemma write_initial_files_run files : forall w,
  exists v',
    write_initial_files files w = (Ok tt, mkWorld v' (ticks w))
    /\ forall name,
         lookup v' name
         = match lookup (vault w) name with
           | Some node => Some node
           | None =>
               match find (fun file => String.eqb name (fst file)) files with
               | Some file => Some (RootFile (snd file))
               | None => None
               end
           end.
Proof.
  induction files as [|[file template] rest IH]; intros [v t].
  - exists v. split; [reflexivity|]. intros name. cbn [vault find].
    now destruct (lookup v name).
  - cbn [write_initial_files]. unfold bind at 1. unfold try_catch, fs_access.
    unfold bind at 1. unfold get_vault. cbn [vault].
    destruct (lookup v file) as [node|] eqn:El.
    + destruct (IH (mkWorld v t)) as (v' & Hrun & Hlook).
      exists v'. split; [exact Hrun|]. intros name. rewrite Hlook.
      cbn [vault find fst snd]. destruct (lookup v name) eqn:En; [reflexivity|].
      destruct (String.eqb_spec name file) as [->|Hne]; [congruence|reflexivity].
    + unfold throw, fs_writeFile, bind, get_vault. cbn [vault]. rewrite El.
      unfold put_vault. cbn [vault ticks].
      destruct (IH (mkWorld (store v file (RootFile template)) t))
        as (v' & Hrun & Hlook).
      exists v'. split; [exact Hrun|]. intros name. rewrite Hlook.
      cbn [vault find fst snd].
      destruct (String.eqb_spec name file) as [->|Hne].
      * now rewrite VfsFacts.lookup_store_same, El.
      * rewrite VfsFacts.lookup_store_other by congruence.
        reflexivity.
Qed.

(** The three templates only read the clock. *)
Lemma templates_run v w :
  exists dashboard handbook goals,
    getDashboardTemplate w = (Ok dashboard, tick (tick (tick w)))
    /\ getCompanyHandbookTemplate (tick (tick (tick w)))
       = (Ok handbook, tick (tick (tick (tick w))))
    /\ getBusinessGoalsTemplate (tick (tick (tick (tick w))))
       = (Ok goals, tick (tick (tick (tick (tick w)))))
    /\ getDashboardTemplate (mkWorld v (ticks w))
       = (Ok dashboard, mkWorld v (3 + ticks w))
    /\ getCompanyHandbookTemplate (mkWorld v (3 + ticks w))
       = (Ok handbook, mkWorld v (4 + ticks w))
    /\ getBusinessGoalsTemplate (mkWorld v (4 + ticks w))
       = (Ok goals, mkWorld v (5 + ticks w)).
Proof. destruct w as [v0 t]. do 3 eexists. repeat split; reflexivity. Qed.

Lemma initVault_lookup w :
  exists w' dashboard handbook goals,
    initVault w = (Ok tt, w')
    /\ ticks w' = (5 + ticks w)%nat
    /\ getDashboardTemplate w = (Ok dashboard, tick (tick (tick w)))
    /\ getCompanyHandbookTemplate (tick (tick (tick w)))
       = (Ok handbook, tick (tick (tick (tick w))))
    /\ getBusinessGoalsTemplate (tick (tick (tick (tick w))))
       = (Ok goals, tick (tick (tick (tick (tick w)))))
    /\ forall name,
         lookup (vault w') name
         = match lookup (vault w) name with
           | Some node => Some node
           | None =>
               if existsb (String.eqb name) vault_folders then Some (Bucket [])
               else if String.eqb name "Dashboard.md" then Some (RootFile dashboard)
               else if String.eqb name "Company_Handbook.md"
                    then Some (RootFile handbook)
               else if String.eqb name "Business_Goals.md" then Some (RootFile goals)
               else None
           end.
Proof.
  destruct (make_folders_run vault_folders w) as (v1 & Hfolders & Hlook1).
  destruct (templates_run v1 w) as (dashboard & handbook & goals
                                    & Hd & Hh & Hg & Hd1 & Hh1 & Hg1).
  destruct (write_initial_files_run
              [ ("Dashboard.md", dashboard); ("Company_Handbook.md", handbook);
                ("Business_Goals.md", goals) ] (mkWorld v1 (5 + ticks w)))
    as (v2 & Hfiles & Hlook2).
  exists (mkWorld v2 (5 + ticks w)), dashboard, handbook, goals.
  split.
  { unfold initVault. unfold bind at 1. rewrite Hfolders.
    unfold bind at 1. rewrite Hd1. unfold bind at 1. rewrite Hh1.
    unfold bind at 1. rewrite Hg1. exact Hfiles. }
  split; [reflexivity|]. split; [exact Hd|]. split; [exact Hh|]. split; [exact Hg|].
  intros name. cbn [vault] in *. rewrite Hlook2, Hlook1.
  destruct (lookup (vault w) name); [reflexivity|].
  destruct (existsb (String.eqb name) vault_folders); [reflexivity|].
  cbn [find fst snd].
  destruct (String.eqb name "Dashboard.md"); [reflexivity|].
  destruct (String.eqb name "Company_Handbook.md"); [reflexivity|].
  destruct (String.eqb name "Business_Goals.md"); reflexivity.
Qed.

(** X23. Start-up creates only what is missing.  [initVault] never
    fails; every entry of the vault's top level is kept as it was (a
    document that exists is not overwritten, a folder keeps its content);
    a missing name among the eight folders becomes an empty folder and a
    missing document gets the text its template gives at start-up; no
    other name is created, so there is no [Rejected] folder after
    start-up unless there was one. *)
Theorem initVault_creates_only_what_is_missing w :
  exists w' dashboard handbook goals,
    initVault w = (Ok tt, w')
    /\ startServer w = (Ok tt, w')
    /\ getDashboardTemplate w = (Ok dashboard, tick (tick (tick w)))
    /\ getCompanyHandbookTemplate (tick (tick (tick w)))
       = (Ok handbook, tick (tick (tick (tick w))))
    /\ getBusinessGoalsTemplate (tick (tick (tick (tick w))))
       = (Ok goals, tick (tick (tick (tick (tick w)))))
    /\ (forall name node,
          lookup (vault w) name = Some node -> lookup (vault w') name = Some node)
    /\ (forall folder,
          In folder vault_folders -> lookup (vault w) folder = None ->
          lookup (vault w') folder = Some (Bucket []))
    /\ (forall document text,
          In (document, text) [ ("Dashboard.md", dashboard);
                                ("Company_Handbook.md", handbook);
                                ("Business_Goals.md", goals) ] ->
          lookup (vault w) document = None ->
          read_file (vault w') [document] = Ok text)
    /\ (forall name,
          ~ In name vault_folders ->
          ~ In name ["Dashboard.md"; "Company_Handbook.md"; "Business_Goals.md"] ->
          lookup (vault w') name = lookup (vault w) name).
Proof.
  destruct (initVault_lookup w)
    as (w' & dashboard & handbook & goals & Hrun & _ & Hd & Hh & Hg & Hlook).
  exists w', dashboard, handbook, goals.
  split; [exact Hrun|]. split; [exact Hrun|].
  split; [exact Hd|]. split; [exact Hh|]. split; [exact Hg|].
  split; [|split; [|split]].
  - intros name node Hn. now rewrite Hlook, Hn.
  - intros folder Hin Hn. rewrite Hlook, Hn.
    replace (existsb (String.eqb folder) vault_folders) with true; [reflexivity|].
    symmetry. apply existsb_exists. exists folder. split; [exact Hin|].
    apply String.eqb_refl.
  - intros document text Hin Hn.
    unfold read_file, fs_readFile, bind, get_vault. cbn [vault fst].
    rewrite Hlook, Hn. cbn [In] in Hin.
    destruct Hin as [[= <- <-]|[[= <- <-]|[[= <- <-]|[]]]]; reflexivity.
  - intros name Hf Hdoc. rewrite Hlook.
    destruct (lookup (vault w) name); [reflexivity|].
    replace (existsb (String.eqb name) vault_folders) with false.
    + cbn [In] in Hdoc.
      destruct (String.eqb_spec name "Dashboard.md"); [exfalso; apply Hdoc; auto|].
      destruct (String.eqb_spec name "Company_Handbook.md");
        [exfalso; apply Hdoc; auto|].
      destruct (String.eqb_spec name "Business_Goals.md");
        [exfalso; apply Hdoc; auto|].
      reflexivity.
    + symmetry. apply not_true_is_false. intros Hex.
      apply existsb_exists in Hex as (folder & Hin & Heq).
      apply String.eqb_eq in Heq. now subst.
Qed.

Lemma make_folders_idle folders : forall w,
  (forall folder, In folder folders -> lookup (vault w) folder <> None) ->
  make_folders folders w = (Ok tt, w).
Proof.
  induction folders as [|folder rest IH]; intros [v t] Hall; [reflexivity|].
  cbn [make_folders]. unfold bind at 1. unfold try_catch, fs_mkdir.
  unfold bind at 1. unfold get_vault. cbn [vault].
  destruct (lookup v folder) as [[content|entries]|] eqn:El.
  - apply IH. intros f Hf. apply Hall. now right.
  - apply IH. intros f Hf. apply Hall. now right.
  - destruct (Hall folder (or_introl eq_refl)). exact El.
Qed.

Lemma write_initial_files_idle files : forall w,
  (forall file, In file files -> lookup (vault w) (fst file) <> None) ->
  write_initial_files files w = (Ok tt, w).
Proof.
  induction files as [|[file template] rest IH]; intros [v t] Hall; [reflexivity|].
  cbn [write_initial_files]. unfold bind at 1. unfold try_catch, fs_access.
  unfold bind at 1. unfold get_vault. cbn [vault].
  destruct (lookup v file) as [node|] eqn:El.
  - apply IH. intros f Hf. apply Hall. now right.
  - destruct (Hall (file, template) (or_introl eq_refl)). exact El.
Qed.

(** X24. Starting a second time changes nothing: after [initVault] has
    run once, a second run succeeds and leaves the vault exactly as the
    first run left it, whatever the clock shows by then. *)
Theorem initVault_twice w :
  exists w1 w2,
    initVault w = (Ok tt, w1)
    /\ initVault w1 = (Ok tt, w2)
    /\ vault w2 = vault w1.
Proof.
  destruct (initVault_lookup w)
    as (w1 & dashboard & handbook & goals & Hrun & _ & _ & _ & _ & Hlook).
  exists w1, (mkWorld (vault w1) (5 + ticks w1)).
  split; [exact Hrun|]. split; [|reflexivity].
  assert (Hfolders : make_folders vault_folders w1 = (Ok tt, w1)).
  { apply make_folders_idle. intros folder Hin. rewrite Hlook.
    destruct (lookup (vault w) folder); [discriminate|].
    replace (existsb (String.eqb folder) vault_folders) with true; [discriminate|].
    symmetry. apply existsb_exists. exists folder. split; [exact Hin|].
    apply String.eqb_refl. }
  destruct (templates_run (vault w1) w1) as (dashboard' & handbook' & goals'
                                             & _ & _ & _ & Hd1 & Hh1 & Hg1).
  unfold initVault. unfold bind at 1. rewrite Hfolders.
  unfold bind at 1. replace w1 with (mkWorld (vault w1) (ticks w1)) at 1
    by now destruct w1.
  rewrite Hd1. unfold bind at 1. rewrite Hh1.
  unfold bind at 1. rewrite Hg1.
  apply write_initial_files_idle. cbn [vault].
  intros file Hin. rewrite Hlook.
  destruct (lookup (vault w) (fst file)); [discriminate|].
  destruct (existsb (String.eqb (fst file)) vault_folders); [discriminate|].
  cbn [In] in Hin. destruct Hin as [<-|[<-|[<-|[]]]]; cbn; discriminate.
Qed.

(** X25. Saving the state at shutdown reads the clock, takes a
    snapshot and writes one file, [Logs/system_state.json], with the time
    of the clock reading and the snapshot; nothing else in the vault
    changes.  When the [Logs] folder is missing (or is a file, or the
    entry is not a regular file) the call throws and nothing is
    written. *)
Theorem saveSystemState_effect w :
  exists snapshot w1,
    getDashboardData (tick w) = (Ok snapshot, w1)
    /\ vault w1 = vault w
    /\ let text :=
         JSON_stringify
           (VObj [ ("lastShutdown", VStr (Date_toISOString (Date_now (ticks w))));
                   ("stats", snapshot) ]) in
       match lookup (vault w) VAULT_Logs with
       | Some (Bucket logs) =>
           match lookup logs "system_state.json" with
           | Some Opaque => exists e, saveSystemState w = (Throw e, w1)
           | _ =>
               saveSystemState w
               = (Ok tt,
                  mkWorld (store (vault w) VAULT_Logs
                             (Bucket (store logs "system_state.json" (File text))))
                          (ticks w1))
           end
       | _ => exists e, saveSystemState w = (Throw e, w1)
       end.
Proof.
  destruct (getDashboardData_shape (tick w))
    as (approvals & acts & counters & content & w1 & Hd & Hv & _).
  eexists. exists w1. split; [exact Hd|].
  change (vault (tick w)) with (vault w) in Hv. split; [exact Hv|].
  cbv zeta.
  assert (Hrun : forall snapshot,
             getDashboardData (tick w) = (Ok snapshot, w1) ->
             saveSystemState w
             = fs_writeFile [VAULT_Logs; "system_state.json"]
                 (JSON_stringify
                    (VObj [ ("lastShutdown",
                             VStr (Date_toISOString (Date_now (ticks w))));
                            ("stats", snapshot) ])) w1).
  { intros snapshot Hs. unfold saveSystemState. unfold bind at 1.
    change (clock w) with (@Ok Z (Date_now (ticks w)), tick w).
    cbv beta iota. unfold bind at 1. now rewrite Hs. }
  rewrite (Hrun _ Hd).
  unfold fs_writeFile, bind, get_vault, bucket_of. rewrite Hv.
  destruct (lookup (vault w) VAULT_Logs) as [[text|logs]|];
    [unfold throw; eauto| |unfold throw; eauto].
  unfold ret, put_vault.
  destruct (lookup logs "system_state.json") as [[text|]|];
    [reflexivity|unfold throw; eauto|reflexivity].
Qed.

End LifecycleFacts.

Section HubFacts.
Variable stringify : value -> string.

Lemma socket_of_send store client message ws :
  socket_of (socket_send store client message) ws
  = match socket_of store ws with
    | Some s =>
        if (client =? ws)%nat
        then Some (Socket (readyState s) (outbox s ++ [message]))
        else Some s
    | None => None
    end.
Proof.
  induction store as [|[i s] store IH]; cbn [socket_send socket_of]; [reflexivity|].
  destruct (Nat.eqb_spec i client) as [->|Hne]; cbn [socket_of].
  - destruct (Nat.eqb_spec client ws) as [->|Hne'].
    + reflexivity.
    + destruct (socket_of store ws); reflexivity.
  - destruct (Nat.eqb_spec i ws) as [->|Hne'].
    + destruct (Nat.eqb_spec client ws); [congruence|reflexivity].
    + exact IH.
Qed.

Lemma socket_of_deliver message store client ws :
  socket_of (deliver message store client) ws
  = match socket_of store ws with
    | Some s =>
        if (client =? ws)%nat && (readyState s =? 1)%nat
        then Some (Socket (readyState s) (outbox s ++ [message]))
        else Some s
    | None => None
    end.
Proof.
  unfold deliver.
  destruct (Nat.eqb_spec client ws) as [->|Hne].
  - destruct (socket_of store ws) as [s|] eqn:Es; [|now rewrite Es].
    cbn [andb]. destruct (readyState s =? 1)%nat.
    + rewrite socket_of_send, Es. now rewrite Nat.eqb_refl.
    + now rewrite Es.
  - destruct (socket_of store client) as [s|].
    + destruct (readyState s =? 1)%nat.
      * rewrite socket_of_send. destruct (Nat.eqb_spec client ws); [congruence|].
        now destruct (socket_of store ws).
      * now destruct (socket_of store ws).
    + now destruct (socket_of store ws).
Qed.

Lemma fold_deliver message members : forall store ws,
  NoDup members ->
  socket_of (fold_left (deliver message) members store) ws
  = match socket_of store ws with
    | Some s =>
        if existsb (Nat.eqb ws) members && (readyState s =? 1)%nat
        then Some (Socket (readyState s) (outbox s ++ [message]))
        else Some s
    | None => None
    end.
Proof.
  induction members as [|c rest IH]; intros store ws Hnd; cbn [fold_left existsb].
  - now destruct (socket_of store ws).
  - inversion Hnd as [|? ? Hnotin Hnd']; subst.
    rewrite (IH _ _ Hnd'), socket_of_deliver.
    destruct (socket_of store ws) as [s|]; [|reflexivity].
    rewrite (Nat.eqb_sym ws c).
    destruct (Nat.eqb_spec c ws) as [->|Hne]; cbn [andb orb].
    + assert (Hrest : existsb (Nat.eqb ws) rest = false).
      { apply not_true_is_false. intros Hex.
        apply existsb_exists in Hex as (x & Hin & Hx).
        apply Nat.eqb_eq in Hx. now subst. }
      rewrite Hrest. now destruct (readyState s =? 1)%nat.
    + reflexivity.
Qed.

Lemma on_connection_members ws h :
  NoDup (clients h) ->
  NoDup (clients (on_connection ws h))
  /\ existsb (Nat.eqb ws) (clients (on_connection ws h)) = true.
Proof.
  intros Hnd. unfold on_connection. cbn [clients].
  destruct (existsb (Nat.eqb ws) (clients h)) eqn:E; [now split|].
  split.
  - apply NoDup_app; [exact Hnd|repeat constructor; intros []|].
    intros x Hin [<-|[]].
    assert (existsb (Nat.eqb ws) (clients h) = true); [|congruence].
    apply existsb_exists. exists ws. split; [exact Hin|apply Nat.eqb_refl].
  - rewrite existsb_app. cbn [existsb]. rewrite Nat.eqb_refl.
    now rewrite orb_true_r.
Qed.

Lemma on_close_members ws h :
  NoDup (clients h) ->
  NoDup (clients (on_close ws h))
  /\ existsb (Nat.eqb ws) (clients (on_close ws h)) = false.
Proof.
  intros Hnd. unfold on_close. cbn [clients]. split.
  - now apply NoDup_filter.
  - apply not_true_is_false. intros Hex.
    apply existsb_exists in Hex as (x & Hin & Hx).
    apply Nat.eqb_eq in Hx. subst x.
    apply filter_In in Hin as [_ Hf]. now rewrite Nat.eqb_refl in Hf.
Qed.

(** X26. A broadcast sends the message once to every socket of the
    client set whose [readyState] is 1, and to no other socket: a client
    that is not open, and a socket that is not in the set, receive
    nothing.  The set itself and the sockets' states are not changed. *)
Theorem broadcast_reaches_open_clients (data : value) (h : Hub) (ws : nat) :
  NoDup (clients h) ->
  clients (broadcastUpdate stringify data h) = clients h
  /\ socket_of (sockets (broadcastUpdate stringify data h)) ws
     = match socket_of (sockets h) ws with
       | Some s =>
           if existsb (Nat.eqb ws) (clients h) && (readyState s =? 1)%nat
           then Some (Socket (readyState s) (outbox s ++ [stringify data]))
           else Some s
       | None => None
       end.
Proof.
  intros Hnd. split; [reflexivity|].
  unfold broadcastUpdate. cbn [sockets]. now apply fold_deliver.
Qed.

End HubFacts.

Section CronFacts.
Context `{Runtime}.
Variable stringify : value -> string.

(** X27. A viewer receives exactly the events broadcast while it is
    connected: of a five-minute status event before it connects, the
    weekly audit event while it is connected and a status event after it
    has closed, an open socket gets the audit event only, stamped with
    the time of the second clock reading.  The scheduled tasks read the
    clock once each and leave the vault as it was. *)
Theorem viewer_receives_events_while_connected (w : World) (h : Hub) (ws : nat)
        (s : socket) :
  NoDup (clients h) ->
  existsb (Nat.eqb ws) (clients h) = false ->
  socket_of (sockets h) ws = Some s ->
  readyState s = 1%nat ->
  let '(w1, h1) := status_tick stringify w h in
  let '(w2, h2) := weekly_audit stringify w1 (on_connection ws h1) in
  let '(w3, h3) := status_tick stringify w2 (on_close ws h2) in
  w3 = tick (tick (tick w))
  /\ socket_of (sockets h3) ws
     = Some (Socket 1
               (outbox s
                ++ [stringify
                      (VObj [ ("type", VStr "audit_completed");
                              ("message", VStr "Weekly audit completed");
                              ("timestamp",
                               VStr (Date_toISOString (Date_now (S (ticks w))))) ])])).
Proof.
  intros Hnd Hout Hs Hopen.
  unfold status_tick, weekly_audit, runBusinessAudit, ret, clock.
  cbn [vault ticks]. split; [reflexivity|].
  set (d0 := VObj [ ("type", VStr "status_update");
                    ("timestamp", VStr (Date_toISOString (Date_now (ticks w)))); _ ]).
  set (d1 := VObj [ ("type", VStr "audit_completed"); _; _ ]).
  set (d2 := VObj [ ("type", VStr "status_update"); _; _ ]).
  set (h1 := broadcastUpdate stringify d0 h).
  assert (Hnd1 : NoDup (clients h1)) by exact Hnd.
  assert (Hs1 : socket_of (sockets h1) ws = Some s).
  { unfold h1, broadcastUpdate. cbn [sockets].
    rewrite (fold_deliver _ _ _ _ Hnd), Hs, Hout. reflexivity. }
  destruct (on_connection_members ws h1 Hnd1) as [Hnd2 Hin2].
  set (h2 := broadcastUpdate stringify d1 (on_connection ws h1)).
  assert (Hs2 : socket_of (sockets h2) ws
                = Some (Socket 1 (outbox s ++ [stringify d1]))).
  { unfold h2, broadcastUpdate. cbn [sockets].
    rewrite (fold_deliver _ _ _ _ Hnd2). cbn [on_connection sockets].
    rewrite Hs1, Hin2, Hopen. reflexivity. }
  assert (Hnd3 : NoDup (clients h2)) by exact Hnd2.
  destruct (on_close_members ws h2 Hnd3) as [Hnd4 Hout4].
  unfold broadcastUpdate at 1. cbn [sockets].
  rewrite (fold_deliver _ _ _ _ Hnd4). cbn [on_close sockets].
  rewrite Hs2, Hout4. reflexivity.
Qed.

End CronFacts.

(* ------------------------------------------------------------------ *)
(** ** The further properties at concrete inputs *)

Module Illustrations.
Import Scenario Situations.
#[local] Existing Instance Node.reference.

Lemma approve_missing_fields_witness :
  (member (VObj [("action", VStr "approve")]) "approvalId" = Some VUndefined
   /\ member (VObj [("action", VStr "approve")]) "action" = Some (VStr "approve")
   /\ truthy VUndefined = false)
  /\ api_approve (VObj [("action", VStr "approve")]) (start one_pending)
     = (Ok (Response 400 (VObj [("error", VStr "Missing required fields")])),
        start one_pending).
Proof.
  split; [repeat split; reflexivity|].
  apply (approve_missing_fields (VObj [("action", VStr "approve")])
           VUndefined (VStr "approve"));
    [reflexivity|reflexivity|now left].
Defined.

Lemma process_known_actions_witness :
  fst (api_process (VObj [("action", VStr "audit")]) (start one_pending))
  = Ok (Response 200
          (VObj [ ("success", VBool true);
                  ("message", VStr "audit processing started") ])).
Proof.
  destruct (process_known_actions [("action", VStr "audit")] (start one_pending))
    as (_ & Hknown & _).
  destruct (Hknown eq_refl) as (name & Hname & Hrun).
  vm_compute in Hname. injection Hname as <-. exact Hrun.
Defined.

Lemma approvals_route_total_witness :
  api_approvals (start []) = (Ok (Response 200 (VArr [])), start []).
Proof.
  destruct (approvals_route_total (start []))
    as (approvals & w' & Hrun & _ & Hmissing).
  destruct (Hmissing (fs_error "ENOENT") eq_refl) as [-> ->]. exact Hrun.
Defined.

Lemma stored_counter_reported_witness :
  (read_file with_stored_counter ["Dashboard.md"] = Ok "# AI Employee Dashboard"
   /\ JSON_parse (Node.json "{ 'weeklyRevenue': 3000, 'extra': 1 }")
      = Some (VObj [("weeklyRevenue", VInt 3000); ("extra", VInt 1)])
   /\ truthy (VInt 3000) = true)
  /\ exists snapshot w' counters,
      getDashboardData (start with_stored_counter) = (Ok (VObj snapshot), w')
      /\ obj_find snapshot "stats" = Some (VObj counters)
      /\ obj_find counters "weeklyRevenue"
         = Some (obj_get [("weeklyRevenue", VInt 3000); ("extra", VInt 1)]
                         "weeklyRevenue")
      /\ map fst counters = map fst default_stats.
Proof.
  split; [repeat split; vm_compute; reflexivity|].
  apply (stored_counter_reported (start with_stored_counter)
           "# AI Employee Dashboard"
           (Node.json "{ 'weeklyRevenue': 3000, 'extra': 1 }")
           [("weeklyRevenue", VInt 3000); ("extra", VInt 1)]
           "weeklyRevenue" (VInt 2450));
    try (vm_compute; reflexivity).
  now left.
Defined.

Lemma feed_falls_back_to_seed_witness :
  JSON_parse truncated_log = None
  /\ exists acts,
      getRecentActivities (start with_truncated_log)
      = (Ok acts, tick (tick (start with_truncated_log)))
      /\ length acts = 1%nat.
Proof.
  split; [vm_compute; reflexivity|].
  eexists. split.
  - apply (feed_falls_back_to_seed (start with_truncated_log)).
    vm_compute. exact I.
  - reflexivity.
Defined.

Lemma feed_empty_iff_witness :
  fst (getRecentActivities (start with_empty_log)) = Ok [].
Proof.
  apply (feed_empty_iff (start with_empty_log)).
  exists "[]". split; vm_compute; reflexivity.
Defined.


Lemma logAction_touches_only_day_bucket_witness :
  lookup (vault (after (logAction second_entry) (start one_pending)))
         "Pending_Approval"
  = lookup (vault (start one_pending)) "Pending_Approval".
Proof.
  destruct (logAction_touches_only_day_bucket second_entry (start one_pending))
    as (Hdirs & _ & _).
  apply Hdirs. discriminate.
Defined.

Lemma logAction_rejects_non_array_witness :
  (read_file with_object_log ["Logs"; today] = Ok object_log
   /\ JSON_parse object_log = Some (VObj [("entries", VArr [])]))
  /\ logAction second_entry (start with_object_log)
     = (Throw (Exn "TypeError" "logs.push is not a function"),
        tick (start with_object_log))
  /\ read_file (vault (tick (start with_object_log)))
               [VAULT_Logs; day_bucket (Date_now (ticks (start with_object_log)))]
     = Ok object_log.
Proof.
  split; [split; vm_compute; reflexivity|].
  apply (logAction_rejects_non_array second_entry (start with_object_log)
           object_log (VObj [("entries", VArr [])]));
    try (vm_compute; reflexivity).
  intros entries. discriminate.
Defined.

Lemma appends_accumulate_witness :
  (lookup one_pending VAULT_Logs = Some (Bucket [])
   /\ stored_logs one_pending (Date_now 0) = VArr []
   /\ day_bucket (Date_now 1) = today)
  /\ exists w',
      log_all [first_entry; second_entry] (start one_pending) = (Ok tt, w')
      /\ read_file (vault w') [VAULT_Logs; today]
         = Ok (JSON_stringify (VArr ([] ++ [first_entry; second_entry])))
      /\ ticks w' = (ticks (start one_pending)
                     + length [first_entry; second_entry])%nat.
Proof.
  split; [repeat split; vm_compute; reflexivity|].
  apply (appends_accumulate [first_entry; second_entry] (start one_pending)
           [] [] today).
  - discriminate.
  - reflexivity.
  - discriminate.
  - intros [|[|k]] Hk; [vm_compute; reflexivity..|cbn [length] in Hk; lia].
  - vm_compute; reflexivity.
  - intros [|[|k]] Hk; [lia|vm_compute; reflexivity|cbn [length] in Hk; lia].
Defined.

Lemma appended_entry_is_shown_last_witness :
  (stored_logs one_pending (Date_now 0) = VArr []
   /\ JSON_parse (JSON_stringify (VArr ([] ++ [second_entry])))
      = Some (VArr ([] ++ [second_entry])))
  /\ exists w1 earlier act,
      logAction second_entry (start one_pending) = (Ok tt, w1)
      /\ getRecentActivities w1 = (Ok (earlier ++ [act])%list, tick w1)
      /\ shows second_entry act
      /\ Forall2 shows (slice_last 9 []) earlier.
Proof.
  split; [split; vm_compute; reflexivity|].
  apply (appended_entry_is_shown_last second_entry (start one_pending) [] []);
    try (vm_compute; reflexivity).
  - discriminate.
  - constructor.
  - eexists. split; [reflexivity|]. split; vm_compute; discriminate.
Defined.

Lemma decide_moves_one_file_witness :
  (find (fun g => Str.includes g "12") (pending_names one_pending)
   = Some "APPROVAL_12_hosting.md"
   /\ destination one_pending "Approved" = Some [])
  /\ exists w' updated,
      updateApprovalStatus (VInt 12) (VStr "approve") (start one_pending)
      = (Ok tt, w')
      /\ read_file (vault w') [VAULT_Pending_Approval; "APPROVAL_12_hosting.md"]
         = Throw (fs_error "ENOENT")
      /\ read_file (vault w') [VAULT_Approved; "APPROVAL_12_hosting.md"] = Ok updated
      /\ (forall g, g <> "APPROVAL_12_hosting.md" ->
            read_file (vault w') [VAULT_Pending_Approval; g]
            = read_file (vault (start one_pending)) [VAULT_Pending_Approval; g])
      /\ (forall g, g <> "APPROVAL_12_hosting.md" ->
            read_file (vault w') [VAULT_Approved; g]
            = read_file (vault (start one_pending)) [VAULT_Approved; g])
      /\ (forall dir, dir <> VAULT_Pending_Approval -> dir <> VAULT_Approved ->
            lookup (vault w') dir = lookup (vault (start one_pending)) dir).
Proof.
  split; [split; vm_compute; reflexivity|].
  apply (decide_moves_one_file (start one_pending)
           [("APPROVAL_12_hosting.md", File payment_request)]
           (VInt 12) "12" "approve" "APPROVAL_12_hosting.md" payment_request []);
    try (vm_compute; reflexivity); discriminate.
Defined.

Lemma decide_twice_is_idle_witness :
  (find (fun g => Str.includes g "12") (pending_names one_pending)
   = Some "APPROVAL_12_hosting.md"
   /\ destination one_pending "Approved" = Some [])
  /\ exists w',
      updateApprovalStatus (VInt 12) (VStr "approve") (start one_pending)
      = (Ok tt, w')
      /\ updateApprovalStatus (VInt 12) (VStr "reject") w' = (Ok tt, w').
Proof.
  split; [split; vm_compute; reflexivity|].
  apply (decide_twice_is_idle (start one_pending)
           [("APPROVAL_12_hosting.md", File payment_request)]
           (VInt 12) "12" "approve" (VStr "reject")
           "APPROVAL_12_hosting.md" payment_request []);
    try (vm_compute; reflexivity); try discriminate.
  intros g [<-|[]] Hne. now destruct Hne.
Defined.

Lemma decide_without_status_line_witness :
  (find (fun g => Str.includes g "7") (pending_names with_bare_request)
   = Some "APPROVAL_7_note.md"
   /\ Str.includes bare_request "status: pending" = false)
  /\ exists w',
      updateApprovalStatus (VInt 7) (VStr "approve") (start with_bare_request)
      = (Ok tt, w')
      /\ read_file (vault w') [VAULT_Approved; "APPROVAL_7_note.md"]
         = Ok bare_request.
Proof.
  split; [split; vm_compute; reflexivity|].
  apply (decide_without_status_line (start with_bare_request)
           [("APPROVAL_7_note.md", File bare_request)]
           (VInt 7) "7" "approve" "APPROVAL_7_note.md" bare_request []);
    try (vm_compute; reflexivity); discriminate.
Defined.

Lemma decide_other_action_rejects_witness :
  (find (fun g => Str.includes g "12") (pending_names one_pending)
   = Some "APPROVAL_12_hosting.md"
   /\ destination one_pending "Rejected" = Some [])
  /\ exists w',
      updateApprovalStatus (VInt 12) (VStr "hold") (start one_pending)
      = (Ok tt, w')
      /\ read_file (vault w') [VAULT_Rejected; "APPROVAL_12_hosting.md"]
         = Ok (Str.replace_first "status: pending"
                 ("status: " ++ "hold" ++ "d" ++ Str.nl ++ "approved_at: "
                    ++ Date_toISOString (Date_now (ticks (start one_pending))))
                 payment_request)
      /\ lookup (vault w') VAULT_Approved
         = lookup (vault (start one_pending)) VAULT_Approved.
Proof.
  split; [split; vm_compute; reflexivity|].
  apply (decide_other_action_rejects (start one_pending)
           [("APPROVAL_12_hosting.md", File payment_request)]
           (VInt 12) "12" "hold" "APPROVAL_12_hosting.md" payment_request []);
    try (vm_compute; reflexivity); discriminate.
Defined.

Lemma decide_unreadable_entry_witness :
  (find (fun g => Str.includes g "3") (pending_names with_unreadable_entry)
   = Some "DRAFT_3_notes.md"
   /\ destination with_unreadable_entry "Approved" = Some [])
  /\ exists w' moved,
      api_approve (decision 3 "approve") (start with_unreadable_entry)
      = (Ok (Response 500 (VObj [("error", VStr "Failed to process approval")])),
         w')
      /\ ~ In "DRAFT_3_notes.md" (pending_names (vault w'))
      /\ lookup (vault w') VAULT_Approved = Some (Bucket moved)
      /\ lookup moved "DRAFT_3_notes.md" = Some Opaque
      /\ lookup (vault w') VAULT_Logs
         = lookup (vault (start with_unreadable_entry)) VAULT_Logs.
Proof.
  split; [split; vm_compute; reflexivity|].
  apply (decide_unreadable_entry
           [("approvalId", VInt 3); ("action", VStr "approve")]
           (VInt 3) "approve" (start with_unreadable_entry)
           [ ("APPROVAL_12_hosting.md", File payment_request);
             ("DRAFT_3_notes.md", Opaque) ]
           "3" "DRAFT_3_notes.md" []);
    try (vm_compute; reflexivity); discriminate.
Defined.

Lemma approve_route_moves_and_logs_witness :
  (find (fun g => Str.includes g "12") (pending_names one_pending)
   = Some "APPROVAL_12_hosting.md"
   /\ destination one_pending "Approved" = Some []
   /\ stored_logs one_pending (Date_now 2) = VArr [])
  /\ exists w',
      api_approve (decision 12 "approve") (start one_pending)
      = (Ok (decided "approve"), w')
      /\ ~ In "APPROVAL_12_hosting.md" (pending_names (vault w'))
      /\ read_file (vault w') [VAULT_Approved; "APPROVAL_12_hosting.md"]
         = Ok (Str.replace_first "status: pending"
                 (status_template "approve"
                    (Date_now (ticks (start one_pending)))) payment_request)
      /\ read_file (vault w')
           [VAULT_Logs; day_bucket (Date_now (S (S (ticks (start one_pending)))))]
         = Ok (JSON_stringify
                 (VArr ([] ++ [decision_entry (VInt 12) (VStr "approve")
                                 (Date_now (S (ticks (start one_pending))))]))).
Proof.
  split; [repeat split; vm_compute; reflexivity|].
  apply (approve_route_moves_and_logs
           [("approvalId", VInt 12); ("action", VStr "approve")]
           (VInt 12) "approve" (start one_pending)
           [("APPROVAL_12_hosting.md", File payment_request)]
           "12" "APPROVAL_12_hosting.md" payment_request [] [] []);
    try (vm_compute; reflexivity); discriminate.
Defined.

Lemma missing_pending_bucket_witness :
  read_dir [] VAULT_Pending_Approval = Throw (fs_error "ENOENT")
  /\ getPendingApprovals (start []) = (Ok [], start [])
  /\ api_approve (decision 12 "approve") (start [])
     = (Ok (Response 500 (VObj [("error", VStr "Failed to process approval")])),
        start []).
Proof.
  split; [reflexivity|].
  apply (missing_pending_bucket
           [("approvalId", VInt 12); ("action", VStr "approve")]
           (VInt 12) (VStr "approve") (start []) (fs_error "ENOENT"));
    reflexivity.
Defined.


Lemma initVault_creates_only_what_is_missing_witness :
  exists w',
    initVault (start one_pending) = (Ok tt, w')
    /\ lookup (vault w') "Approved" = Some (Bucket [])
    /\ lookup (vault w') "Done" = Some (Bucket [])
    /\ read_file (vault w') ["Dashboard.md"] = Ok "# AI Employee Dashboard"
    /\ lookup (vault w') "Rejected" = None.
Proof.
  destruct (initVault_creates_only_what_is_missing (start one_pending))
    as (w' & dashboard & handbook & goals & Hrun & _ & _ & _ & _
        & Hkept & Hfolders & _ & Hframe).
  exists w'. split; [exact Hrun|]. split; [|split; [|split]].
  - apply (Hkept "Approved"). reflexivity.
  - apply Hfolders; [cbn; tauto|reflexivity].
  - unfold read_file, fs_readFile, bind, get_vault. cbn [vault fst].
    now rewrite (Hkept "Dashboard.md" (RootFile "# AI Employee Dashboard") eq_refl).
  - rewrite Hframe; [reflexivity| |]; cbn; intuition discriminate.
Defined.

Lemma broadcast_reaches_open_clients_witness :
  NoDup (clients three_sockets)
  /\ clients (broadcastUpdate Node.json_stringify (VStr "saved") three_sockets)
     = clients three_sockets
  /\ socket_of (sockets (broadcastUpdate Node.json_stringify (VStr "saved")
                           three_sockets)) 1
     = match socket_of (sockets three_sockets) 1 with
       | Some s =>
           if existsb (Nat.eqb 1) (clients three_sockets)
              && (readyState s =? 1)%nat
           then Some (Socket (readyState s)
                        (outbox s ++ [Node.json_stringify (VStr "saved")]))
           else Some s
       | None => None
       end.
Proof.
  assert (Hset : NoDup (clients three_sockets)).
  { repeat (constructor; [cbn; intuition discriminate|]). constructor. }
  split; [exact Hset|].
  apply (broadcast_reaches_open_clients Node.json_stringify (VStr "saved")
           three_sockets 1 Hset).
Defined.

Lemma viewer_receives_events_while_connected_witness :
  (existsb (Nat.eqb 3) (clients three_sockets) = false
   /\ socket_of (sockets three_sockets) 3 = Some (Socket 1 []))
  /\ let '(w1, h1) := status_tick Node.json_stringify (start one_pending)
                        three_sockets in
     let '(w2, h2) := weekly_audit Node.json_stringify w1 (on_connection 3 h1) in
     let '(w3, h3) := status_tick Node.json_stringify w2 (on_close 3 h2) in
     w3 = tick (tick (tick (start one_pending)))
     /\ socket_of (sockets h3) 3
        = Some (Socket 1
                  (outbox (Socket 1 [])
                   ++ [Node.json_stringify
                         (VObj [ ("type", VStr "audit_completed");
                                 ("message", VStr "Weekly audit completed");
                                 ("timestamp",
                                  VStr (Date_toISOString
                                          (Date_now
                                             (S (ticks (start one_pending)))))) ])])).
Proof.
  split; [split; reflexivity|].
  apply (viewer_receives_events_while_connected Node.json_stringify
           (start one_pending) three_sockets 3 (Socket 1 []));
    try reflexivity.
  repeat (constructor; [cbn; intuition discriminate|]). constructor.
Defined.

Lemma header_fields_reach_the_record_witness :
  exists props,
    approval_record (VInt 12) "APPROVAL_12_hosting.md"
      (parseFrontmatter payment_request) = VObj props
    /\ obj_find props "status" = obj_find (parseFrontmatter payment_request) "status".
Proof.
  destruct (header_fields_reach_the_record (VInt 12) "APPROVAL_12_hosting.md"
              payment_request) as (props & Hrecord & _ & _ & Hother).
  exists props. split; [exact Hrecord|].
  apply Hother. cbn. intuition discriminate.
Defined.

End Illustrations.
